(** * stacker: the layer build loop of [build.go]

    A shallow embedding of [Builder.Build], [generateSquashfsLayer],
    [mkSquashfs], [updateBundleMtree] and [SaveLayer].  Every call that leaves
    [build.go] (the snapshot store, the OCI layout, the build cache, umoci,
    go-mtree, the operating system) is an operation of an interface; a program
    is a finite tree of such operations, and running it against a handler
    yields the value it returns, the handler's final state and the trace of the
    calls that were made. *)

From Stdlib Require Import ZArith String Ascii List Bool Lia.
From stdpp Require Import gmap strings list.

Local Open Scope string_scope.
Local Open Scope list_scope.

(** ** Go values *)

(** A Go [error] value that is not nil. *)
Inductive GoError : Type :=
| Errorf (msg : string)                   (* fmt.Errorf / errors.New *)
| Errno (e : Z)                           (* syscall.Errno *)
| Wrapf (cause : GoError) (msg : string)  (* errors.Wrapf *)
| Panic (msg : string).                   (* a run-time panic unwinding the function *)

(** Go's [error]: nil is [None]. *)
Definition error : Type := option GoError.

(** Go's [(T, error)] pair of results. *)
Inductive result (A : Type) : Type :=
| Ok (a : A)
| Err (e : GoError).
Arguments Ok {A} a.
Arguments Err {A} e.

#[global] Instance GoError_eq_dec : EqDecision GoError.
Proof. solve_decision. Defined.

Definition ENOENT : Z := 2.
Definition ENOTDIR : Z := 20.
Definition EEXIST : Z := 17.
Definition EPERM : Z := 1.

(** [os.IsNotExist]: of the errors modelled here only the errno ENOENT. *)
Definition os_IsNotExist (err : GoError) : bool :=
  match err with
  | Errno e => Z.eqb e ENOENT
  | _ => false
  end.

Definition nl : string := String (ascii_of_nat 10) EmptyString.

(** [err.Error()], as [%v] and [%s] print an error. *)
Fixpoint Error (err : GoError) : string :=
  match err with
  | Errorf msg => msg
  | Errno e => "errno " ++ (if Z.eqb e ENOENT then "ENOENT" else if Z.eqb e ENOTDIR then "ENOTDIR" else "other")
  | Wrapf cause msg => msg ++ ": " ++ Error cause
  | Panic msg => "panic: " ++ msg
  end.

(** [strings.HasPrefix(s, p)]. *)
Definition strings_HasPrefix (s p : string) : bool := String.prefix p s.

(** [strings.HasSuffix(s, suffix)]. *)
Definition strings_HasSuffix (s suffix : string) : bool :=
  String.prefix (String.rev suffix) (String.rev s).

Fixpoint string_drop (n : nat) (s : string) : string :=
  match n, s with
  | O, _ => s
  | S n', String _ s' => string_drop n' s'
  | S _, EmptyString => EmptyString
  end.

(** [strings.Replace(s, old, new, 1)]: the first occurrence only. *)
Fixpoint strings_Replace1 (s old new : string) : string :=
  if String.prefix old s then new ++ string_drop (String.length old) s
  else match s with
       | EmptyString => EmptyString
       | String c s' => String c (strings_Replace1 s' old new)
       end.

(** [strings.Join(elems, sep)]. *)
Definition strings_Join (elems : list string) (sep : string) : string :=
  String.concat sep elems.

Fixpoint string_mem (c : ascii) (s : string) : bool :=
  match s with
  | EmptyString => false
  | String d s' => if Ascii.eqb c d then true else string_mem c s'
  end.

Fixpoint trim_left (s cutset : string) : string :=
  match s with
  | EmptyString => EmptyString
  | String c s' => if string_mem c cutset then trim_left s' cutset else s
  end.

(** [strings.TrimRight(s, cutset)]. *)
Definition strings_TrimRight (s cutset : string) : string :=
  String.rev (trim_left (String.rev s) cutset).

(** ** Data of the collaborators *)

(** [ispec.Descriptor]; [ispec.Descriptor{}] is [zeroDescriptor]. *)
Record Descriptor : Type := mkDescriptor {
  MediaType : string;
  Digest : string;
  Size : Z
}.

Definition zeroDescriptor : Descriptor := mkDescriptor "" "" 0.

(** [casext.DescriptorPath]: the walk from a reference to a blob. *)
Record DescriptorPath : Type := mkDescriptorPath {
  Walk : list Descriptor
}.

(** [DescriptorPath.Root()] is [Walk[0]], [DescriptorPath.Descriptor()] the
    last element; umoci only hands out non-empty walks. *)
Definition Root (p : DescriptorPath) : Descriptor := hd zeroDescriptor (Walk p).
Definition PathDescriptor (p : DescriptorPath) : Descriptor := List.last (Walk p) zeroDescriptor.

Record StackerConfig : Type := mkStackerConfig {
  StackerDir : string;
  OCIDir : string;
  RootFSDir : string
}.

Record BuildArgs : Type := mkBuildArgs {
  Config : StackerConfig;
  LeaveUnladen : bool;
  NoCache : bool;
  Substitute : list string;
  OnRunFailure : string;
  ApplyConsiderTimestamps : bool;
  LayerType : string;
  Debug : bool;
  OrderOnly : bool;
  RemoteSaveTags : list string
}.

(** The kinds of image source [build.go] names, and any other. *)
Inductive SourceType : Type :=
| DockerType
| OCIType
| BuiltType
| OtherType (name : string).

Definition SourceType_String (t : SourceType) : string :=
  match t with
  | DockerType => "docker"
  | OCIType => "oci"
  | BuiltType => "built"
  | OtherType n => n
  end.

Record ImageSource : Type := mkImageSource {
  Type_ : SourceType;
  Url : string;
  Tag : string
}.

(** A layer of a stackerfile.  Its parsing methods do not touch the world, so
    the record carries what each of them returns. *)
Record Layer : Type := mkLayer {
  From_ : ImageSource;
  ParseImport : result (list string);
  ParseRun : result (list string);
  Cmd : option (result (list string));          (* l.Cmd != nil, l.ParseCmd() *)
  Entrypoint : option (result (list string));   (* l.Entrypoint != nil, l.ParseEntrypoint() *)
  FullCommand : option (result (list string));  (* l.FullCommand != nil, l.ParseFullCommand() *)
  Environment : list (string * string);         (* in the order the range loop visits it *)
  Volumes : list string;
  Labels : list (string * string);
  WorkingDir : string;
  BuildOnly : bool
}.

Record Stackerfile : Type := mkStackerfile {
  AfterSubstitutions : string;
  referenceDirectory : string;
  SaveUrl : string;                              (* sf.buildConfig.SaveUrl *)
  layers : gmap string Layer;
  DependencyOrder : result (list string)         (* sf.DependencyOrder() *)
}.

(** [sf.Get(name)]. *)
Definition Get (sf : Stackerfile) (name : string) : option Layer := layers sf !! name.

(** An entry of the build cache: [cacheEntry.Name], [cacheEntry.Blob]. *)
Record CacheEntry : Type := mkCacheEntry {
  Name : string;
  Blob : Descriptor
}.

(** [ispec.ImageConfig]; a nil map is [None]. *)
Record ImageConfig : Type := mkImageConfig {
  Env : list string;
  ConfigCmd : list string;
  ConfigEntrypoint : list string;
  ConfigVolumes : option (gset string);
  ConfigLabels : option (gmap string string);
  ConfigWorkingDir : string
}.

(** [mutate.Meta]. *)
Record MutateMeta : Type := mkMutateMeta {
  Created : Z;
  Author : string;
  Architecture : string;
  OS : string
}.

(** [ispec.History]. *)
Record History : Type := mkHistory {
  EmptyLayer : bool;
  HistoryCreated : Z;
  CreatedBy : string;
  HistoryAuthor : string
}.

(** [umoci.Meta], the bundle's metadata. *)
Record BundleMeta : Type := mkBundleMeta {
  Version : string;
  MetaFrom : DescriptorPath
}.

(** go-mtree's classification of a path. *)
Inductive DifferenceType : Type :=
| Missing
| Extra
| Modified
| Same
| ErrorDifference.

(** An [mtree.Entry]: a path of a manifest, whether it is a directory, and the
    values of its keywords (its fingerprint). *)
Record Entry : Type := mkEntry {
  EntryName : string;
  IsDir : bool;
  Keys : string
}.

(** An [mtree.DirectoryHierarchy]: the manifest of a tree. *)
Definition DirectoryHierarchy : Type := list Entry.

(** An [mtree.InodeDelta].  go-mtree supplies [Old] for Missing and Modified
    paths and [New] for Extra and Modified ones; [build.go] reads no other. *)
Record InodeDelta : Type := mkInodeDelta {
  DiffType : DifferenceType;
  Path : string;
  Old : Entry;
  New : Entry
}.

(** Modelled from the spec: package [squashfs] is not part of the sources read
    here.  The diff engine's interface to the packaging tool is a list of paths
    to include (each with its directory-ness) and a list of paths to exclude;
    [AddInclude] and [AddExclude] record one path each. *)
Record ExcludePaths : Type := mkExcludePaths {
  include : list (string * bool);
  exclude : list string
}.

Definition NewExcludePaths : ExcludePaths := mkExcludePaths [] [].

Definition AddInclude (eps : ExcludePaths) (p : string) (isDir : bool) : ExcludePaths :=
  mkExcludePaths (include eps ++ [(p, isDir)]) (exclude eps).

Definition AddExclude (eps : ExcludePaths) (p : string) : ExcludePaths :=
  mkExcludePaths (include eps) (exclude eps ++ [p]).

(** [BaseLayerOpts], without the two handles (cache and layout). *)
Record BaseLayerOpts : Type := mkBaseLayerOpts {
  BaseConfig : StackerConfig;
  BaseName : string;
  Target : string;
  BaseLayer : Layer;
  BaseLayerType : string;
  BaseDebug : bool
}.

(** [Builder]: the stackerfiles built so far, by file, and the options. *)
Record Builder : Type := mkBuilder {
  builtStackerfiles : gmap string Stackerfile;
  opts : BuildArgs
}.

Definition NewBuilder (o : BuildArgs) : Builder := mkBuilder ∅ o.

(** ** The interface to the collaborators

    [Op X] is a call that leaves [build.go] and comes back with an [X]. *)
Inductive Op : Type -> Type :=
(* fmt, os, io/ioutil, os/user, time, x/sys/unix *)
| fmt_Printf (msg : string) : Op unit
| os_RemoveAll (p : string) : Op error
| os_Stat (p : string) : Op error
| os_Getenv (key : string) : Op string
| os_Hostname : Op (result string)
| os_Open (p : string) : Op (result string)
| os_Remove (p : string) : Op error
| os_Rename (oldpath newpath : string) : Op error
| os_MkdirAll (p : string) (perm : Z) : Op error
| ioutil_ReadDir (p : string) : Op (result (list string))
| ioutil_WriteFile (p : string) (data : string) (perm : Z) : Op error
| user_Current : Op (result string)
| time_Now : Op Z
| unix_Mknod (p : string) (mode : Z) (dev : Z) : Op error
(* the stackerfile and its helpers *)
| NewStackerfile (file : string) (substitute : list string) : Op (result Stackerfile)
| GitVersion (dir : string) : Op (string * error)
| NewGitLayerTag (dir : string) : Op (result string)
| NewImageSource (url : string) : Op (result ImageSource)
| lib_ImageCopy (src dest : string) (skipTLS : bool) : Op error
| Import (config : StackerConfig) (name : string) (imports : list string) : Op error
| GetBaseLayer (o : BaseLayerOpts) (sfm : gmap string Stackerfile) : Op error
| NewApply (sfm : gmap string Stackerfile) (o : BaseLayerOpts) (considerTimestamps : bool) : Op error
| apply_DoApply : Op error
| Run (config : StackerConfig) (name : string) (command : string) (l : Layer) (onFailure : string) : Op error
| RunUmociSubcommand (config : StackerConfig) (debug : bool) (args : list string) : Op error
(* the snapshot store *)
| NewStorage (config : StackerConfig) : Op error
| s_Detach : Op error
| s_Delete (name : string) : Op error
| s_Create (name : string) : Op error
| s_Restore (source target : string) : Op error
| s_Snapshot (source target : string) : Op error
(* the build cache *)
| OpenCache (config : StackerConfig) (sfm : gmap string Stackerfile) : Op error
| buildCache_Lookup (name : string) : Op (option CacheEntry)
| buildCache_Put (name : string) (blob : Descriptor) : Op error
(* the OCI layout, umoci and its mutator *)
| umoci_CreateLayout (dir : string) : Op error
| umoci_OpenLayout (dir : string) : Op error
| oci_Close : Op error
| oci_UpdateReference (name : string) (d : Descriptor) : Op error
| oci_ResolveReference (name : string) : Op (result (list DescriptorPath))
| oci_GC : Op error
| AddBlobNoCompression (name : string) (blob : string) : Op (result Descriptor)
| mutate_New (src : DescriptorPath) : Op error
| mutator_Config : Op (result ImageConfig)
| mutator_Meta : Op (result MutateMeta)
| mutator_Annotations : Op (result (gmap string string))
| mutator_Set (config : ImageConfig) (meta : MutateMeta) (annotations : gmap string string) (history : History) : Op error
| mutator_Commit : Op (result DescriptorPath)
| umoci_ReadBundleMeta (bundle : string) : Op (result BundleMeta)
| umoci_WriteBundleMeta (bundle : string) (meta : BundleMeta) : Op error
| umoci_GenerateBundleManifest (mtreeName bundle : string) : Op error
(* go-mtree and squashfs *)
| mtree_ParseSpec (file : string) : Op (result DirectoryHierarchy)
| mtree_Walk (root : string) : Op (result DirectoryHierarchy)
| mtree_CompareSame (oldDH newDH : DirectoryHierarchy) : Op (result (list InodeDelta))
| squashfs_MakeSquashfs (tempdir rootfs : string) (eps : ExcludePaths) : Op (result string)
| tmpSquashfs_Close : Op error.

(** ** Programs over the interface *)

Inductive Prog (A : Type) : Type :=
| Ret (a : A)
| Vis {X : Type} (op : Op X) (k : X -> Prog A).
Arguments Ret {A} a.
Arguments Vis {A X} op k.

Fixpoint pbind {A B : Type} (p : Prog A) (f : A -> Prog B) : Prog B :=
  match p with
  | Ret a => f a
  | Vis op k => Vis op (fun x => pbind (k x) f)
  end.

(** A call with the value it came back with. *)
Inductive Event : Type :=
| Ev {X : Type} (op : Op X) (x : X).

(** How a world of type [W] answers the calls. *)
Definition Handler (W : Type) : Type := forall X : Type, Op X -> W -> X * W.

(** Running a program: its value, the final world and the calls in order. *)
Fixpoint runProg {W A : Type} (h : Handler W) (p : Prog A) (w : W) : A * W * list Event :=
  match p with
  | Ret a => (a, w, [])
  | Vis op k =>
      let '(x, w1) := h _ op w in
      let '(a, w2, t) := runProg h (k x) w1 in
      (a, w2, Ev op x :: t)
  end.

(** The body of a Go function returning an [error] last: [Err e] is
    [return ..., e], and a bind passes an error on, as the ubiquitous
    [if err != nil { return err }] does. *)
Definition M (A : Type) : Type := Prog (result A).

(** [return err]. *)
Definition throw {A : Type} (e : GoError) : M A := Ret (Err e).

#[global] Instance M_bind : MBind M := fun A B f m =>
  pbind m (fun r => match r with Ok a => f a | Err e => Ret (Err e) end).

#[global] Instance M_ret : MRet M := fun A a => Ret (Ok a).

(** A call whose result is not an error, or whose error is dropped. *)
Definition call {X : Type} (op : Op X) : M X := Vis op (fun x => Ret (Ok x)).

(** [if err := f(); err != nil { return err }]. *)
Definition check (op : Op error) : M unit :=
  Vis op (fun e => match e with None => Ret (Ok tt) | Some err => Ret (Err err) end).

(** [v, err := f(); if err != nil { return err }]. *)
Definition try {X : Type} (op : Op (result X)) : M X := Vis op (fun r => Ret r).

(** The result of a method that does not touch the world. *)
Definition pure {X : Type} (r : result X) : M X := Ret r.

(** [defer d()] in front of [body]: [d] runs when the function leaves, however
    it leaves, and what it returns is dropped. *)
Definition defer {X A : Type} (d : Op X) (body : M A) : M A :=
  pbind body (fun r => Vis d (fun _ => Ret r)).

(** [errors.Wrapf(err, msg)] on the error path of [m]. *)
Definition wrapf {A : Type} (m : M A) (msg : string) : M A :=
  pbind m (fun r => match r with Ok a => Ret (Ok a) | Err e => Ret (Err (Wrapf e msg)) end).

Definition fmt_Println (msg : string) : M unit := call (fmt_Printf (msg ++ nl)).

(** [descPaths[0]]: indexing an empty slice panics. *)
Definition index0 {A : Type} (l : list A) : M A :=
  match l with
  | [] => throw (Panic "index out of range [0] with length 0")
  | x :: _ => mret x
  end.

(** [return err], for an [err] that may be nil. *)
Definition return_ (err : error) : M unit :=
  match err with
  | None => mret tt
  | Some e => throw e
  end.

Definition error_of (r : result unit) : error :=
  match r with
  | Ok _ => None
  | Err e => Some e
  end.

Definition S_IFCHR : Z := 8192.

(** [unix.Mkdev(major, minor)] on Linux. *)
Definition Mkdev (major minor : Z) : Z :=
  Z.lor (Z.lor (Z.shiftl (Z.land major 4095) 8) (Z.shiftl (Z.land major 4294963200) 32))
        (Z.lor (Z.land minor 255) (Z.shiftl (Z.land minor 4294967040) 12)).

(** ** The program *)

Section Stacker.

(** Constants of the repository and of its libraries that [build.go] names
    and does not define, and [path.Join] of Go's library. *)
Context (WorkingContainerName ReasonableDefaultPath : string).
Context (GitVersionAnnotation StackerContentsAnnotation MetaVersion : string).
Context (GOARCH GOOS : string).
Context (path_Join : list string -> string).

(** [updateBundleMtree], the loop over the directory (lines 49-57). *)
Fixpoint renameFirstMtree (rootPath newName : string) (infos : list string) : M unit :=
  match infos with
  | [] => mret tt
  | fi :: rest =>
      if negb (strings_HasSuffix fi ".mtree") then renameFirstMtree rootPath newName rest
      else check (os_Rename (path_Join [rootPath; fi]) (path_Join [rootPath; newName]))
  end.

Definition updateBundleMtree (rootPath : string) (newPath : Descriptor) : M unit :=
  let newName := strings_Replace1 (Digest newPath) ":" "_" +:+ ".mtree" in
  infos ← try (ioutil_ReadDir rootPath);
  renameFirstMtree rootPath newName infos.

Definition mkSquashfs (config : StackerConfig) (eps : ExcludePaths) : M string :=
  check (os_MkdirAll (OCIDir config) 493);;
  let rootfsPath := path_Join [RootFSDir config; WorkingContainerName; "rootfs"] in
  try (squashfs_MakeSquashfs (OCIDir config) rootfsPath eps).

(** [generateSquashfsLayer], the loop over the diffs (lines 120-139).  The
    loop appends to [missing], which the deferred function of lines 114-118
    reads when the function leaves, so the loop hands [missing] back with
    either the error it returns or the paths it has collected. *)
Fixpoint squashfsDiffs (rootfsPath : string) (diffs : list InodeDelta)
    (missing : list string) (paths : ExcludePaths) : Prog (list string * result ExcludePaths) :=
  match diffs with
  | [] => Ret (missing, Ok paths)
  | diff :: rest =>
      match DiffType diff with
      | Modified | Extra =>
          let p := path_Join [rootfsPath; Path diff] in
          let missing := missing ++ [p] in
          let paths := AddInclude paths p (IsDir (New diff)) in
          squashfsDiffs rootfsPath rest missing paths
      | Missing =>
          let p := path_Join [rootfsPath; Path diff] in
          let missing := missing ++ [p] in
          let paths := AddInclude paths p (IsDir (Old diff)) in
          Vis (unix_Mknod p S_IFCHR (Mkdev 0 0)) (fun err =>
            match err with
            | Some e =>
                if negb (os_IsNotExist e) && negb (bool_decide (e = Errno ENOTDIR))
                then Ret (missing, Err (Wrapf e ("couldn't mknod whiteout for " +:+ Path diff)))
                else squashfsDiffs rootfsPath rest missing paths
            | None => squashfsDiffs rootfsPath rest missing paths
            end)
      | Same =>
          squashfsDiffs rootfsPath rest missing (AddExclude paths (path_Join [rootfsPath; Path diff]))
      | ErrorDifference => squashfsDiffs rootfsPath rest missing paths
      end
  end.

(** The deferred function of lines 114-118. *)
Fixpoint removeMissing (missing : list string) : Prog unit :=
  match missing with
  | [] => Ret tt
  | f :: rest => Vis (os_Remove f) (fun _ => removeMissing rest)
  end.

(** [generateSquashfsLayer] from [mkSquashfs] on (lines 141-167). *)
Definition squashfsPackage (name : string) (o : BuildArgs) (meta : BundleMeta)
    (mtreePath : string) (paths : ExcludePaths) : M unit :=
  let bundlePath := path_Join [RootFSDir (Config o); WorkingContainerName] in
  tmpSquashfs ← mkSquashfs (Config o) paths;
  defer tmpSquashfs_Close (
    desc ← try (AddBlobNoCompression name tmpSquashfs);
    let newName := strings_Replace1 (Digest desc) ":" "_" +:+ ".mtree" in
    check (umoci_GenerateBundleManifest newName bundlePath);;
    call (os_Remove mtreePath);;
    let meta := mkBundleMeta (Version meta) (mkDescriptorPath [desc]) in
    check (umoci_WriteBundleMeta bundlePath meta);;
    mret tt).

Definition generateSquashfsLayer (name author : string) (o : BuildArgs) : M unit :=
  let bundlePath := path_Join [RootFSDir (Config o); WorkingContainerName] in
  meta ← try (umoci_ReadBundleMeta bundlePath);
  let mtreeName := strings_Replace1 (Digest (PathDescriptor (MetaFrom meta))) ":" "_" in
  let mtreePath := path_Join [RootFSDir (Config o); WorkingContainerName; mtreeName +:+ ".mtree"] in
  mfh ← try (os_Open mtreePath);
  spec ← try (mtree_ParseSpec mfh);
  let rootfsPath := path_Join [RootFSDir (Config o); WorkingContainerName; "rootfs"] in
  newDH ← wrapf (try (mtree_Walk rootfsPath)) ("couldn't mtree walk " +:+ rootfsPath);
  diffs ← try (mtree_CompareSame spec newDH);
  pbind (squashfsDiffs rootfsPath diffs [] NewExcludePaths) (fun '(missing, r) =>
    pbind (match r with
           | Ok paths => squashfsPackage name o meta mtreePath paths
           | Err e => throw e
           end)
          (fun res => pbind (removeMissing missing) (fun _ => Ret res))).

(** [SaveLayer], the loop over the tags (lines 201-222). *)
Fixpoint saveTags (o : BuildArgs) (sf : Stackerfile) (name : string)
    (isrc : ImageSource) (tags : list string) : M unit :=
  match tags with
  | [] => mret tt
  | tag :: rest =>
      destUrl ← match Type_ isrc with
                | DockerType => mret (strings_TrimRight (SaveUrl sf) "/" +:+ "/" +:+ name +:+ ":" +:+ tag)
                | OCIType => mret (SaveUrl sf +:+ ":" +:+ name +:+ "_" +:+ tag)
                | t => throw (Errorf ("can't save layers to destination type: " +:+ SourceType_String t))
                end;
      call (fmt_Printf ("saving " +:+ destUrl +:+ nl));;
      check (lib_ImageCopy ("oci:" +:+ OCIDir (Config o) +:+ ":" +:+ name) destUrl true);;
      saveTags o sf name isrc rest
  end.

Definition SaveLayer (o : BuildArgs) (sf : Stackerfile) (name : string) : M unit :=
  if Nat.eqb (String.length (SaveUrl sf)) 0
  then throw (Errorf ("layer " +:+ name +:+ " cannot be saved since it doesn't have a save URL"))
  else
    isrc ← try (NewImageSource (SaveUrl sf));
    let tags := RemoteSaveTags o in
    commitTag ← call (NewGitLayerTag (referenceDirectory sf));
    let tags := match commitTag with
                | Ok commitTag => tags ++ [commitTag]
                | Err _ => tags
                end in
    (if Nat.eqb (length tags) 0
     then call (fmt_Printf ("can't save layer " +:+ name +:+ " since list of tags is empty" +:+ nl))
     else mret tt);;
    saveTags o sf name isrc tags.

(** The first loop over the environment (lines 479-484). *)
Fixpoint rangeEnvironment (env : list (string * string)) (pathSet : bool)
    (imageEnv : list string) : bool * list string :=
  match env with
  | [] => (pathSet, imageEnv)
  | (k, v) :: rest =>
      let pathSet := if String.eqb k "PATH" then true else pathSet in
      rangeEnvironment rest pathSet (imageEnv ++ [k +:+ "=" +:+ v])
  end.

(** The second loop (lines 487-492): the first entry with the prefix ends it. *)
Fixpoint rangePathPrefix (imageEnv : list string) : bool :=
  match imageEnv with
  | [] => false
  | s :: rest => if strings_HasPrefix s "PATH=" then true else rangePathPrefix rest
  end.

(** Lines 478-498: the environment of the image configuration. *)
Definition setEnvironment (l : Layer) (imageEnv : list string) : list string :=
  let '(pathSet, imageEnv) := rangeEnvironment (Environment l) false imageEnv in
  let pathSet := if negb pathSet then rangePathPrefix imageEnv else pathSet in
  if negb pathSet then imageEnv ++ ["PATH=" +:+ ReasonableDefaultPath] else imageEnv.

(** Lines 478-540: the image configuration of the layer. *)
Definition layerImageConfig (l : Layer) (imageConfig : ImageConfig) : M ImageConfig :=
  let env := setEnvironment l (Env imageConfig) in
  cmd ← match Cmd l with
        | Some parsed => pure parsed
        | None => mret (ConfigCmd imageConfig)
        end;
  entrypoint ← match Entrypoint l with
               | Some parsed => pure parsed
               | None => mret (ConfigEntrypoint imageConfig)
               end;
  '(cmd, entrypoint) ← match FullCommand l with
                       | Some parsed => e ← pure parsed; mret ([], e)
                       | None => mret (cmd, entrypoint)
                       end;
  let volumes := match ConfigVolumes imageConfig with
                 | None => ∅
                 | Some vs => vs
                 end in
  let volumes := foldl (fun vs v => {[ v ]} ∪ vs) volumes (Volumes l) in
  let labels := match ConfigLabels imageConfig with
                | None => ∅
                | Some ls => ls
                end in
  let labels := foldl (fun ls kv => <[ kv.1 := kv.2 ]> ls) labels (Labels l) in
  let workingDir := if negb (String.eqb (WorkingDir l) "") then WorkingDir l
                    else ConfigWorkingDir imageConfig in
  mret (mkImageConfig env cmd entrypoint (Some volumes) (Some labels) workingDir).

(** ** [Builder.Build] *)

(** The body of the loop on a cache hit (lines 332-357). *)
Definition buildLayerHit (o : BuildArgs) (sf : Stackerfile) (name : string)
    (l : Layer) (cacheEntry : CacheEntry) : M unit :=
  (if BuildOnly l then
     if negb (String.eqb (Name cacheEntry) name)
     then check (s_Snapshot (Name cacheEntry) name)
     else mret tt
   else check (oci_UpdateReference name (Blob cacheEntry)));;
  call (fmt_Printf ("found cached layer " +:+ name +:+ nl));;
  if negb (Nat.eqb (String.length (SaveUrl sf)) 0)
  then SaveLayer o sf name
  else mret tt.

(** Lines 359-394: the working container and the base layer. *)
Definition materializeBase (b : Builder) (name : string) (l : Layer) : M unit :=
  let o := opts b in
  let baseOpts := mkBaseLayerOpts (Config o) name WorkingContainerName l (LayerType o) (Debug o) in
  call (s_Delete WorkingContainerName);;
  (match Type_ (From_ l) with
   | BuiltType => check (s_Restore (Tag (From_ l)) WorkingContainerName)
   | _ => check (s_Create WorkingContainerName)
   end);;
  check (GetBaseLayer baseOpts (builtStackerfiles b));;
  check (NewApply (builtStackerfiles b) baseOpts (ApplyConsiderTimestamps o));;
  check apply_DoApply.

(** Lines 396-420: the commands of the layer. *)
Definition runCommands (o : BuildArgs) (name : string) (l : Layer) : M unit :=
  fmt_Println "running commands...";;
  run ← pure (ParseRun l);
  if negb (Nat.eqb (length run) 0) then
    statErr ← call (os_Stat (path_Join [RootFSDir (Config o); WorkingContainerName; "rootfs/bin/sh"]));
    match statErr with
    | Some _ => throw (Errorf ("rootfs for " +:+ name +:+ " does not have a /bin/sh"))
    | None =>
        let importsDir := path_Join [StackerDir (Config o); "imports"; name] in
        let script := "#!/bin/sh -xe" +:+ nl +:+ strings_Join run nl in
        check (ioutil_WriteFile (path_Join [importsDir; ".stacker-run.sh"]) script 493);;
        fmt_Println ("running commands for " +:+ name);;
        check (Run (Config o) name "/stacker/.stacker-run.sh" l (OnRunFailure o))
    end
  else mret tt.

(** Lines 426-442: a build only layer is snapshotted and gets a cache entry
    with an empty descriptor. *)
Definition snapshotBuildOnly (name : string) : M unit :=
  call (s_Delete name);;
  check (s_Snapshot WorkingContainerName name);;
  fmt_Println "build only layer, skipping OCI diff generation";;
  check (buildCache_Put name zeroDescriptor).

(** Lines 444-462: the layer of the image, by the configured layer type. *)
Definition generateLayer (o : BuildArgs) (name author : string) : M unit :=
  fmt_Println ("generating layer for " +:+ name);;
  if String.eqb (LayerType o) "tar" then
    check (RunUmociSubcommand (Config o) (Debug o)
             ["--tag"; name;
              "--bundle-path"; path_Join [RootFSDir (Config o); WorkingContainerName];
              "repack"])
  else if String.eqb (LayerType o) "squashfs" then
    generateSquashfsLayer name author o
  else throw (Errorf ("unknown layer type: " +:+ LayerType o)).

(** Lines 463-598: the configuration, metadata and annotations of the image,
    the new manifest, the reference of the layer and the bundle's metadata. *)
Definition commitMetadata (o : BuildArgs) (sf : Stackerfile)
    (gitVersion author name : string) (l : Layer) : M unit :=
  descPaths ← try (oci_ResolveReference name);
  d0 ← index0 descPaths;
  wrapf (check (mutate_New d0)) "mutator failed";;
  imageConfig ← try mutator_Config;
  imageConfig ← layerImageConfig l imageConfig;
  meta ← try mutator_Meta;
  created ← call time_Now;
  let meta := mkMutateMeta created author GOARCH GOOS in
  annotations ← try mutator_Annotations;
  annotations ← (if negb (String.eqb gitVersion "") then
                   fmt_Println ("setting git version annotation to " +:+ gitVersion);;
                   mret (<[ GitVersionAnnotation := gitVersion ]> annotations)
                 else mret (<[ StackerContentsAnnotation := AfterSubstitutions sf ]> annotations));
  let history := mkHistory true created "stacker build" author in
  check (mutator_Set imageConfig meta annotations history);;
  newPath ← try mutator_Commit;
  check (oci_UpdateReference name (Root newPath));;
  let bundlePath := path_Join [RootFSDir (Config o); WorkingContainerName] in
  updateBundleMtree bundlePath (PathDescriptor newPath);;
  let umociMeta := mkBundleMeta MetaVersion newPath in
  check (umoci_WriteBundleMeta bundlePath umociMeta).

(** Lines 600-623: the snapshot of the layer, its cache entry, the save. *)
Definition snapshotAndCache (o : BuildArgs) (sf : Stackerfile) (name : string) : M unit :=
  call (s_Delete name);;
  check (s_Snapshot WorkingContainerName name);;
  call (fmt_Printf ("filesystem " +:+ name +:+ " built successfully" +:+ nl));;
  descPaths ← try (oci_ResolveReference name);
  d0 ← index0 descPaths;
  check (buildCache_Put name (PathDescriptor d0));;
  if negb (Nat.eqb (String.length (SaveUrl sf)) 0)
  then SaveLayer o sf name
  else mret tt.

(** The body of the loop on a cache miss (lines 359-623). *)
Definition buildLayerMiss (b : Builder) (sf : Stackerfile)
    (gitVersion author name : string) (l : Layer) : M unit :=
  let o := opts b in
  materializeBase b name l;;
  runCommands o name l;;
  if BuildOnly l then snapshotBuildOnly name
  else
    generateLayer o name author;;
    commitMetadata o sf gitVersion author name l;;
    snapshotAndCache o sf name.

(** The body of the loop over [order] (lines 310-623): [Ok tt] is the end of
    the body or a [continue], [Err e] is [return e]. *)
Definition buildLayer (b : Builder) (sf : Stackerfile)
    (gitVersion author name : string) : M unit :=
  let o := opts b in
  l ← match Get sf name with
      | Some l => mret l
      | None => throw (Errorf (name +:+ " not present in stackerfile?"))
      end;
  call (fmt_Printf ("building image " +:+ name +:+ "..." +:+ nl));;
  fmt_Println "importing files...";;
  imports ← pure (ParseImport l);
  check (Import (Config o) name imports);;
  cacheEntry ← call (buildCache_Lookup name);
  match cacheEntry with
  | Some cacheEntry => buildLayerHit o sf name l cacheEntry
  | None => buildLayerMiss b sf gitVersion author name l
  end.

(** The loop over [order] (line 309). *)
Fixpoint buildLayers (b : Builder) (sf : Stackerfile)
    (gitVersion author : string) (order : list string) : M unit :=
  match order with
  | [] => mret tt
  | name :: rest =>
      buildLayer b sf gitVersion author name;;
      buildLayers b sf gitVersion author rest
  end.

(** Lines 279-631, once the stackerfile is recorded in the builder. *)
Definition buildWithLayout (b : Builder) (sf : Stackerfile) (order : list string) : M unit :=
  let o := opts b in
  check (OpenCache (Config o) (builtStackerfiles b));;
  gv ← call (GitVersion (referenceDirectory sf));
  let gitVersion := gv.1 in
  username ← call (os_Getenv "SUDO_USER");
  username ← (if String.eqb username "" then try user_Current else mret username);
  host ← try os_Hostname;
  let author := username +:+ "@" +:+ host in
  call (s_Delete WorkingContainerName);;
  buildLayers b sf gitVersion author order;;
  err ← call oci_GC;
  match err with
  | Some e => call (fmt_Printf ("final OCI GC failed: " +:+ Error e +:+ nl))
  | None => mret tt
  end;;
  return_ err.

(** [defer d()] in a function that returns the builder with its error. *)
Definition deferB {X : Type} (d : Op X) (body : Prog (Builder * error)) : Prog (Builder * error) :=
  pbind body (fun r => Vis d (fun _ => Ret r)).

(** [Build] builds a single stackerfile.  It returns its error and the
    builder, whose map of built stackerfiles it updates in place. *)
Definition Build (b : Builder) (file : string) : Prog (Builder * error) :=
  let o := opts b in
  pbind (if NoCache o
         then Vis (os_RemoveAll (StackerDir (Config o))) (fun _ => Ret tt)
         else Ret tt) (fun _ =>
  Vis (NewStackerfile file (Substitute o)) (fun r =>
  match r with
  | Err e => Ret (b, Some e)
  | Ok sf =>
  Vis (NewStorage (Config o)) (fun err =>
  match err with
  | Some e => Ret (b, Some e)
  | None =>
  (if negb (LeaveUnladen o) then deferB s_Detach else fun body => body) (
  match DependencyOrder sf with
  | Err e => Ret (b, Some e)
  | Ok order =>
  Vis (os_Stat (OCIDir (Config o))) (fun statErr =>
  Vis (match statErr with
       | Some _ => umoci_CreateLayout (OCIDir (Config o))
       | None => umoci_OpenLayout (OCIDir (Config o))
       end) (fun err =>
  match err with
  | Some e => Ret (b, Some e)
  | None =>
  deferB oci_Close (
  let b := mkBuilder (<[ file := sf ]> (builtStackerfiles b)) o in
  pbind (buildWithLayout b sf order) (fun r => Ret (b, error_of r)))
  end))
  end)
  end)
  end)).

End Stacker.

(** ** A world to run the program in

    The handler below answers every call from a state: the build cache, the
    named references of the OCI layout, the snapshot store and a file tree.
    Any call can be made to fail by [faults]; a call that fails changes
    nothing. *)

Inductive Node : Type :=
| File (content : string)
| Dir
| Device (mode dev : Z).

Definition Faults : Type := forall X : Type, Op X -> error.

Definition noFaults : Faults := fun _ _ => None.

Record World : Type := mkWorld {
  files : gmap string Stackerfile;       (* what NewStackerfile reads *)
  sudoUser : string;
  baseEnv : list string;                 (* the environment of the base image's config *)
  cache : gmap string CacheEntry;
  refs : gmap string Descriptor;
  snapshots : gset string;
  tree : gmap string Node;
  manifest : DirectoryHierarchy;         (* the manifest recorded with the bundle *)
  bundleMeta : BundleMeta;
  payload : list (string * option Node)  (* what the last packaging put in the blob *)
}.

Definition set_cache (f : gmap string CacheEntry -> gmap string CacheEntry) (w : World) : World :=
  mkWorld (files w) (sudoUser w) (baseEnv w) (f (cache w)) (refs w) (snapshots w)
          (tree w) (manifest w) (bundleMeta w) (payload w).

Definition set_refs (f : gmap string Descriptor -> gmap string Descriptor) (w : World) : World :=
  mkWorld (files w) (sudoUser w) (baseEnv w) (cache w) (f (refs w)) (snapshots w)
          (tree w) (manifest w) (bundleMeta w) (payload w).

Definition set_snapshots (f : gset string -> gset string) (w : World) : World :=
  mkWorld (files w) (sudoUser w) (baseEnv w) (cache w) (refs w) (f (snapshots w))
          (tree w) (manifest w) (bundleMeta w) (payload w).

Definition set_tree (f : gmap string Node -> gmap string Node) (w : World) : World :=
  mkWorld (files w) (sudoUser w) (baseEnv w) (cache w) (refs w) (snapshots w)
          (f (tree w)) (manifest w) (bundleMeta w) (payload w).

Definition set_manifest (m : DirectoryHierarchy) (w : World) : World :=
  mkWorld (files w) (sudoUser w) (baseEnv w) (cache w) (refs w) (snapshots w)
          (tree w) m (bundleMeta w) (payload w).

Definition set_bundleMeta (m : BundleMeta) (w : World) : World :=
  mkWorld (files w) (sudoUser w) (baseEnv w) (cache w) (refs w) (snapshots w)
          (tree w) (manifest w) m (payload w).

Definition set_payload (p : list (string * option Node)) (w : World) : World :=
  mkWorld (files w) (sudoUser w) (baseEnv w) (cache w) (refs w) (snapshots w)
          (tree w) (manifest w) (bundleMeta w) p.

Definition isDirNode (n : Node) : bool :=
  match n with
  | Dir => true
  | _ => false
  end.

Definition fingerprint (n : Node) : string :=
  match n with
  | File c => "file:" +:+ c
  | Dir => "dir"
  | Device _ _ => "device"
  end.

(** The paths below [root], relative to it, with their fingerprints. *)
Definition walkTree (root : string) (t : gmap string Node) : DirectoryHierarchy :=
  omap (fun kn : string * Node =>
          if String.prefix (root +:+ "/") kn.1
          then Some (mkEntry (string_drop (String.length root + 1) kn.1) (isDirNode kn.2) (fingerprint kn.2))
          else None)
       (map_to_list t).

Definition hasChildren (p : string) (t : gmap string Node) : bool :=
  existsb (fun kn : string * Node => String.prefix (p +:+ "/") kn.1) (map_to_list t).

Definition findEntry (n : string) (dh : DirectoryHierarchy) : option Entry :=
  List.find (fun e => String.eqb (EntryName e) n) dh.

Definition zeroEntry : Entry := mkEntry "" false "".

(** Modelled from the spec: go-mtree is a library outside the sources.  The
    comparison goes path by path: a path of the old manifest is Missing when
    the new one lacks it, Same when type and fingerprint agree, Modified
    otherwise; a path only the new manifest has is Extra. *)
Definition compareSame (oldDH newDH : DirectoryHierarchy) : list InodeDelta :=
  map (fun e =>
         match findEntry (EntryName e) newDH with
         | None => mkInodeDelta Missing (EntryName e) e zeroEntry
         | Some e' =>
             if Bool.eqb (IsDir e) (IsDir e') && String.eqb (Keys e) (Keys e')
             then mkInodeDelta Same (EntryName e) e e'
             else mkInodeDelta Modified (EntryName e) e e'
         end) oldDH
  ++ omap (fun e' =>
             match findEntry (EntryName e') oldDH with
             | None => Some (mkInodeDelta Extra (EntryName e') zeroEntry e')
             | Some _ => None
             end) newDH.

Definition answer {X : Type} (flt : error) (x : X) : result X :=
  match flt with
  | Some e => Err e
  | None => Ok x
  end.

(** A call that changes the state when it succeeds. *)
Definition effect (flt : error) (f : World -> World) (w : World) : error * World :=
  match flt with
  | Some e => (Some e, w)
  | None => (None, f w)
  end.

Definition snapshotTo (source target : string) (flt : error) (w : World) : error * World :=
  match flt with
  | Some e => (Some e, w)
  | None =>
      if bool_decide (source ∈ snapshots w)
      then (None, set_snapshots (fun s => {[ target ]} ∪ s) w)
      else (Some (Errorf ("no snapshot " +:+ source)), w)
  end.

Definition layerDescriptor (kind name : string) : Descriptor :=
  mkDescriptor kind ("sha256:" +:+ name) 0.

Definition emptyImageConfig (env : list string) : ImageConfig :=
  mkImageConfig env [] [] None None "".

Definition model (faults : Faults) : Handler World :=
  fun X op =>
    let flt := faults X op in
    match op in Op X return World -> X * World with
    | fmt_Printf _ => fun w => (tt, w)
    | os_RemoveAll p => fun w => (flt, w)
    | os_Stat p => fun w =>
        (match flt with
         | Some e => Some e
         | None => if bool_decide (is_Some (tree w !! p)) then None else Some (Errno ENOENT)
         end, w)
    | os_Getenv key => fun w => (if String.eqb key "SUDO_USER" then sudoUser w else "", w)
    | os_Hostname => fun w => (answer flt "host", w)
    | os_Open p => fun w => (answer flt p, w)
    | os_Remove p => fun w =>
        match flt with
        | Some e => (Some e, w)
        | None =>
            match tree w !! p with
            | None => (Some (Errno ENOENT), w)
            | Some n =>
                if isDirNode n && hasChildren p (tree w) then (Some (Errno 39), w)
                else (None, set_tree (delete p) w)
            end
        end
    | os_Rename a b => fun w => (flt, w)
    | os_MkdirAll p _ => fun w => (flt, w)
    | ioutil_ReadDir p => fun w => (answer flt [], w)
    | ioutil_WriteFile p data _ => fun w => effect flt (set_tree (insert p (File data))) w
    | user_Current => fun w => (answer flt "root", w)
    | time_Now => fun w => (0%Z, w)
    | unix_Mknod p mode dev => fun w =>
        match flt with
        | Some e => (Some e, w)
        | None =>
            match tree w !! p with
            | Some _ => (Some (Errno EEXIST), w)
            | None => (None, set_tree (insert p (Device mode dev)) w)
            end
        end
    | NewStackerfile file _ => fun w =>
        (match flt with
         | Some e => Err e
         | None =>
             match files w !! file with
             | Some sf => Ok sf
             | None => Err (Errno ENOENT)
             end
         end, w)
    | GitVersion _ => fun w => (("", flt), w)
    | NewGitLayerTag _ => fun w => (answer flt "commit-0", w)
    | NewImageSource url => fun w => (answer flt (mkImageSource OCIType url ""), w)
    | lib_ImageCopy _ _ _ => fun w => (flt, w)
    | Import _ _ _ => fun w => (flt, w)
    | GetBaseLayer _ _ => fun w => (flt, w)
    | NewApply _ _ _ => fun w => (flt, w)
    | apply_DoApply => fun w => (flt, w)
    | Run _ _ _ _ _ => fun w => (flt, w)
    | RunUmociSubcommand _ _ args => fun w =>
        match args with
        | ["--tag"; name; _; _; "repack"] =>
            effect flt (set_refs (insert name (layerDescriptor "tar" name))) w
        | _ => (flt, w)
        end
    | NewStorage _ => fun w => (flt, w)
    | s_Detach => fun w => (flt, w)
    | s_Delete name => fun w => effect flt (set_snapshots (fun s => s ∖ {[ name ]})) w
    | s_Create name => fun w => effect flt (set_snapshots (fun s => {[ name ]} ∪ s)) w
    | s_Restore source target => snapshotTo source target flt
    | s_Snapshot source target => snapshotTo source target flt
    | OpenCache _ _ => fun w => (flt, w)
    | buildCache_Lookup name => fun w => (cache w !! name, w)
    | buildCache_Put name blob => fun w => effect flt (set_cache (insert name (mkCacheEntry name blob))) w
    | umoci_CreateLayout _ => fun w => (flt, w)
    | umoci_OpenLayout _ => fun w => (flt, w)
    | oci_Close => fun w => (flt, w)
    | oci_UpdateReference name d => fun w => effect flt (set_refs (insert name d)) w
    | oci_ResolveReference name => fun w =>
        (answer flt (match refs w !! name with
                     | Some d => [mkDescriptorPath [d]]
                     | None => []
                     end), w)
    | oci_GC => fun w => (flt, w)
    | AddBlobNoCompression name blob => fun w =>
        match flt with
        | Some e => (Err e, w)
        | None => (Ok (layerDescriptor "squashfs" name),
                   set_refs (insert name (layerDescriptor "squashfs" name)) w)
        end
    | mutate_New _ => fun w => (flt, w)
    | mutator_Config => fun w => (answer flt (emptyImageConfig (baseEnv w)), w)
    | mutator_Meta => fun w => (answer flt (mkMutateMeta 0 "" "" ""), w)
    | mutator_Annotations => fun w => (answer flt ∅, w)
    | mutator_Set _ _ _ _ => fun w => (flt, w)
    | mutator_Commit => fun w => (answer flt (mkDescriptorPath [layerDescriptor "manifest" "commit"]), w)
    | umoci_ReadBundleMeta _ => fun w => (answer flt (bundleMeta w), w)
    | umoci_WriteBundleMeta _ meta => fun w => effect flt (set_bundleMeta meta) w
    | umoci_GenerateBundleManifest _ bundle => fun w =>
        effect flt (fun w => set_manifest (walkTree (bundle +:+ "/rootfs") (tree w)) w) w
    | mtree_ParseSpec _ => fun w => (answer flt (manifest w), w)
    | mtree_Walk root => fun w => (answer flt (walkTree root (tree w)), w)
    | mtree_CompareSame oldDH newDH => fun w => (answer flt (compareSame oldDH newDH), w)
    | squashfs_MakeSquashfs _ _ eps => fun w =>
        match flt with
        | Some e => (Err e, w)
        | None => (Ok "squashfs", set_payload (map (fun pd => (pd.1, tree w !! pd.1)) (include eps)) w)
        end
    | tmpSquashfs_Close => fun w => (flt, w)
    end.

(** ** Reading traces *)

(** The step of the build a call belongs to. *)
Inductive Kind : Type :=
| KPrint        (* fmt *)
| KImport       (* Import *)
| KLookup       (* buildCache.Lookup *)
| KPut          (* buildCache.Put *)
| KStore        (* the snapshot store: Delete, Create, Restore, Snapshot *)
| KBase         (* GetBaseLayer, NewApply, DoApply *)
| KCommand      (* Run *)
| KPackage      (* repack, the diff, the whiteouts and the packaging tool *)
| KBundle       (* the bundle's metadata and manifest *)
| KRef          (* oci.ResolveReference, oci.UpdateReference *)
| KMutate       (* the mutator *)
| KConfig       (* the image configuration: mutator.Config, mutator.Set *)
| KSave         (* SaveLayer: NewImageSource, NewGitLayerTag, lib.ImageCopy *)
| KGC           (* oci.GC *)
| KOther.

#[global] Instance Kind_eq_dec : EqDecision Kind.
Proof. solve_decision. Defined.

Definition opKind {X : Type} (op : Op X) : Kind :=
  match op with
  | fmt_Printf _ => KPrint
  | Import _ _ _ => KImport
  | buildCache_Lookup _ => KLookup
  | buildCache_Put _ _ => KPut
  | s_Delete _ | s_Create _ | s_Restore _ _ | s_Snapshot _ _ => KStore
  | GetBaseLayer _ _ | NewApply _ _ _ | apply_DoApply => KBase
  | Run _ _ _ _ _ => KCommand
  | RunUmociSubcommand _ _ _
  | os_Open _ | mtree_ParseSpec _ | mtree_Walk _
  | mtree_CompareSame _ _ | unix_Mknod _ _ _ | os_MkdirAll _ _
  | squashfs_MakeSquashfs _ _ _ | tmpSquashfs_Close | AddBlobNoCompression _ _
  | os_Remove _ => KPackage
  | umoci_ReadBundleMeta _ | umoci_WriteBundleMeta _ _ | umoci_GenerateBundleManifest _ _
  | ioutil_ReadDir _ | os_Rename _ _ => KBundle
  | oci_ResolveReference _ | oci_UpdateReference _ _ => KRef
  | mutate_New _ | mutator_Meta | mutator_Annotations | mutator_Commit => KMutate
  | mutator_Config | mutator_Set _ _ _ _ => KConfig
  | NewImageSource _ | NewGitLayerTag _ | lib_ImageCopy _ _ _ => KSave
  | oci_GC => KGC
  | _ => KOther
  end.

Definition kind (e : Event) : Kind :=
  match e with
  | Ev op _ => opKind op
  end.

(** The call is [buildCache.Put]. *)
Definition isPut (e : Event) : bool := bool_decide (kind e = KPut).

(** No call of the trace is [buildCache.Put]. *)
Definition noPut (t : list Event) : Prop := Forall (fun e => isPut e = false) t.

(** The call belongs to [SaveLayer] (its prints included). *)
Definition isSave (e : Event) : bool :=
  bool_decide (kind e = KSave) || bool_decide (kind e = KPrint).

(** The call sets the named reference [name] of the OCI layout:
    [oci.UpdateReference], [umoci --tag name ... repack], or
    [AddBlobNoCompression]. *)
Definition writesRef (name : string) (e : Event) : bool :=
  match e with
  | Ev op _ =>
      match op with
      | oci_UpdateReference n _ => String.eqb n name
      | AddBlobNoCompression n _ => String.eqb n name
      | RunUmociSubcommand _ _ ("--tag" :: n :: _) => String.eqb n name
      | _ => false
      end
  end.

(** The call is part of building a layer anew: the snapshot store, the base
    layer, the commands, the diff and its packaging, the mutator, the cache
    entry. *)
Definition isRebuild (e : Event) : bool :=
  match kind e with
  | KStore | KBase | KCommand | KPackage | KBundle | KMutate | KConfig | KPut => true
  | _ => false
  end.

(** The last call of a trace that is not a print. *)
Fixpoint lastCall (t : list Event) : option Event :=
  match t with
  | [] => None
  | e :: rest =>
      match lastCall rest with
      | Some e' => Some e'
      | None => if bool_decide (kind e = KPrint) then None else Some e
      end
  end.

(** The name of a call, for reading a trace. *)
Definition opName {X : Type} (op : Op X) : string :=
  match op with
  | fmt_Printf _ => "fmt.Printf"
  | os_RemoveAll _ => "os.RemoveAll"
  | os_Stat p => "os.Stat " +:+ p
  | os_Getenv _ => "os.Getenv"
  | os_Hostname => "os.Hostname"
  | os_Open _ => "os.Open"
  | os_Remove p => "os.Remove " +:+ p
  | os_Rename _ _ => "os.Rename"
  | os_MkdirAll _ _ => "os.MkdirAll"
  | ioutil_ReadDir _ => "ioutil.ReadDir"
  | ioutil_WriteFile _ _ _ => "ioutil.WriteFile"
  | user_Current => "user.Current"
  | time_Now => "time.Now"
  | unix_Mknod p _ _ => "unix.Mknod " +:+ p
  | NewStackerfile f _ => "NewStackerfile " +:+ f
  | GitVersion _ => "GitVersion"
  | NewGitLayerTag _ => "NewGitLayerTag"
  | NewImageSource _ => "NewImageSource"
  | lib_ImageCopy _ d _ => "lib.ImageCopy " +:+ d
  | Import _ n _ => "Import " +:+ n
  | GetBaseLayer o _ => "GetBaseLayer " +:+ BaseName o
  | NewApply _ _ _ => "NewApply"
  | apply_DoApply => "apply.DoApply"
  | Run _ n _ _ _ => "Run " +:+ n
  | RunUmociSubcommand _ _ args => "umoci " +:+ strings_Join args " "
  | NewStorage _ => "NewStorage"
  | s_Detach => "s.Detach"
  | s_Delete n => "s.Delete " +:+ n
  | s_Create n => "s.Create " +:+ n
  | s_Restore a b => "s.Restore " +:+ a +:+ " " +:+ b
  | s_Snapshot a b => "s.Snapshot " +:+ a +:+ " " +:+ b
  | OpenCache _ _ => "OpenCache"
  | buildCache_Lookup n => "buildCache.Lookup " +:+ n
  | buildCache_Put n _ => "buildCache.Put " +:+ n
  | umoci_CreateLayout _ => "umoci.CreateLayout"
  | umoci_OpenLayout _ => "umoci.OpenLayout"
  | oci_Close => "oci.Close"
  | oci_UpdateReference n _ => "oci.UpdateReference " +:+ n
  | oci_ResolveReference n => "oci.ResolveReference " +:+ n
  | oci_GC => "oci.GC"
  | AddBlobNoCompression n _ => "AddBlobNoCompression " +:+ n
  | mutate_New _ => "mutate.New"
  | mutator_Config => "mutator.Config"
  | mutator_Meta => "mutator.Meta"
  | mutator_Annotations => "mutator.Annotations"
  | mutator_Set _ _ _ _ => "mutator.Set"
  | mutator_Commit => "mutator.Commit"
  | umoci_ReadBundleMeta _ => "umoci.ReadBundleMeta"
  | umoci_WriteBundleMeta _ _ => "umoci.WriteBundleMeta"
  | umoci_GenerateBundleManifest _ _ => "umoci.GenerateBundleManifest"
  | mtree_ParseSpec _ => "mtree.ParseSpec"
  | mtree_Walk _ => "mtree.Walk"
  | mtree_CompareSame _ _ => "mtree.CompareSame"
  | squashfs_MakeSquashfs _ _ _ => "squashfs.MakeSquashfs"
  | tmpSquashfs_Close => "tmpSquashfs.Close"
  end.

Definition eventName (e : Event) : string :=
  match e with
  | Ev op _ => opName op
  end.

(** The calls of a trace that are not prints, by name. *)
Definition calls (t : list Event) : list string :=
  map eventName (filter (fun e => kind e ≠ KPrint) t).

(** What was printed. *)
Definition printed (t : list Event) : list string :=
  omap (fun e => match e with
                 | Ev op _ => match op with
                              | fmt_Printf msg => Some msg
                              | _ => None
                              end
                 end) t.

(** [always p P]: whatever the collaborators answer, the trace and the value
    of [p] satisfy [P]. *)
Fixpoint always {A : Type} (p : Prog A) (P : list Event -> A -> Prop) : Prop :=
  match p with
  | Ret a => P [] a
  | Vis op k => forall x, always (k x) (fun t a => P (Ev op x :: t) a)
  end.

(** Every call a program can make satisfies [Q]. *)
Fixpoint opsAll {A : Type} (Q : forall X : Type, Op X -> Prop) (p : Prog A) : Prop :=
  match p with
  | Ret _ => True
  | Vis op k => Q _ op /\ forall x, opsAll Q (k x)
  end.

(** The call is of one of the kinds [ks]. *)
Definition kindIn (ks : list Kind) : forall X : Type, Op X -> Prop :=
  fun _ op => In (opKind op) ks.

(** The calls of the trace are of the kinds [ks]. *)
Definition kindsOf (ks : list Kind) (t : list Event) : Prop :=
  Forall (fun e => In (kind e) ks) t.


(** ** Reading the diff loop *)

(** The path changed: it is Modified, Extra (added) or Missing (removed). *)
Definition changed (d : InodeDelta) : bool :=
  match DiffType d with
  | Modified | Extra | Missing => true
  | _ => false
  end.

Definition isSame (d : InodeDelta) : bool :=
  match DiffType d with
  | Same => true
  | _ => false
  end.

Definition isMissing (d : InodeDelta) : bool :=
  match DiffType d with
  | Missing => true
  | _ => false
  end.

(** The directory-ness the loop passes to [AddInclude]: of the old entry for
    a Missing path, of the new one otherwise. *)
Definition includeAsDir (d : InodeDelta) : bool :=
  match DiffType d with
  | Missing => IsDir (Old d)
  | _ => IsDir (New d)
  end.

(** The [unix.Mknod] calls of a trace: path, mode, device, and the answer. *)
Definition mknodOf (e : Event) : option (string * Z * Z * error) :=
  match e with
  | Ev op x =>
      match op in Op X return X -> option (string * Z * Z * error) with
      | unix_Mknod p mode dev => fun err => Some (p, mode, dev, err)
      | _ => fun _ => None
      end x
  end.

Definition mknods (t : list Event) : list (string * Z * Z * error) := omap mknodOf t.

(** The [os.Remove] calls of a trace: the paths. *)
Definition removeOf (e : Event) : option string :=
  match e with
  | Ev op _ =>
      match op with
      | os_Remove p => Some p
      | _ => None
      end
  end.

Definition removes (t : list Event) : list string := omap removeOf t.

(** The path lists handed to [squashfs.MakeSquashfs]. *)
Definition packagedOf (e : Event) : option ExcludePaths :=
  match e with
  | Ev op _ =>
      match op with
      | squashfs_MakeSquashfs _ _ eps => Some eps
      | _ => None
      end
  end.

Definition packaged (t : list Event) : list ExcludePaths := omap packagedOf t.

(** A [unix.Mknod] error the loop lets pass: ENOENT or ENOTDIR. *)
Definition tolerated (e : GoError) : Prop := e = Errno ENOENT \/ e = Errno ENOTDIR.

(** The answer of a [unix.Mknod] call does not end the loop. *)
Definition passes (err : error) : Prop :=
  match err with
  | None => True
  | Some e => tolerated e
  end.

(** Every call of the trace is a [unix.Mknod]. *)
Definition onlyMknods (t : list Event) : Prop := Forall (fun e => mknodOf e <> None) t.

(** What a run of the diff loop over [diffs] leaves behind, started with
    [missing] and [paths]: the list [missing'] for the deferred removal, the
    result [r] and the trace [t]. *)
Definition diffsPost (path_Join : list string -> string) (rootfs : string)
    (diffs : list InodeDelta) (missing : list string) (paths : ExcludePaths)
    (missing' : list string) (r : result ExcludePaths) (t : list Event) : Prop :=
  let joined := fun d => path_Join [rootfs; Path d] in
  onlyMknods t /\
  match r with
  | Ok paths' =>
      include paths' = include paths ++ map (fun d => (joined d, includeAsDir d)) (List.filter changed diffs) /\
      exclude paths' = exclude paths ++ map joined (List.filter isSame diffs) /\
      missing' = missing ++ map joined (List.filter changed diffs) /\
      map (fun c => c.1) (mknods t) =
        map (fun d => (joined d, S_IFCHR, Mkdev 0 0)) (List.filter isMissing diffs) /\
      Forall (fun c => passes c.2) (mknods t)
  | Err e =>
      exists (done : list InodeDelta) (d : InodeDelta) (rest : list InodeDelta)
             (e0 : GoError) (before : list (string * Z * Z * error)),
        diffs = done ++ d :: rest /\ DiffType d = Missing /\
        e = Wrapf e0 ("couldn't mknod whiteout for " +:+ Path d) /\ ~ tolerated e0 /\
        missing' = missing ++ map joined (List.filter changed (done ++ [d])) /\
        mknods t = before ++ [(joined d, S_IFCHR, Mkdev 0 0, Some e0)] /\
        Forall (fun c => passes c.2) before
  end.

(** The diffs [mtree.CompareSame] came back with. *)
Definition comparedOf (e : Event) : option (list InodeDelta) :=
  match e with
  | Ev op x =>
      match op in Op X return X -> option (list InodeDelta) with
      | mtree_CompareSame _ _ => fun r => match r with
                                          | Ok diffs => Some diffs
                                          | Err _ => None
                                          end
      | _ => fun _ => None
      end x
  end.

Definition compared (t : list Event) : list (list InodeDelta) := omap comparedOf t.

(** The trace makes no call of the diff loop, of the packaging tool or of
    the deferred removal. *)
Definition quiet (t : list Event) : Prop :=
  mknods t = [] /\ removes t = [] /\ packaged t = [] /\ compared t = [].

(** What a run of [generateSquashfsLayer] leaves behind.  Either it fails
    before it has the diffs, or its trace is: the calls up to
    [mtree.CompareSame] ([t0]), the diff loop ([tl]), the packaging ([tp],
    empty when the loop failed) and the deferred removal ([tr]) of every path
    the loop put in [missing]. *)
Definition squashfsPost (path_Join : list string -> string) (WorkingContainerName : string)
    (o : BuildArgs) (t : list Event) (r : result unit) : Prop :=
  let rootfs := path_Join [RootFSDir (Config o); WorkingContainerName; "rootfs"] in
  (quiet t /\ exists e, r = Err e)
  \/ exists (diffs : list InodeDelta) (missing : list string) (rl : result ExcludePaths)
            (t0 tl tp tr : list Event),
       t = t0 ++ tl ++ tp ++ tr /\
       compared t0 = [diffs] /\ mknods t0 = [] /\ removes t0 = [] /\ packaged t0 = [] /\
       diffsPost path_Join rootfs diffs [] NewExcludePaths missing rl tl /\
       match rl with
       | Err e => tp = [] /\ r = Err e
       | Ok paths =>
           mknods tp = [] /\ compared tp = [] /\
           (packaged tp = [] \/ packaged tp = [paths]) /\
           (r = Ok tt -> packaged tp = [paths]) /\
           exists x rest, tp = Ev (os_MkdirAll (OCIDir (Config o)) 493) x :: rest
       end /\
       removes tr = missing /\ mknods tr = [] /\ packaged tr = [] /\ compared tr = [].

(** ** Concrete inputs

    The constants as stacker has them, [path.Join] on clean components, and
    the worlds the examples below run in. *)

Definition joinSlash (elems : list string) : string := String.concat "/" elems.

Definition working : string := ".working".
Definition defaultPath : string := "/usr/local/sbin:/usr/local/bin:/usr/sbin:/usr/bin:/sbin:/bin".

Definition exConfig : StackerConfig := mkStackerConfig "/stacker" "/oci" "/roots".

Definition exArgs (layerType : string) : BuildArgs :=
  mkBuildArgs exConfig false false [] "" false layerType false false [].

Definition exRootfs : string := "/roots/.working/rootfs".

Definition exBundleMeta : BundleMeta :=
  mkBundleMeta "2" (mkDescriptorPath [mkDescriptor "manifest" "sha256:base" 0]).

Definition exWorld (t : gmap string Node) (m : DirectoryHierarchy) : World :=
  mkWorld ∅ "" [] ∅ ∅ ∅ t m exBundleMeta [].

(** The base tree is {a: 1, b: 2}, the built tree {a: 1, b: 3, c: 4}. *)
Definition wMinimal : World :=
  exWorld (<[ exRootfs +:+ "/a" := File "1" ]>
           (<[ exRootfs +:+ "/b" := File "3" ]>
            (<[ exRootfs +:+ "/c" := File "4" ]> ∅)))
          [mkEntry "a" false "file:1"; mkEntry "b" false "file:2"].

(** The base tree has the directory d with the file d/f, the built tree has
    neither (and keeps a file e). *)
Definition wDeleted : World :=
  exWorld (<[ exRootfs +:+ "/e" := File "5" ]> ∅)
          [mkEntry "d" true "dir"; mkEntry "d/f" false "file:1"; mkEntry "e" false "file:5"].

(** With the marker at d in place, d/f has no directory above it. *)
Definition faultsBelowMarker : Faults :=
  fun _ op =>
    match op with
    | unix_Mknod p _ _ => if String.eqb p (exRootfs +:+ "/d/f") then Some (Errno ENOTDIR) else None
    | _ => None
    end.

(** [unix.Mknod] is not permitted. *)
Definition faultsMknodEPERM : Faults :=
  fun _ op =>
    match op with
    | unix_Mknod _ _ _ => Some (Errno EPERM)
    | _ => None
    end.

Definition exSquashfs : M unit :=
  generateSquashfsLayer working joinSlash "layer" "me@host" (exArgs "squashfs").

Definition exDiffsMinimal : list InodeDelta :=
  [ mkInodeDelta Same "a" (mkEntry "a" false "file:1") (mkEntry "a" false "file:1");
    mkInodeDelta Modified "b" (mkEntry "b" false "file:2") (mkEntry "b" false "file:3");
    mkInodeDelta Extra "c" zeroEntry (mkEntry "c" false "file:4") ].

Definition exPathsMinimal : ExcludePaths :=
  mkExcludePaths [(exRootfs +:+ "/b", false); (exRootfs +:+ "/c", false)] [exRootfs +:+ "/a"].

Definition exDiffDeletedDir : InodeDelta :=
  mkInodeDelta Missing "d" (mkEntry "d" true "dir") zeroEntry.

Definition exDiffsDeleted : list InodeDelta :=
  [ exDiffDeletedDir;
    mkInodeDelta Missing "d/f" (mkEntry "d/f" false "file:1") zeroEntry;
    mkInodeDelta Same "e" (mkEntry "e" false "file:5") (mkEntry "e" false "file:5") ].

Definition exPathsDeleted : ExcludePaths :=
  mkExcludePaths [(exRootfs +:+ "/d", true); (exRootfs +:+ "/d/f", false)] [exRootfs +:+ "/e"].

(** ** Reading the environment *)

(** An entry [NAME=value] of an image's environment sets PATH. *)
Definition setsPath (s : string) : bool := strings_HasPrefix s "PATH=".

(** The entries the loop over [l.Environment] appends, in its order. *)
Definition declaredEnv (l : Layer) : list string :=
  map (fun kv : string * string => kv.1 +:+ "=" +:+ kv.2) (Environment l).

Definition exLayer (env : list (string * string)) (buildOnly : bool) : Layer :=
  mkLayer (mkImageSource DockerType "docker://centos:latest" "") (Ok []) (Ok ["true"])
          None None None env [] [] "" buildOnly.

(** ** Reading a layer's trace *)

(** How the trace of [buildLayer] goes on after a cache hit on [entry]: the
    calls [mid] that restore the layer, then the calls [post] of the save. *)
Definition hitPost (name : string) (l : Layer) (entry : CacheEntry)
    (mid post : list Event) (r : result unit) : Prop :=
  kindsOf [KPrint; KSave] post /\
  if BuildOnly l then
    if negb (String.eqb (Name entry) name) then
      exists rs, mid = [Ev (s_Snapshot (Name entry) name) rs] /\
                 (forall e, rs = Some e -> post = [] /\ r = Err e)
    else mid = []
  else
    exists ru, mid = [Ev (oci_UpdateReference name (Blob entry)) ru] /\
               (forall e, ru = Some e -> post = [] /\ r = Err e).

(** The trace of [buildLayer] up to the cache lookup, when the import went
    through. *)
Definition lookupPrefix (o : BuildArgs) (name : string) (imports : list string)
    (found : option CacheEntry) : list Event :=
  [ Ev (fmt_Printf ("building image " +:+ name +:+ "..." +:+ nl)) tt;
    Ev (fmt_Printf ("importing files..." +:+ nl)) tt;
    Ev (Import (Config o) name imports) None;
    Ev (buildCache_Lookup name) found ].

(** The cache lookups of a trace: the name and what was found. *)
Definition lookupOf (e : Event) : option (string * option CacheEntry) :=
  match e with
  | Ev op x =>
      match op in Op X return X -> option (string * option CacheEntry) with
      | buildCache_Lookup n => fun found => Some (n, found)
      | _ => fun _ => None
      end x
  end.

Definition lookups (t : list Event) : list (string * option CacheEntry) := omap lookupOf t.

(** The cache writes of a trace: name, descriptor and the answer. *)
Definition putOf (e : Event) : option (string * Descriptor * error) :=
  match e with
  | Ev op x =>
      match op in Op X return X -> option (string * Descriptor * error) with
      | buildCache_Put n d => fun err => Some (n, d, err)
      | _ => fun _ => None
      end x
  end.

Definition puts (t : list Event) : list (string * Descriptor * error) := omap putOf t.

(** The runs of commands of a trace: the layer and the answer. *)
Definition runOf (e : Event) : option (string * error) :=
  match e with
  | Ev op x =>
      match op in Op X return X -> option (string * error) with
      | Run _ n _ _ _ => fun err => Some (n, err)
      | _ => fun _ => None
      end x
  end.

Definition runs (t : list Event) : list (string * error) := omap runOf t.

(** The imports of a trace: the layer and the answer. *)
Definition importOf (e : Event) : option (string * error) :=
  match e with
  | Ev op x =>
      match op in Op X return X -> option (string * error) with
      | Import _ n _ => fun err => Some (n, err)
      | _ => fun _ => None
      end x
  end.

Definition imports (t : list Event) : list (string * error) := omap importOf t.

(** The answers of the garbage collection in a trace. *)
Definition gcOf (e : Event) : option error :=
  match e with
  | Ev op x =>
      match op in Op X return X -> option error with
      | oci_GC => fun err => Some err
      | _ => fun _ => None
      end x
  end.

Definition gcs (t : list Event) : list error := omap gcOf t.

(** The image configurations of a trace: those the mutator handed out and
    those it was given to commit. *)
Definition configOf (e : Event) : option ImageConfig :=
  match e with
  | Ev op x =>
      match op in Op X return X -> option ImageConfig with
      | mutator_Config => fun r => match r with
                                   | Ok c => Some c
                                   | Err _ => None
                                   end
      | _ => fun _ => None
      end x
  end.

Definition configs (t : list Event) : list ImageConfig := omap configOf t.

Definition setOf (e : Event) : option ImageConfig :=
  match e with
  | Ev op _ =>
      match op with
      | mutator_Set c _ _ _ => Some c
      | _ => None
      end
  end.

Definition sets (t : list Event) : list ImageConfig := omap setOf t.

Definition isErr {A : Type} (r : result A) : bool :=
  match r with
  | Ok _ => false
  | Err _ => true
  end.

Definition isSomeError (err : error) : bool :=
  match err with
  | Some _ => true
  | None => false
  end.

(** The call came back with an error. *)
Definition failed (e : Event) : bool :=
  match e with
  | Ev op x =>
      match op in Op X return X -> bool with
      | fmt_Printf _ | os_Getenv _ | time_Now | buildCache_Lookup _ => fun _ => false
      | GitVersion _ => fun p => isSomeError p.2
      | os_RemoveAll _ | os_Stat _ | os_Remove _ | os_Rename _ _ | os_MkdirAll _ _
      | ioutil_WriteFile _ _ _ | unix_Mknod _ _ _ | lib_ImageCopy _ _ _ | Import _ _ _
      | GetBaseLayer _ _ | NewApply _ _ _ | apply_DoApply | Run _ _ _ _ _
      | RunUmociSubcommand _ _ _ | NewStorage _ | s_Detach | s_Delete _ | s_Create _
      | s_Restore _ _ | s_Snapshot _ _ | OpenCache _ _ | buildCache_Put _ _
      | umoci_CreateLayout _ | umoci_OpenLayout _ | oci_Close | oci_UpdateReference _ _
      | oci_GC | mutate_New _ | mutator_Set _ _ _ _ | umoci_WriteBundleMeta _ _
      | umoci_GenerateBundleManifest _ _ | tmpSquashfs_Close => isSomeError
      | os_Hostname | os_Open _ | ioutil_ReadDir _ | user_Current | NewStackerfile _ _
      | NewGitLayerTag _ | NewImageSource _ | oci_ResolveReference _
      | AddBlobNoCompression _ _ | mutator_Config | mutator_Meta | mutator_Annotations
      | mutator_Commit | umoci_ReadBundleMeta _ | mtree_ParseSpec _ | mtree_Walk _
      | mtree_CompareSame _ _ | squashfs_MakeSquashfs _ _ _ => isErr
      end x
  end.

(** No call of the trace came back with an error. *)
Definition allWentThrough (t : list Event) : bool := forallb (fun e => negb (failed e)) t.

(** ** Stackerfiles and worlds for [Build] *)

Definition exFile : string := "stacker.yaml".

Definition exStackerfile (ls : list (string * Layer)) (saveUrl : string) : Stackerfile :=
  mkStackerfile "contents" "/src" saveUrl (list_to_map ls) (Ok (map fst ls)).

Definition exBuildWorld (sf : Stackerfile) (c : gmap string CacheEntry) (snaps : gset string) : World :=
  mkWorld {[ exFile := sf ]} "" ["HOME=/root"] c ∅ snaps
          {[ "/roots/.working/rootfs/bin/sh" := File "sh" ]} [] exBundleMeta [].

Definition exBuild (layerType : string) : Prog (Builder * error) :=
  Build working defaultPath "ws.tycho.stacker.git_version" "ws.tycho.stacker.stacker_yaml"
        "2" "amd64" "linux" joinSlash (NewBuilder (exArgs layerType)) exFile.

Definition exBuildLayer (layerType : string) (sf : Stackerfile) (name : string) : M unit :=
  buildLayer working defaultPath "ws.tycho.stacker.git_version" "ws.tycho.stacker.stacker_yaml"
             "2" "amd64" "linux" joinSlash
             (mkBuilder {[ exFile := sf ]} (exArgs layerType)) sf "" "root@host" name.

(** One layer "a": build-only, or packaged. *)
Definition sfBuildOnly : Stackerfile := exStackerfile [("a", exLayer [] true)] "".
Definition sfPackaged : Stackerfile := exStackerfile [("a", exLayer [("FOO", "bar")] false)] "".

Definition exCachedBlob : Descriptor := layerDescriptor "manifest" "cached".

(** The cache has the build-only layer; the snapshot store has nothing. *)
Definition wHitNoSnapshot : World :=
  exBuildWorld sfBuildOnly {[ "a" := mkCacheEntry "a" zeroDescriptor ]} ∅.

(** The cache has the layer under another name, which has no snapshot. *)
Definition wHitOtherName : World :=
  exBuildWorld sfBuildOnly {[ "a" := mkCacheEntry "old" zeroDescriptor ]} ∅.

(** The cache has the packaged layer. *)
Definition wHitPackaged : World :=
  exBuildWorld sfPackaged {[ "a" := mkCacheEntry "a" exCachedBlob ]} ∅.

(** Nothing is cached. *)
Definition wFresh (sf : Stackerfile) : World := exBuildWorld sf ∅ ∅.

(** The garbage collection fails. *)
Definition faultsGC : Faults :=
  fun _ op =>
    match op with
    | oci_GC => Some (Errorf "gc: blob in use")
    | _ => None
    end.

(** The commands of the layer fail. *)
Definition faultsRun : Faults :=
  fun _ op =>
    match op with
    | Run _ _ _ _ _ => Some (Errorf "run commands failed: exit status 1")
    | _ => None
    end.

(** Where the cache write of layer [name] stands in the trace of the layer:
    the trace is [pre ++ post], [pre] has no cache write, and [post] is empty
    or is the one call [buildCache.Put(name, d)] followed by prints and calls
    of the save only; when the write itself fails nothing follows it and the
    layer returns its error. *)
Definition putPost (name : string) (t : list Event) (r : result unit) : Prop :=
  exists pre post,
    t = pre ++ post /\ puts pre = [] /\
    (post = [] \/
     exists d rp saves,
       post = Ev (buildCache_Put name d) rp :: saves /\
       kindsOf [KPrint; KSave] saves /\
       (forall e, rp = Some e -> saves = [] /\ r = Err e)).

(** The kinds of calls a layer makes before its commands have run and while
    they run. *)
Definition kindsUpToCommands : list Kind :=
  [KPrint; KImport; KLookup; KStore; KBase; KCommand; KOther].

(** A failed run of the commands ends the layer: the layer returns the error
    of the run, and the trace holds nothing but the calls up to the run. *)
Definition runPost (t : list Event) (r : result unit) : Prop :=
  forall n e, In (n, Some e) (runs t) -> r = Err e /\ kindsOf kindsUpToCommands t.

(** Every kind but the cache write. *)
Definition kindsButPut : list Kind :=
  [KPrint; KImport; KLookup; KStore; KBase; KCommand; KPackage; KBundle; KRef; KMutate; KConfig;
   KSave; KGC; KOther].

(** Every kind but the commands. *)
Definition kindsButCommand : list Kind :=
  [KPrint; KImport; KLookup; KPut; KStore; KBase; KPackage; KBundle; KRef; KMutate; KConfig;
   KSave; KGC; KOther].

(** The trace ends in a call of the build itself: the last call that is not
    a print is neither the cache write nor a call of the save that follows
    it. *)
Definition endsBeforePut (t : list Event) : Prop :=
  match lastCall t with
  | Some e => kind e <> KPut /\ kind e <> KSave
  | None => True
  end.

(** Every kind but the garbage collection. *)
Definition kindsButGC : list Kind :=
  [KPrint; KImport; KLookup; KPut; KStore; KBase; KCommand; KPackage; KBundle; KRef;
   KMutate; KConfig; KSave; KOther].

(** What [Build] prints when the garbage collection fails. *)
Definition gcMessage (e : GoError) : string := "final OCI GC failed: " +:+ Error e +:+ nl.

(** The garbage collection in a trace and the error [Build] returns: what
    [oci.GC] answered is what is returned, and an error was printed. *)
Definition gcPost (t : list Event) (err : error) : Prop :=
  forall g, In g (gcs t) ->
    err = g /\ forall e, g = Some e -> In (gcMessage e) (printed t).

(** Every kind but the image configuration. *)
Definition kindsButConfig : list Kind :=
  [KPrint; KImport; KLookup; KPut; KStore; KBase; KCommand; KPackage; KBundle; KRef;
   KMutate; KSave; KGC; KOther].

(** The image configurations of a trace, for a layer [l]: every configuration
    given to [mutator.Set] has the environment [setEnvironment] makes from
    the environment of a configuration the mutator handed out before (one of
    [before], or one of the trace). *)
Definition envFrom (ReasonableDefaultPath : string) (l : Layer)
    (before : list ImageConfig) (t : list Event) : Prop :=
  forall c, In c (sets t) ->
    exists c0, In c0 (before ++ configs t) /\
               Env c = setEnvironment ReasonableDefaultPath l (Env c0).

(** ** Runs of the examples *)

(** The builder [Build] hands to the loop over the layers of [sf]. *)
Definition exBuilder (layerType : string) (sf : Stackerfile) : Builder :=
  mkBuilder {[ exFile := sf ]} (exArgs layerType).

(** The packaged layer, nothing cached, and the commands fail. *)
Definition runCommandsFail : result unit * World * list Event :=
  runProg (model faultsRun) (exBuildLayer "tar" sfPackaged "a") (wFresh sfPackaged).

(** The packaged layer, nothing cached, and everything goes through. *)
Definition runPackagedTar : result unit * World * list Event :=
  runProg (model noFaults) (exBuildLayer "tar" sfPackaged "a") (wFresh sfPackaged).

(** The same with a layer type stacker does not know. *)
Definition runPackagedZip : result unit * World * list Event :=
  runProg (model noFaults) (exBuildLayer "zip" sfPackaged "a") (wFresh sfPackaged).

(** The packaged layer is cached. *)
Definition runHitPackaged : result unit * World * list Event :=
  runProg (model noFaults) (exBuildLayer "tar" sfPackaged "a") wHitPackaged.

(** The build-only layer is cached and has no snapshot. *)
Definition runHitNoSnapshot : result unit * World * list Event :=
  runProg (model noFaults) (exBuildLayer "tar" sfBuildOnly "a") wHitNoSnapshot.

(** [Build] on the same. *)
Definition buildHitNoSnapshot : Builder * error * World * list Event :=
  runProg (model noFaults) (exBuild "tar") wHitNoSnapshot.

(** [Build] where the cache has the build-only layer under another name. *)
Definition buildHitOtherName : Builder * error * World * list Event :=
  runProg (model noFaults) (exBuild "tar") wHitOtherName.

(** [Build] with a layer type stacker does not know. *)
Definition buildPackagedZip : Builder * error * World * list Event :=
  runProg (model noFaults) (exBuild "zip") (wFresh sfPackaged).

Definition buildBuildOnlyZip : Builder * error * World * list Event :=
  runProg (model noFaults) (exBuild "zip") (wFresh sfBuildOnly).

(** [Build] where the garbage collection fails. *)
Definition buildGCFails : Builder * error * World * list Event :=
  runProg (model faultsGC) (exBuild "tar") (wFresh sfPackaged).

(** The squashfs layer of the tree {a: 1, b: 3, c: 4} over {a: 1, b: 2}. *)
Definition runSquashfsMinimal : result unit * World * list Event :=
  runProg (model noFaults) exSquashfs wMinimal.

Definition exDiffModified : InodeDelta :=
  mkInodeDelta Modified "b" (mkEntry "b" false "file:2") (mkEntry "b" false "file:3").

(** The calls of a trace that came back with an error, by name. *)
Definition failedCalls (t : list Event) : list string :=
  map eventName (List.filter failed t).

(** The configuration the mutator hands out in the examples, and the one the
    packaged layer commits. *)
Definition exBaseConfig : ImageConfig := emptyImageConfig ["HOME=/root"].

Definition exCommittedConfig : ImageConfig :=
  mkImageConfig ["HOME=/root"; "FOO=bar"; "PATH=" +:+ defaultPath] [] [] (Some ∅) (Some ∅) "".

(** * More of [build.go]

    ** Traces a program can leave *)

(** [traceOf p t a]: for some answers of the collaborators, [p] makes the
    calls [t] and returns [a]. *)
Fixpoint traceOf {A : Type} (p : Prog A) (t : list Event) (a : A) : Prop :=
  match p with
  | Ret a' => t = [] /\ a = a'
  | Vis op k => exists x t', t = Ev op x :: t' /\ traceOf (k x) t' a
  end.

(** The result of a function that returns [err]. *)
Definition result_of (err : error) : result unit :=
  match err with
  | None => Ok tt
  | Some e => Err e
  end.

(** ** [updateBundleMtree] *)

(** The first entry of the directory whose name ends in [.mtree]. *)
Definition firstMtree (infos : list string) : option string :=
  List.find (fun fi => strings_HasSuffix fi ".mtree") infos.

(** The name of the manifest of the layer [d]: its digest with the first
    colon replaced, and the suffix. *)
Definition mtreeNameOf (d : Descriptor) : string :=
  strings_Replace1 (Digest d) ":" "_" +:+ ".mtree".

(** What a call of [updateBundleMtree] leaves behind: the directory is read;
    the first entry ending in [.mtree], if there is one, is renamed, and no
    other. *)
Definition bundleMtreePost (path_Join : list string -> string) (rootPath : string)
    (newPath : Descriptor) (t : list Event) (r : result unit) : Prop :=
  exists ans rest,
    t = Ev (ioutil_ReadDir rootPath) ans :: rest /\
    match ans with
    | Err e => rest = [] /\ r = Err e
    | Ok infos =>
        match firstMtree infos with
        | None => rest = [] /\ r = Ok tt
        | Some fi =>
            exists err,
              rest = [Ev (os_Rename (path_Join [rootPath; fi])
                                    (path_Join [rootPath; mtreeNameOf newPath])) err] /\
              r = result_of err
        end
    end.

(** ** The course of [Build] *)

Section Shapes.

Context (WorkingContainerName ReasonableDefaultPath : string).
Context (GitVersionAnnotation StackerContentsAnnotation MetaVersion : string).
Context (GOARCH GOOS : string).
Context (path_Join : list string -> string).

(** Lines 244-246: with [NoCache] the stacker directory is removed first,
    whatever [os.RemoveAll] answers. *)
Definition removedCache (o : BuildArgs) (t : list Event) : Prop :=
  if NoCache o
  then exists x, t = [Ev (os_RemoveAll (StackerDir (Config o))) x]
  else t = [].

(** Lines 257-259: the deferred [s.Detach()], unless [LeaveUnladen]. *)
Definition detached (o : BuildArgs) (t : list Event) : Prop :=
  if LeaveUnladen o
  then t = []
  else exists x, t = [Ev s_Detach x].

(** Lines 267-271: the layout is created when [os.Stat] fails on it, and
    opened otherwise. *)
Definition openLayout (o : BuildArgs) (statErr : error) : Op error :=
  match statErr with
  | Some _ => umoci_CreateLayout (OCIDir (Config o))
  | None => umoci_OpenLayout (OCIDir (Config o))
  end.

(** Line 278: [b.builtStackerfiles[file] = sf]. *)
Definition registered (b : Builder) (file : string) (sf : Stackerfile) : Builder :=
  mkBuilder (<[ file := sf ]> (builtStackerfiles b)) (opts b).

(** The traces of [Build b file], by how far it gets: the stackerfile does
    not parse; the storage cannot be attached; the dependency order fails;
    the layout cannot be opened; or the layers are built, the layout is
    closed and (unless [LeaveUnladen]) the storage detached. *)
Inductive buildShape (b : Builder) (file : string) :
    list Event -> Builder * error -> Prop :=
| shape_parse (rm : list Event) (e : GoError) :
    removedCache (opts b) rm ->
    buildShape b file
      (rm ++ [Ev (NewStackerfile file (Substitute (opts b))) (Err e)])
      (b, Some e)
| shape_storage (rm : list Event) (sf : Stackerfile) (e : GoError) :
    removedCache (opts b) rm ->
    buildShape b file
      (rm ++ [Ev (NewStackerfile file (Substitute (opts b))) (Ok sf);
              Ev (NewStorage (Config (opts b))) (Some e)])
      (b, Some e)
| shape_order (rm dt : list Event) (sf : Stackerfile) (e : GoError) :
    removedCache (opts b) rm ->
    detached (opts b) dt ->
    DependencyOrder sf = Err e ->
    buildShape b file
      (rm ++ [Ev (NewStackerfile file (Substitute (opts b))) (Ok sf);
              Ev (NewStorage (Config (opts b))) None] ++ dt)
      (b, Some e)
| shape_layout (rm dt : list Event) (sf : Stackerfile) (order : list string)
    (statErr : error) (e : GoError) :
    removedCache (opts b) rm ->
    detached (opts b) dt ->
    DependencyOrder sf = Ok order ->
    buildShape b file
      (rm ++ [Ev (NewStackerfile file (Substitute (opts b))) (Ok sf);
              Ev (NewStorage (Config (opts b))) None;
              Ev (os_Stat (OCIDir (Config (opts b)))) statErr;
              Ev (openLayout (opts b) statErr) (Some e)] ++ dt)
      (b, Some e)
| shape_built (rm dt body : list Event) (sf : Stackerfile) (order : list string)
    (statErr : error) (r : result unit) (x : error) :
    removedCache (opts b) rm ->
    detached (opts b) dt ->
    DependencyOrder sf = Ok order ->
    traceOf (buildWithLayout WorkingContainerName ReasonableDefaultPath GitVersionAnnotation
               StackerContentsAnnotation MetaVersion GOARCH GOOS path_Join
               (registered b file sf) sf order) body r ->
    buildShape b file
      (rm ++ [Ev (NewStackerfile file (Substitute (opts b))) (Ok sf);
              Ev (NewStorage (Config (opts b))) None;
              Ev (os_Stat (OCIDir (Config (opts b)))) statErr;
              Ev (openLayout (opts b) statErr) None]
          ++ body ++ [Ev oci_Close x] ++ dt)
      (registered b file sf, error_of r).

End Shapes.

(** ** Calls a build never makes *)

(** [never sel p]: no call [p] can make is selected by [sel]. *)
Definition never (sel : forall X : Type, Op X -> bool) {A : Type} (p : Prog A) : Prop :=
  opsAll (fun X op => sel X op = false) p.

(** No call of the trace is selected by [sel]. *)
Definition without (sel : forall X : Type, Op X -> bool) (t : list Event) : Prop :=
  Forall (fun e => match e with Ev op _ => sel _ op = false end) t.

Definition isDetach (X : Type) (op : Op X) : bool :=
  match op with
  | s_Detach => true
  | _ => false
  end.

Definition isRemoveAll (X : Type) (op : Op X) : bool :=
  match op with
  | os_RemoveAll _ => true
  | _ => false
  end.

(** The answers of [NewStorage] in a trace. *)
Definition storageOf (e : Event) : option error :=
  match e with
  | Ev op x =>
      match op in Op X return X -> option error with
      | NewStorage _ => fun err => Some err
      | _ => fun _ => None
      end x
  end.

Definition storages (t : list Event) : list error := omap storageOf t.

(** The stackerfiles [NewStackerfile] came back with. *)
Definition stackerfileOf (e : Event) : option (string * result Stackerfile) :=
  match e with
  | Ev op x =>
      match op in Op X return X -> option (string * result Stackerfile) with
      | NewStackerfile file _ => fun r => Some (file, r)
      | _ => fun _ => None
      end x
  end.

Definition stackerfiles (t : list Event) : list (string * result Stackerfile) :=
  omap stackerfileOf t.

(** The layouts that were created or opened: the directory and the answer. *)
Definition layoutOf (e : Event) : option (string * error) :=
  match e with
  | Ev op x =>
      match op in Op X return X -> option (string * error) with
      | umoci_CreateLayout dir => fun err => Some (dir, err)
      | umoci_OpenLayout dir => fun err => Some (dir, err)
      | _ => fun _ => None
      end x
  end.

Definition layouts (t : list Event) : list (string * error) := omap layoutOf t.

Definition isNewStackerfile (X : Type) (op : Op X) : bool :=
  match op with
  | NewStackerfile _ _ => true
  | _ => false
  end.

(** ** The layers of a build *)

(** The garbage collection runs at most once, and a build that makes no
    call of it fails. *)
Definition gcOnce (t : list Event) (err : error) : Prop :=
  (gcs t = [] /\ exists e, err = Some e) \/ gcs t = [err].

(** Every kind but the import. *)
Definition kindsButImport : list Kind :=
  [KPrint; KLookup; KPut; KStore; KBase; KCommand; KPackage; KBundle; KRef;
   KMutate; KConfig; KSave; KGC; KOther].

(** The import of one layer: it is the only one in the trace of the layer,
    and when it fails the layer fails with its error. *)
Definition importPost (name : string) (t : list Event) (r : result unit) : Prop :=
  (imports t = [] /\ exists e, r = Err e) \/
  (exists err, imports t = [(name, err)] /\ forall e, err = Some e -> r = Err e).

(** The imports of the layers of [order]: the layers are imported in the
    order given, up to some layer; all of them when the build succeeds; and
    an import that fails is the failure of the build. *)
Definition importsPost (order : list string) (t : list Event) (err : error) : Prop :=
  (exists k, map fst (imports t) = take k order) /\
  (err = None -> imports t = map (fun n => (n, None)) order) /\
  (forall n e, In (n, Some e) (imports t) -> err = Some e).

(** The kinds of calls a build-only layer makes. *)
Definition kindsOfBuildOnly : list Kind :=
  [KPrint; KImport; KLookup; KPut; KStore; KBase; KCommand; KSave; KOther].

(** ** More runs of the examples *)

(** A stackerfile whose layers depend on each other in a cycle. *)
Definition sfCycle : Stackerfile :=
  mkStackerfile "contents" "/src" "" (list_to_map [("a", exLayer [] false)])
                (Err (Errorf "dependency cycle: a")).

Definition buildCycle : Builder * error * World * list Event :=
  runProg (model noFaults) (exBuild "tar") (wFresh sfCycle).

(** Two layers: the build-only layer "a", then the packaged layer "b". *)
Definition sfTwo : Stackerfile :=
  exStackerfile [("a", exLayer [] true); ("b", exLayer [("FOO", "bar")] false)] "".

Definition buildTwo : Builder * error * World * list Event :=
  runProg (model noFaults) (exBuild "tar") (wFresh sfTwo).

(** The build-only layer, nothing cached. *)
Definition runBuildOnly : result unit * World * list Event :=
  runProg (model noFaults) (exBuildLayer "tar" sfBuildOnly "a") (wFresh sfBuildOnly).

(** ** Parts of a layer *)

(** The error of a result, nil when there is none. *)
Definition errOf {A : Type} (r : result A) : error :=
  match r with
  | Ok _ => None
  | Err e => Some e
  end.

(** *** What is committed *)

(** The arguments of [mutator.Set] in a trace. *)
Definition setArgsOf (e : Event)
    : option (ImageConfig * MutateMeta * gmap string string * History) :=
  match e with
  | Ev op _ =>
      match op with
      | mutator_Set c m a h => Some (c, m, a, h)
      | _ => None
      end
  end.

Definition setArgs (t : list Event)
    : list (ImageConfig * MutateMeta * gmap string string * History) :=
  omap setArgsOf t.

(** The answers of [time.Now]. *)
Definition nowOf (e : Event) : option Z :=
  match e with
  | Ev op x =>
      match op in Op X return X -> option Z with
      | time_Now => fun now => Some now
      | _ => fun _ => None
      end x
  end.

Definition nows (t : list Event) : list Z := omap nowOf t.

(** The annotations the mutator handed out. *)
Definition annotationsOf (e : Event) : option (gmap string string) :=
  match e with
  | Ev op x =>
      match op in Op X return X -> option (gmap string string) with
      | mutator_Annotations => fun r => match r with
                                        | Ok a => Some a
                                        | Err _ => None
                                        end
      | _ => fun _ => None
      end x
  end.

Definition annotationAnswers (t : list Event) : list (gmap string string) :=
  omap annotationsOf t.

(** The calls the committed image is made from. *)
Definition touchesCommit (X : Type) (op : Op X) : bool :=
  match op with
  | mutator_Set _ _ _ _ | mutator_Config | time_Now | mutator_Annotations => true
  | _ => false
  end.

(** Lines 555-560: the annotation of the image. *)
Definition annotate (GitVersionAnnotation StackerContentsAnnotation : string)
    (sf : Stackerfile) (gitVersion : string) (base : gmap string string)
    : gmap string string :=
  if negb (String.eqb gitVersion "")
  then <[ GitVersionAnnotation := gitVersion ]> base
  else <[ StackerContentsAnnotation := AfterSubstitutions sf ]> base.

(** Every call of [mutator.Set] in the trace of layer [l] is made from what
    the mutator and the clock answered before: its configuration is
    [layerImageConfig] of the configuration handed out, its metadata and its
    history entry carry the time [time.Now] answered and the author, and its
    annotations are those handed out with the one of [annotate] added. *)
Definition commitPost (ReasonableDefaultPath GitVersionAnnotation StackerContentsAnnotation
                       GOARCH GOOS : string)
    (sf : Stackerfile) (gitVersion author : string) (l : Layer) (t : list Event) : Prop :=
  forall c m a hist,
    In (c, m, a, hist) (setArgs t) ->
    exists c0 created base,
      In c0 (configs t) /\ In created (nows t) /\ In base (annotationAnswers t) /\
      layerImageConfig ReasonableDefaultPath l c0 = Ret (Ok c) /\
      m = mkMutateMeta created author GOARCH GOOS /\
      hist = mkHistory true created "stacker build" author /\
      a = annotate GitVersionAnnotation StackerContentsAnnotation sf gitVersion base.

(** The volumes and the labels of a configuration, empty when it has none. *)
Definition volumesOf (c : ImageConfig) : gset string := default ∅ (ConfigVolumes c).
Definition labelsOf (c : ImageConfig) : gmap string string := default ∅ (ConfigLabels c).

(** A layer with a command, an entrypoint and a full command, a volume, a
    label and a working directory. *)
Definition exLayerConfigured : Layer :=
  mkLayer (mkImageSource DockerType "docker://centos:latest" "") (Ok []) (Ok ["true"])
          (Some (Ok ["/bin/echo"])) (Some (Ok ["/entry"])) (Some (Ok ["/bin/sh"; "-c"; "serve"]))
          [] ["/data"] [("maintainer", "me")] "/srv" false.

Definition sfConfigured : Stackerfile := exStackerfile [("a", exLayerConfigured)] "".

Definition runConfigured : result unit * World * list Event :=
  runProg (model noFaults) (exBuildLayer "tar" sfConfigured "a") (wFresh sfConfigured).

(** What the layer commits in that run. *)
Definition exConfiguredConfig : ImageConfig :=
  mkImageConfig ["HOME=/root"; "PATH=" +:+ defaultPath] [] ["/bin/sh"; "-c"; "serve"]
                (Some {[ "/data" ]}) (Some {[ "maintainer" := "me" ]}) "/srv".

Definition exConfiguredMeta : MutateMeta := mkMutateMeta 0 "root@host" "amd64" "linux".

Definition exConfiguredAnnotations : gmap string string :=
  {[ "ws.tycho.stacker.stacker_yaml" := "contents" ]}.

Definition exConfiguredHistory : History := mkHistory true 0 "stacker build" "root@host".

(** ** The calls of one part of a layer *)

(** The calls of a trace that [sel] selects, in order. *)
Definition selected (sel : forall X : Type, Op X -> bool) (t : list Event) : list Event :=
  List.filter (fun e => match e with Ev op _ => sel _ op end) t.

(** *** The commands (lines 396-420) *)

Definition isCommandCall (X : Type) (op : Op X) : bool :=
  match op with
  | os_Stat _ | ioutil_WriteFile _ _ _ | Run _ _ _ _ _ => true
  | _ => false
  end.

(** The paths [os.Stat] was asked about, with its answers. *)
Definition statOf (e : Event) : option (string * error) :=
  match e with
  | Ev op x =>
      match op in Op X return X -> option (string * error) with
      | os_Stat p => fun err => Some (p, err)
      | _ => fun _ => None
      end x
  end.

Definition stats (t : list Event) : list (string * error) := omap statOf t.

(** The files written: path, contents, mode and answer. *)
Definition writeOf (e : Event) : option (string * string * Z * error) :=
  match e with
  | Ev op x =>
      match op in Op X return X -> option (string * string * Z * error) with
      | ioutil_WriteFile p data perm => fun err => Some (p, data, perm, err)
      | _ => fun _ => None
      end x
  end.

Definition writes (t : list Event) : list (string * string * Z * error) := omap writeOf t.

(** The calls of [Run] with all they were given. *)
Definition runCallOf (e : Event)
    : option (StackerConfig * string * string * Layer * string * error) :=
  match e with
  | Ev op x =>
      match op in Op X
            return X -> option (StackerConfig * string * string * Layer * string * error) with
      | Run config n command l onFailure => fun err => Some (config, n, command, l, onFailure, err)
      | _ => fun _ => None
      end x
  end.

Definition runCalls (t : list Event)
    : list (StackerConfig * string * string * Layer * string * error) := omap runCallOf t.

(** The shell of the working container, the script of the layer [name] and
    what is written into it. *)
Definition shellPath (path_Join : list string -> string) (WorkingContainerName : string)
    (o : BuildArgs) : string :=
  path_Join [RootFSDir (Config o); WorkingContainerName; "rootfs/bin/sh"].

Definition runScriptPath (path_Join : list string -> string) (o : BuildArgs)
    (name : string) : string :=
  path_Join [path_Join [StackerDir (Config o); "imports"; name]; ".stacker-run.sh"].

Definition runScript (run : list string) : string :=
  "#!/bin/sh -xe" +:+ nl +:+ strings_Join run nl.

(** What the layer [name] does with its commands, as the calls [cs] among
    [os.Stat], [ioutil.WriteFile] and [Run] and the error of the layer:
    nothing; or the shell is missing; or the script cannot be written; or
    the script is written and run. *)
Definition commandsPost (path_Join : list string -> string) (WorkingContainerName : string)
    (o : BuildArgs) (name : string) (l : Layer) (cs : list Event) (err : error) : Prop :=
  let sh := shellPath path_Join WorkingContainerName o in
  cs = [] \/
  (exists e, cs = [Ev (os_Stat sh) (Some e)] /\
             err = Some (Errorf ("rootfs for " +:+ name +:+ " does not have a /bin/sh"))) \/
  (exists run,
      ParseRun l = Ok run /\ run <> [] /\
      let write := ioutil_WriteFile (runScriptPath path_Join o name) (runScript run) 493 in
      ((exists e, cs = [Ev (os_Stat sh) None; Ev write (Some e)] /\ err = Some e) \/
       (exists x, cs = [Ev (os_Stat sh) None; Ev write None;
                        Ev (Run (Config o) name "/stacker/.stacker-run.sh" l (OnRunFailure o)) x] /\
                  forall e, x = Some e -> err = Some e))).

(** *** The base of the layer (lines 359-394) *)

Definition isBaseCall (X : Type) (op : Op X) : bool :=
  match op with
  | s_Restore _ _ | s_Create _ | GetBaseLayer _ _ | NewApply _ _ _ | apply_DoApply => true
  | _ => false
  end.

(** Calls made one after the other, each checked: the calls [cs] are the
    first of [ops]; all but the last succeeded; when the last failed, [err]
    is its error; and only when all of [ops] were made and succeeded can
    there be no error. *)
Fixpoint chain (ops : list (Op error)) (cs : list Event) (err : error) : Prop :=
  match ops with
  | [] => cs = []
  | op :: rest =>
      exists x cs', cs = Ev op x :: cs' /\
                    match x with
                    | Some e => cs' = [] /\ err = Some e
                    | None => chain rest cs' err
                    end
  end.

(** The working container of the layer: restored from the snapshot of the
    layer it is built from, or created empty. *)
Definition startContainer (WorkingContainerName : string) (l : Layer) : Op error :=
  match Type_ (From_ l) with
  | BuiltType => s_Restore (Tag (From_ l)) WorkingContainerName
  | _ => s_Create WorkingContainerName
  end.

Definition baseOptsOf (WorkingContainerName : string) (b : Builder) (name : string)
    (l : Layer) : BaseLayerOpts :=
  mkBaseLayerOpts (Config (opts b)) name WorkingContainerName l
                  (LayerType (opts b)) (Debug (opts b)).

Definition baseCalls (WorkingContainerName : string) (b : Builder) (name : string)
    (l : Layer) : list (Op error) :=
  [startContainer WorkingContainerName l;
   GetBaseLayer (baseOptsOf WorkingContainerName b name l) (builtStackerfiles b);
   NewApply (builtStackerfiles b) (baseOptsOf WorkingContainerName b name l)
            (ApplyConsiderTimestamps (opts b));
   apply_DoApply].

Definition basePost (WorkingContainerName : string) (b : Builder) (name : string)
    (l : Layer) (cs : list Event) (err : error) : Prop :=
  cs = [] \/ chain (baseCalls WorkingContainerName b name l) cs err.

(** The snapshots restored and the containers created. *)
Definition restoreOf (e : Event) : option (string * string * error) :=
  match e with
  | Ev op x =>
      match op in Op X return X -> option (string * string * error) with
      | s_Restore source target => fun err => Some (source, target, err)
      | _ => fun _ => None
      end x
  end.

Definition restores (t : list Event) : list (string * string * error) := omap restoreOf t.

Definition createOf (e : Event) : option (string * error) :=
  match e with
  | Ev op x =>
      match op in Op X return X -> option (string * error) with
      | s_Create n => fun err => Some (n, err)
      | _ => fun _ => None
      end x
  end.

Definition creates (t : list Event) : list (string * error) := omap createOf t.

(** The base layers fetched. *)
Definition baseLayerOf (e : Event) : option (BaseLayerOpts * gmap string Stackerfile * error) :=
  match e with
  | Ev op x =>
      match op in Op X return X -> option (BaseLayerOpts * gmap string Stackerfile * error) with
      | GetBaseLayer o sfm => fun err => Some (o, sfm, err)
      | _ => fun _ => None
      end x
  end.

Definition baseLayers (t : list Event) : list (BaseLayerOpts * gmap string Stackerfile * error) :=
  omap baseLayerOf t.

(** The answers of [DoApply]. *)
Definition doApplyOf (e : Event) : option error :=
  match e with
  | Ev op x =>
      match op in Op X return X -> option error with
      | apply_DoApply => fun err => Some err
      | _ => fun _ => None
      end x
  end.

Definition doApplies (t : list Event) : list error := omap doApplyOf t.

(** The packaged layer in a working container that has no shell. *)
Definition wNoShell : World := set_tree (fun _ => ∅) (wFresh sfPackaged).

Definition runNoShell : result unit * World * list Event :=
  runProg (model noFaults) (exBuildLayer "tar" sfPackaged "a") wNoShell.

(** ** [SaveLayer] *)

(** The copies of a trace: source, destination, whether TLS verification is
    skipped, and the answer. *)
Definition copyOf (e : Event) : option (string * string * bool * error) :=
  match e with
  | Ev op x =>
      match op in Op X return X -> option (string * string * bool * error) with
      | lib_ImageCopy src dest skipTLS => fun err => Some (src, dest, skipTLS, err)
      | _ => fun _ => None
      end x
  end.

Definition copies (t : list Event) : list (string * string * bool * error) := omap copyOf t.

(** The URLs [NewImageSource] was asked about, with its answers. *)
Definition imageSourceOf (e : Event) : option (string * result ImageSource) :=
  match e with
  | Ev op x =>
      match op in Op X return X -> option (string * result ImageSource) with
      | NewImageSource url => fun r => Some (url, r)
      | _ => fun _ => None
      end x
  end.

Definition imageSources (t : list Event) : list (string * result ImageSource) :=
  omap imageSourceOf t.

(** The directories [NewGitLayerTag] was asked about, with its answers. *)
Definition gitTagOf (e : Event) : option (string * result string) :=
  match e with
  | Ev op x =>
      match op in Op X return X -> option (string * result string) with
      | NewGitLayerTag dir => fun r => Some (dir, r)
      | _ => fun _ => None
      end x
  end.

Definition gitTags (t : list Event) : list (string * result string) := omap gitTagOf t.

(** Where the layer [name] goes under [tag], for a destination of type [ty];
    only docker and OCI destinations have one. *)
Definition saveDestUrl (sf : Stackerfile) (name : string) (ty : SourceType)
    (tag : string) : option string :=
  match ty with
  | DockerType => Some (strings_TrimRight (SaveUrl sf) "/" +:+ "/" +:+ name +:+ ":" +:+ tag)
  | OCIType => Some (SaveUrl sf +:+ ":" +:+ name +:+ "_" +:+ tag)
  | _ => None
  end.

(** The copy that saves the layer under [tag], gone through. *)
Definition expectedCopy (o : BuildArgs) (sf : Stackerfile) (name : string) (ty : SourceType)
    (tag : string) : option (string * string * bool * error) :=
  match saveDestUrl sf name ty tag with
  | Some dest => Some ("oci:" +:+ OCIDir (Config o) +:+ ":" +:+ name, dest, true, None)
  | None => None
  end.

(** The tags a layer is saved under: the remote save tags, then the tag of
    the git commit when there is one. *)
Definition saveTagsOf (o : BuildArgs) (gitTag : result string) : list string :=
  RemoteSaveTags o ++ match gitTag with
                      | Ok commitTag => [commitTag]
                      | Err _ => []
                      end.

(** A copy that failed is the last one, all before it went through, and its
    error is the result. *)
Definition failedCopyPost (t : list Event) (r : result unit) : Prop :=
  forall c e, In c (copies t) -> c.2 = Some e ->
              r = Err e /\
              exists cs, copies t = cs ++ [c] /\ Forall (fun c' => c'.2 = None) cs.

(** The loop over the tags. *)
Definition saveTagsPost (o : BuildArgs) (sf : Stackerfile) (name : string) (ty : SourceType)
    (tags : list string) (t : list Event) (r : result unit) : Prop :=
  (r = Ok tt -> map Some (copies t) = map (expectedCopy o sf name ty) tags) /\
  failedCopyPost t r /\
  imageSources t = [] /\ gitTags t = [].

Definition savePost (o : BuildArgs) (sf : Stackerfile) (name : string)
    (t : list Event) (r : result unit) : Prop :=
  (r = Ok tt ->
   exists isrc gitTag,
     imageSources t = [(SaveUrl sf, Ok isrc)] /\
     gitTags t = [(referenceDirectory sf, gitTag)] /\
     map Some (copies t) = map (expectedCopy o sf name (Type_ isrc)) (saveTagsOf o gitTag)) /\
  failedCopyPost t r.

(** A world whose stackerfile has a save URL, and the save of its layer
    under the tags [latest] and the one of the git commit. *)
Definition sfSaved : Stackerfile := exStackerfile [("a", exLayer [] false)] "/mirror".

Definition exSaveArgs : BuildArgs :=
  mkBuildArgs (Config (exArgs "tar")) (LeaveUnladen (exArgs "tar")) (NoCache (exArgs "tar"))
              (Substitute (exArgs "tar")) (OnRunFailure (exArgs "tar"))
              (ApplyConsiderTimestamps (exArgs "tar")) "tar" (Debug (exArgs "tar"))
              (OrderOnly (exArgs "tar")) ["latest"].

Definition runSave : result unit * World * list Event :=
  runProg (model noFaults) (SaveLayer exSaveArgs sfSaved "a") (wFresh sfSaved).

Definition faultsCopy : Faults :=
  fun _ op =>
    match op with
    | lib_ImageCopy _ _ _ => Some (Errorf "copy: connection refused")
    | _ => None
    end.

Definition runSaveFails : result unit * World * list Event :=
  runProg (model faultsCopy) (SaveLayer exSaveArgs sfSaved "a") (wFresh sfSaved).

(** *** The save of a layer (lines 352-357 and 617-622) *)

Definition isCacheOrCopy (X : Type) (op : Op X) : bool :=
  match op with
  | buildCache_Lookup _ | buildCache_Put _ _ | lib_ImageCopy _ _ _ => true
  | _ => false
  end.

Definition isCopy (X : Type) (op : Op X) : bool :=
  match op with
  | lib_ImageCopy _ _ _ => true
  | _ => false
  end.

Definition isLookupOrPut (X : Type) (op : Op X) : bool :=
  match op with
  | buildCache_Lookup _ | buildCache_Put _ _ => true
  | _ => false
  end.

(** Among the calls [cs] of a layer found in the cache, after the lookup:
    copies are made only with a save URL, and the cache is left alone. *)
Definition afterHit (sf : Stackerfile) (cs : list Event) : Prop :=
  copies cs = [] \/ (SaveUrl sf <> "" /\ lookups cs = [] /\ puts cs = []).

(** Among the calls [cs] of a layer not found in the cache, after the
    lookup: copies are made only with a save URL, of a layer that is not
    build only, and once it is put into the cache. *)
Definition afterMiss (sf : Stackerfile) (name : string) (l : Layer) (cs : list Event) : Prop :=
  copies cs = [] \/
  (SaveUrl sf <> "" /\ BuildOnly l = false /\ lookups cs = [] /\
   exists d, puts cs = [(name, d, None)]).

Definition cachedPost (sf : Stackerfile) (name : string) (l : Layer) (cs : list Event) : Prop :=
  copies cs = [] \/
  (SaveUrl sf <> "" /\
   ((exists entry, lookups cs = [(name, Some entry)] /\ puts cs = []) \/
    (BuildOnly l = false /\ lookups cs = [(name, None)] /\
     exists d, puts cs = [(name, d, None)]))).

(** The layer of [sfSaved], built and saved. *)
Definition runSavedLayer : result unit * World * list Event :=
  runProg (model noFaults)
          (buildLayer working defaultPath "ws.tycho.stacker.git_version"
                      "ws.tycho.stacker.stacker_yaml" "2" "amd64" "linux" joinSlash
                      (mkBuilder {[ exFile := sfSaved ]} exSaveArgs) sfSaved "" "root@host" "a")
          (wFresh sfSaved).
(** ** Running programs: general facts *)

Section Running.

Context {W : Type} (h : Handler W).

Lemma runProg_pbind {A B : Type} (p : Prog A) (f : A -> Prog B) (w : W) :
  runProg h (pbind p f) w =
  let '(a, w1, t1) := runProg h p w in
  let '(b, w2, t2) := runProg h (f a) w1 in
  (b, w2, t1 ++ t2).
Proof.
  revert w. induction p as [a | X op k IH]; intros w; simpl.
  - destruct (runProg h (f a) w) as [[b w2] t2]. reflexivity.
  - destruct (h X op w) as [x w1]. rewrite IH.
    destruct (runProg h (k x) w1) as [[a w2] t1].
    destruct (runProg h (f a) w2) as [[b w3] t2]. reflexivity.
Qed.

Lemma runProg_mbind {A B : Type} (m : M A) (f : A -> M B) (w : W) :
  runProg h (m ≫= f) w =
  let '(r, w1, t1) := runProg h m w in
  match r with
  | Ok a => let '(b, w2, t2) := runProg h (f a) w1 in (b, w2, t1 ++ t2)
  | Err e => (Err e, w1, t1)
  end.
Proof.
  unfold mbind, M_bind. rewrite runProg_pbind.
  destruct (runProg h m w) as [[r w1] t1]. destruct r as [a | e]; simpl.
  - reflexivity.
  - rewrite app_nil_r. reflexivity.
Qed.

Lemma always_run {A : Type} (p : Prog A) (P : list Event -> A -> Prop) (w : W) :
  always p P -> P (runProg h p w).2 (runProg h p w).1.1.
Proof.
  revert P w. induction p as [a | X op k IH]; intros P w Hp; simpl in *.
  - exact Hp.
  - destruct (h X op w) as [x w1]. specialize (IH x _ w1 (Hp x)).
    destruct (runProg h (k x) w1) as [[a w2] t]. exact IH.
Qed.

End Running.

Lemma always_mono {A : Type} (p : Prog A) (P Q : list Event -> A -> Prop) :
  (forall t a, P t a -> Q t a) -> always p P -> always p Q.
Proof.
  revert P Q. induction p as [a | X op k IH]; intros P Q HPQ Hp; simpl in *.
  - apply HPQ, Hp.
  - intros x. eapply IH; [ | apply Hp]. intros t a. apply HPQ.
Qed.

Lemma always_pbind {A B : Type} (p : Prog A) (f : A -> Prog B) (P : list Event -> B -> Prop) :
  always p (fun t1 a => always (f a) (fun t2 b => P (t1 ++ t2) b)) ->
  always (pbind p f) P.
Proof.
  revert P. induction p as [a | X op k IH]; intros P Hp; simpl in *.
  - exact Hp.
  - intros x. apply IH. eapply always_mono; [ | apply Hp]. intros t a Ht. exact Ht.
Qed.

Lemma always_mbind {A B : Type} (m : M A) (f : A -> M B) (P : list Event -> result B -> Prop) :
  always m (fun t1 r =>
              match r with
              | Ok a => always (f a) (fun t2 b => P (t1 ++ t2) b)
              | Err e => P t1 (Err e)
              end) ->
  always (m ≫= f) P.
Proof.
  intros Hm. unfold mbind, M_bind. apply always_pbind.
  eapply always_mono; [ | apply Hm]. intros t [a | e] Ht; simpl.
  - exact Ht.
  - rewrite app_nil_r. exact Ht.
Qed.

Lemma opsAll_mono {A : Type} (Q Q' : forall X : Type, Op X -> Prop) (p : Prog A) :
  (forall X (op : Op X), Q X op -> Q' X op) -> opsAll Q p -> opsAll Q' p.
Proof.
  intros HQ. induction p as [a | X op k IH]; simpl; [tauto | ].
  intros [Hop Hk]. split; [apply HQ, Hop | intros x; apply IH, Hk].
Qed.

Lemma opsAll_pbind {A B : Type} (Q : forall X : Type, Op X -> Prop) (p : Prog A) (f : A -> Prog B) :
  opsAll Q p -> (forall a, opsAll Q (f a)) -> opsAll Q (pbind p f).
Proof.
  intros Hp Hf. induction p as [a | X op k IH]; simpl in *; [apply Hf | ].
  destruct Hp as [Hop Hk]. split; [exact Hop | intros x; apply IH, Hk].
Qed.

Lemma opsAll_mbind {A B : Type} (Q : forall X : Type, Op X -> Prop) (m : M A) (f : A -> M B) :
  opsAll Q m -> (forall a, opsAll Q (f a)) -> opsAll Q (m ≫= f).
Proof.
  intros Hm Hf. unfold mbind, M_bind. apply opsAll_pbind; [exact Hm | ].
  intros [a | e]; simpl; [apply Hf | exact I].
Qed.

Lemma opsAll_always {A : Type} (Q : forall X : Type, Op X -> Prop) (p : Prog A) :
  opsAll Q p ->
  always p (fun t _ => Forall (fun e => match e with Ev op _ => Q _ op end) t).
Proof.
  induction p as [a | X op k IH]; simpl.
  - intros _. constructor.
  - intros [Hop Hk] x. eapply always_mono; [ | apply IH, Hk].
    intros t a Ht. constructor; [exact Hop | exact Ht].
Qed.

Lemma opsAll_kinds {W A : Type} (h : Handler W) (ks : list Kind) (p : Prog A) (w : W) :
  opsAll (kindIn ks) p -> kindsOf ks (runProg h p w).2.
Proof.
  intros Hp. pose proof (always_run h p _ w (opsAll_always _ p Hp)) as Ht.
  simpl in Ht. unfold kindsOf. eapply Forall_impl; [exact Ht | ].
  intros [X op x] H. exact H.
Qed.

(** Case analysis on every answer a program can get. *)
Ltac always_cases :=
  repeat (simpl;
          match goal with
          | |- forall x, _ =>
              let y := fresh x in
              intro y;
              let T := type of y in
              let T' := eval hnf in T in
              lazymatch T' with
              | option _ => destruct y as [? | ]
              | result _ => destruct y as [? | ?]
              | unit => destruct y
              | _ => idtac
              end
          end).

(** ** The diff loop of [generateSquashfsLayer] *)

Section DiffLoop.

Context (path_Join : list string -> string).
Context (WorkingContainerName : string).

Local Abbreviation joined rootfs d := (path_Join [rootfs; Path d]).

Lemma fatal_not_tolerated (e : GoError) :
  negb (os_IsNotExist e) && negb (bool_decide (e = Errno ENOTDIR)) = true <-> ~ tolerated e.
Proof.
  unfold tolerated. rewrite andb_true_iff, !negb_true_iff, bool_decide_eq_false.
  split.
  - intros [Hne Hnd] [-> | ->]; [discriminate Hne | apply Hnd; reflexivity].
  - intros Hn. split.
    + destruct e as [m | z | c m | m]; simpl; try reflexivity.
      destruct (Z.eqb_spec z ENOENT) as [-> | Hz]; [ | reflexivity].
      exfalso. apply Hn. left. reflexivity.
    + intros ->. apply Hn. right. reflexivity.
Qed.

Lemma mknods_mknod (p : string) (mode dev : Z) (err : error) (t : list Event) :
  mknods (Ev (unix_Mknod p mode dev) err :: t) = (p, mode, dev, err) :: mknods t.
Proof. reflexivity. Qed.

Lemma onlyMknods_quiet (t : list Event) :
  onlyMknods t -> removes t = [] /\ packaged t = [] /\ compared t = [] /\ kindsOf [KPackage] t.
Proof.
  induction 1 as [ | [X op x] t Hop _ IH]; [repeat split; constructor | ].
  destruct IH as (Hr & Hp & Hc & Hk).
  destruct op; try (exfalso; apply Hop; reflexivity).
  change (removes t = [] /\ packaged t = [] /\ compared t = [] /\
          kindsOf [KPackage] (Ev (unix_Mknod p mode dev) x :: t)).
  repeat split; try assumption. constructor; [left; reflexivity | exact Hk].
Qed.

Lemma classic_tolerated (e : GoError) : tolerated e \/ ~ tolerated e.
Proof.
  unfold tolerated. destruct (decide (e = Errno ENOENT)) as [-> | H1]; [left; left; reflexivity | ].
  destruct (decide (e = Errno ENOTDIR)) as [-> | H2]; [left; right; reflexivity | ].
  right. intros [H | H]; contradiction.
Qed.

Lemma diff_facts (d : InodeDelta) (ty : DifferenceType) :
  DiffType d = ty ->
  changed d = match ty with Modified | Extra | Missing => true | _ => false end /\
  isSame d = match ty with Same => true | _ => false end /\
  isMissing d = match ty with Missing => true | _ => false end /\
  includeAsDir d = match ty with Missing => IsDir (Old d) | _ => IsDir (New d) end.
Proof. intros Hty. unfold changed, isSame, isMissing, includeAsDir. rewrite Hty. auto. Qed.

Lemma diffsPost_nil (rootfs : string) (missing : list string) (paths : ExcludePaths) :
  diffsPost path_Join rootfs [] missing paths missing (Ok paths) [].
Proof.
  unfold diffsPost. split; [constructor | ].
  repeat split; try constructor; simpl; rewrite ?app_nil_r; reflexivity.
Qed.

(** A diff that makes no call: the loop goes on with [m1] and [p1]. *)
Lemma diffsPost_silent (rootfs : string) (d : InodeDelta) (rest : list InodeDelta)
    (missing m1 : list string) (paths p1 : ExcludePaths)
    (missing' : list string) (r : result ExcludePaths) (t : list Event) :
  isMissing d = false ->
  m1 = missing ++ (if changed d then [joined rootfs d] else []) ->
  include p1 = include paths ++ (if changed d then [(joined rootfs d, includeAsDir d)] else []) ->
  exclude p1 = exclude paths ++ (if isSame d then [joined rootfs d] else []) ->
  diffsPost path_Join rootfs rest m1 p1 missing' r t ->
  diffsPost path_Join rootfs (d :: rest) missing paths missing' r t.
Proof.
  intros Hm -> Hin Hex (Hk & Hrest). unfold diffsPost.
  split; [exact Hk | ].
  destruct r as [paths' | e].
  - destruct Hrest as (Hin' & Hex' & Hmi & Hmk & Hall).
    cbn [List.filter]. rewrite Hm, Hin', Hex', Hmi, Hin, Hex, <- !app_assoc.
    repeat split; try assumption; f_equal;
      [destruct (changed d) | destruct (isSame d) | destruct (changed d)]; reflexivity.
  - destruct Hrest as (done & d0 & rest0 & e0 & before & -> & Hty & He & Hnt & Hmi & Hmk & Hall).
    exists (d :: done), d0, rest0, e0, before. repeat split; try assumption.
    rewrite Hmi, <- app_assoc. f_equal. simpl. destruct (changed d); reflexivity.
Qed.

(** A Missing diff whose [unix.Mknod] the loop lets pass. *)
Lemma diffsPost_pass (rootfs : string) (d : InodeDelta) (rest : list InodeDelta)
    (missing : list string) (paths : ExcludePaths) (err : error)
    (missing' : list string) (r : result ExcludePaths) (t : list Event) :
  DiffType d = Missing -> passes err ->
  diffsPost path_Join rootfs rest (missing ++ [joined rootfs d])
            (AddInclude paths (joined rootfs d) (IsDir (Old d))) missing' r t ->
  diffsPost path_Join rootfs (d :: rest) missing paths missing' r
            (Ev (unix_Mknod (joined rootfs d) S_IFCHR (Mkdev 0 0)) err :: t).
Proof.
  intros Hd Hpass (Hk & Hrest).
  destruct (diff_facts d _ Hd) as (Hc & Hs & Hm & Hi). unfold diffsPost.
  split; [constructor; [discriminate | exact Hk] | ].
  destruct r as [paths' | e].
  - destruct Hrest as (Hin & Hex & Hmi & Hmk & Hall). simpl in Hin, Hex.
    cbn [List.filter]. rewrite Hc, Hs, Hm, Hin, Hex, Hmi, <- !app_assoc, mknods_mknod.
    cbn [map app]. rewrite Hi, Hmk. repeat split; try reflexivity.
    constructor; [exact Hpass | exact Hall].
  - destruct Hrest as (done & d0 & rest0 & e0 & before & -> & Hty & He & Hnt & Hmi & Hmk & Hall).
    exists (d :: done), d0, rest0, e0, ((joined rootfs d, S_IFCHR, Mkdev 0 0, err) :: before).
    repeat split; try assumption.
    + simpl. rewrite Hc, Hmi, <- app_assoc. reflexivity.
    + rewrite mknods_mknod, Hmk. reflexivity.
    + constructor; [exact Hpass | exact Hall].
Qed.

(** A Missing diff whose [unix.Mknod] ends the loop. *)
Lemma diffsPost_fatal (rootfs : string) (d : InodeDelta) (rest : list InodeDelta)
    (missing : list string) (paths : ExcludePaths) (e0 : GoError) :
  DiffType d = Missing -> ~ tolerated e0 ->
  diffsPost path_Join rootfs (d :: rest) missing paths (missing ++ [joined rootfs d])
            (Err (Wrapf e0 ("couldn't mknod whiteout for " +:+ Path d)))
            [Ev (unix_Mknod (joined rootfs d) S_IFCHR (Mkdev 0 0)) (Some e0)].
Proof.
  intros Hd Hnt. destruct (diff_facts d _ Hd) as (Hc & _). unfold diffsPost.
  split; [constructor; [discriminate | constructor] | ].
  exists [], d, rest, e0, []. repeat split; try assumption; try reflexivity.
  - simpl. rewrite Hc. reflexivity.
  - constructor.
Qed.

(** What one run of the loop does, whichever way it ends. *)
Lemma squashfsDiffs_always (rootfs : string) (diffs : list InodeDelta) :
  forall (missing : list string) (paths : ExcludePaths),
    always (squashfsDiffs path_Join rootfs diffs missing paths)
           (fun t mr => diffsPost path_Join rootfs diffs missing paths mr.1 mr.2 t).
Proof.
  induction diffs as [ | d rest IH]; intros missing paths.
  - simpl. apply diffsPost_nil.
  - simpl. destruct (DiffType d) eqn:Hd;
      destruct (diff_facts d _ Hd) as (Hc & Hs & Hm & Hi); simpl.
    + intros [e0 | ].
      * destruct (negb (os_IsNotExist e0) && negb (bool_decide (e0 = Errno ENOTDIR))) eqn:Hf.
        -- simpl. apply diffsPost_fatal; [exact Hd | apply fatal_not_tolerated, Hf].
        -- eapply always_mono; [ | apply IH]. intros t [m2 r2] Hpost.
           apply diffsPost_pass; [exact Hd | | exact Hpost].
           simpl. destruct (classic_tolerated e0) as [Ht | Hn]; [exact Ht | ].
           apply fatal_not_tolerated in Hn. congruence.
      * eapply always_mono; [ | apply IH]. intros t [m2 r2] Hpost.
        apply diffsPost_pass; [exact Hd | exact I | exact Hpost].
    + eapply always_mono; [ | apply IH]. intros t [m2 r2] Hpost.
      eapply diffsPost_silent; [exact Hm | | | | exact Hpost];
        rewrite ?Hc, ?Hs, ?Hi; simpl; rewrite ?app_nil_r; reflexivity.
    + eapply always_mono; [ | apply IH]. intros t [m2 r2] Hpost.
      eapply diffsPost_silent; [exact Hm | | | | exact Hpost];
        rewrite ?Hc, ?Hs, ?Hi; simpl; rewrite ?app_nil_r; reflexivity.
    + eapply always_mono; [ | apply IH]. intros t [m2 r2] Hpost.
      eapply diffsPost_silent; [exact Hm | | | | exact Hpost];
        rewrite ?Hc, ?Hs, ?Hi; simpl; rewrite ?app_nil_r; reflexivity.
    + eapply always_mono; [ | apply IH]. intros t [m2 r2] Hpost.
      eapply diffsPost_silent; [exact Hm | | | | exact Hpost];
        rewrite ?Hc, ?Hs, ?Hi; simpl; rewrite ?app_nil_r; reflexivity.
Qed.

Lemma removeMissing_always (missing : list string) :
  always (removeMissing missing)
         (fun t _ => removes t = missing /\ mknods t = [] /\ packaged t = [] /\ compared t = []).
Proof.
  induction missing as [ | f rest IH]; simpl.
  - repeat split.
  - intros x. eapply always_mono; [ | apply IH].
    intros t _ (Hr & Hm & Hp & Hc). unfold removes in *. simpl. rewrite Hr.
    repeat split; assumption.
Qed.

Lemma squashfsPackage_always (name : string) (o : BuildArgs) (meta : BundleMeta)
    (mtreePath : string) (paths : ExcludePaths) :
  always (squashfsPackage WorkingContainerName path_Join name o meta mtreePath paths)
         (fun t r => mknods t = [] /\ compared t = [] /\
                     (packaged t = [] \/ packaged t = [paths]) /\
                     (r = Ok tt -> packaged t = [paths]) /\
                     exists x rest, t = Ev (os_MkdirAll (OCIDir (Config o)) 493) x :: rest).
Proof.
  unfold squashfsPackage, mkSquashfs. always_cases;
    (split; [reflexivity | split; [reflexivity | split; [auto | split; [ | eauto] ] ] ]);
    first [ reflexivity | discriminate | intros; discriminate | intros; reflexivity ].
Qed.

Lemma generateSquashfsLayer_always (name author : string) (o : BuildArgs) :
  always (generateSquashfsLayer WorkingContainerName path_Join name author o)
         (squashfsPost path_Join WorkingContainerName o).
Proof.
  unfold generateSquashfsLayer. always_cases;
    try (left; split; [repeat split | eexists; reflexivity]).
  apply always_pbind. eapply always_mono; [ | apply squashfsDiffs_always].
  intros tl [missing rl] Hpost. simpl in Hpost. apply always_pbind.
  destruct rl as [paths | e].
  - eapply always_mono; [ | apply squashfsPackage_always].
    intros tp r (Hm & Hc & Hp & Hok & Hmk).
    apply always_pbind. eapply always_mono; [ | apply removeMissing_always].
    intros tr [] (Hr & Hm' & Hp' & Hc'). simpl. rewrite app_nil_r.
    right. eexists a3, missing, (Ok paths), [_; _; _; _; _], tl, tp, tr.
    split; [reflexivity | ]. do 4 (split; [reflexivity | ]). split; [exact Hpost | ].
    split; repeat split; assumption.
  - simpl. apply always_pbind. eapply always_mono; [ | apply removeMissing_always].
    intros tr [] (Hr & Hm' & Hp' & Hc'). simpl. rewrite app_nil_r.
    right. eexists a3, missing, (Err e), [_; _; _; _; _], tl, [], tr.
    split; [reflexivity | ]. do 4 (split; [reflexivity | ]). split; [exact Hpost | ].
    split; repeat split; assumption.
Qed.

(** The calls of a run of [generateSquashfsLayer] that got its diffs: the
    [unix.Mknod] calls are those of the loop ([tl]), the packaging ([tp]) is
    the only place the tool is called, and the removals are those of the
    packaging followed by the deferred ones, one for every path of [missing]. *)
Lemma squashfsPost_summary (o : BuildArgs) (t : list Event) (r : result unit) :
  squashfsPost path_Join WorkingContainerName o t r ->
  (quiet t /\ exists e, r = Err e)
  \/ exists (diffs : list InodeDelta) (missing : list string) (rl : result ExcludePaths)
            (tl tp : list Event),
       compared t = [diffs] /\ mknods t = mknods tl /\ packaged t = packaged tp /\
       removes t = removes tp ++ missing /\ (forall e, In e tp -> In e t) /\
       diffsPost path_Join (path_Join [RootFSDir (Config o); WorkingContainerName; "rootfs"])
                 diffs [] NewExcludePaths missing rl tl /\
       match rl with
       | Err e => tp = [] /\ r = Err e
       | Ok paths =>
           (packaged tp = [] \/ packaged tp = [paths]) /\
           (r = Ok tt -> packaged tp = [paths]) /\
           exists x rest, tp = Ev (os_MkdirAll (OCIDir (Config o)) 493) x :: rest
       end.
Proof.
  intros [Hq | (diffs & missing & rl & t0 & tl & tp & tr & -> & Hc0 & Hm0 & Hr0 & Hp0 &
                Hpost & Hrl & Hrr & Hmr & Hpr & Hcr)]; [left; exact Hq | right].
  exists diffs, missing, rl, tl, tp.
  destruct (onlyMknods_quiet tl (proj1 Hpost)) as (Hrl' & Hpl & Hcl & _).
  assert (Hmp : mknods tp = [] /\ compared tp = []).
  { destruct rl as [paths | e]; [tauto | ]. destruct Hrl as [-> _]. split; reflexivity. }
  destruct Hmp as [Hmp Hcp].
  unfold compared, mknods, packaged, removes in *. rewrite !omap_app.
  rewrite Hc0, Hm0, Hr0, Hp0, Hrl', Hpl, Hcl, Hrr, Hmr, Hpr, Hcr, Hmp, Hcp.
  simpl. rewrite ?app_nil_r. do 4 (split; [reflexivity | ]).
  split; [intros e He; rewrite !in_app_iff; tauto | ]. split; [exact Hpost | ].
  destruct rl as [paths | e]; [ | exact Hrl]. tauto.
Qed.

Lemma generateSquashfsLayer_run {W : Type} (h : Handler W) (name author : string)
    (o : BuildArgs) (w : W) (r : result unit) (w' : W) (t : list Event) :
  runProg h (generateSquashfsLayer WorkingContainerName path_Join name author o) w = (r, w', t) ->
  (quiet t /\ exists e, r = Err e)
  \/ exists (diffs : list InodeDelta) (missing : list string) (rl : result ExcludePaths)
            (tl tp : list Event),
       compared t = [diffs] /\ mknods t = mknods tl /\ packaged t = packaged tp /\
       removes t = removes tp ++ missing /\ (forall e, In e tp -> In e t) /\
       diffsPost path_Join (path_Join [RootFSDir (Config o); WorkingContainerName; "rootfs"])
                 diffs [] NewExcludePaths missing rl tl /\
       match rl with
       | Err e => tp = [] /\ r = Err e
       | Ok paths =>
           (packaged tp = [] \/ packaged tp = [paths]) /\
           (r = Ok tt -> packaged tp = [paths]) /\
           exists x rest, tp = Ev (os_MkdirAll (OCIDir (Config o)) 493) x :: rest
       end.
Proof.
  intros Hrun.
  pose proof (always_run h _ _ w (generateSquashfsLayer_always name author o)) as H.
  rewrite Hrun in H. apply squashfsPost_summary. exact H.
Qed.

(** C2 (diff minimality).  In every run of [generateSquashfsLayer], the path
    lists handed to the packaging tool are made from the diffs that
    [mtree.CompareSame] returned: the included paths are exactly the paths
    classified Modified, Extra or Missing, in the order of the diffs; the
    excluded paths are exactly the paths classified Same.  So a path is
    included if and only if it is the path of a changed diff, and excluded
    if and only if it is the path of a diff classified Same. *)
Theorem C2_payload_is_the_changed_paths
    {W : Type} (h : Handler W) (name author : string) (o : BuildArgs) (w : W)
    (r : result unit) (w' : W) (t : list Event)
    (diffs : list InodeDelta) (eps : ExcludePaths) :
  runProg h (generateSquashfsLayer WorkingContainerName path_Join name author o) w = (r, w', t) ->
  In diffs (compared t) ->
  In eps (packaged t) ->
  let rootfs := path_Join [RootFSDir (Config o); WorkingContainerName; "rootfs"] in
  include eps = map (fun d => (joined rootfs d, includeAsDir d)) (List.filter changed diffs) /\
  exclude eps = map (fun d => joined rootfs d) (List.filter isSame diffs) /\
  (forall p, In p (map fst (include eps)) <->
             exists d, In d diffs /\ changed d = true /\ p = joined rootfs d) /\
  (forall p, In p (exclude eps) <->
             exists d, In d diffs /\ DiffType d = Same /\ p = joined rootfs d).
Proof.
  intros Hrun Hdiffs Heps rootfs.
  destruct (generateSquashfsLayer_run h _ _ _ _ _ _ _ Hrun)
    as [[(_ & _ & Hq & _) _] | (diffs0 & missing & rl & tl & tp & Hc & _ & Hp & _ & _ & Hpost & Hrl)].
  { rewrite Hq in Heps. destruct Heps. }
  rewrite Hc in Hdiffs. destruct Hdiffs as [<- | []].
  rewrite Hp in Heps. destruct rl as [paths | e].
  2: { destruct Hrl as [-> _]. destruct Heps. }
  destruct Hrl as ([Hnone | Hone] & _); rewrite ?Hnone, ?Hone in Heps; [destruct Heps | ].
  destruct Heps as [<- | []].
  destruct Hpost as (_ & Hin & Hex & _). simpl in Hin, Hex. fold rootfs in Hin, Hex.
  split; [exact Hin | ]. split; [exact Hex | ]. split; intros p.
  - rewrite Hin, map_map. simpl. rewrite in_map_iff. split.
    + intros (d & <- & Hd). apply filter_In in Hd. destruct Hd as [Hd Hch]. eauto.
    + intros (d & Hd & Hch & ->). exists d. split; [reflexivity | ].
      apply filter_In. split; assumption.
  - rewrite Hex, in_map_iff. split.
    + intros (d & <- & Hd). apply filter_In in Hd. destruct Hd as [Hd Hs].
      exists d. split; [exact Hd | ]. split; [ | reflexivity].
      unfold isSame in Hs. destruct (DiffType d); congruence.
    + intros (d & Hd & Hs & ->). exists d. split; [reflexivity | ].
      apply filter_In. split; [exact Hd | ]. unfold isSame. rewrite Hs. reflexivity.
Qed.


(** C6 (tolerated errors).  In every run of [generateSquashfsLayer]: a
    [unix.Mknod] that comes back with an error that is neither ENOENT nor
    ENOTDIR fails the layer, the function returns that error wrapped and
    nothing is packaged; and when every [unix.Mknod] comes back with nil,
    ENOENT or ENOTDIR, the loop goes through all the diffs (each Missing path
    gets its call) and the function goes on to the packaging. *)
Theorem C6_mknod_error_is_fatal_unless_tolerated
    {W : Type} (h : Handler W) (name author : string) (o : BuildArgs) (w : W)
    (r : result unit) (w' : W) (t : list Event) :
  runProg h (generateSquashfsLayer WorkingContainerName path_Join name author o) w = (r, w', t) ->
  let rootfs := path_Join [RootFSDir (Config o); WorkingContainerName; "rootfs"] in
  (forall p mode dev e,
      In (p, mode, dev, Some e) (mknods t) ->
      e <> Errno ENOENT /\ e <> Errno ENOTDIR ->
      packaged t = [] /\
      exists d, p = joined rootfs d /\
                r = Err (Wrapf e ("couldn't mknod whiteout for " +:+ Path d))) /\
  (forall diffs,
      In diffs (compared t) ->
      Forall (fun c => c.2 = None \/ c.2 = Some (Errno ENOENT) \/ c.2 = Some (Errno ENOTDIR))
             (mknods t) ->
      map (fun c => c.1) (mknods t) =
        map (fun d => (joined rootfs d, S_IFCHR, Mkdev 0 0)) (List.filter isMissing diffs) /\
      exists x, In (Ev (os_MkdirAll (OCIDir (Config o)) 493) x) t).
Proof.
  intros Hrun rootfs.
  destruct (generateSquashfsLayer_run h _ _ _ _ _ _ _ Hrun)
    as [[(Hq & _ & _ & Hqc) _] | (diffs0 & missing & rl & tl & tp & Hc & Hmk & Hp & _ & Htp & Hpost & Hrl)].
  { split.
    - intros p mode dev e Hin _. rewrite Hq in Hin. destruct Hin.
    - intros diffs Hin _. rewrite Hqc in Hin. destruct Hin. }
  split.
  - intros p mode dev e Hin [Hne Hnd]. rewrite Hmk in Hin.
    assert (Hnt : ~ passes (Some e)) by (intros [H | H]; contradiction).
    destruct rl as [paths | e'].
    + destruct Hpost as (_ & _ & _ & _ & _ & Hpass).
      rewrite List.Forall_forall in Hpass. exfalso. apply Hnt. apply (Hpass _ Hin).
    + destruct Hrl as [-> ->].
      destruct Hpost as (_ & done & d & rest & e0 & before & _ & _ & -> & _ & _ & Hlast & Hpass).
      rewrite Hlast in Hin. apply in_app_iff in Hin. destruct Hin as [Hin | [Heq | []]].
      * rewrite List.Forall_forall in Hpass. exfalso. apply Hnt. apply (Hpass _ Hin).
      * inversion Heq; subst. split; [rewrite Hp; reflexivity | ].
        exists d. split; reflexivity.
  - intros diffs Hin Hall. rewrite Hc in Hin. destruct Hin as [<- | []].
    destruct rl as [paths | e'].
    + destruct Hpost as (_ & _ & _ & _ & Hcalls & _). rewrite Hmk. split; [exact Hcalls | ].
      destruct Hrl as (_ & _ & x & rest & ->). exists x. apply Htp. left. reflexivity.
    + exfalso.
      destruct Hpost as (_ & done & d & rest & e0 & before & _ & _ & _ & Hnt & _ & Hlast & _).
      rewrite Hmk, Hlast, List.Forall_forall in Hall.
      specialize (Hall (joined rootfs d, S_IFCHR, Mkdev 0 0, Some e0)).
      simpl in Hall. destruct Hall as [H | [H | H]].
      * apply in_app_iff. right. left. reflexivity.
      * discriminate H.
      * inversion H. apply Hnt. left. assumption.
      * inversion H. apply Hnt. right. assumption.
Qed.

(** C4 (cleanup), as the code has it.  In every run of
    [generateSquashfsLayer] that reaches the packaging, the deferred cleanup
    calls [os.Remove] on the path of every diff classified Modified, Extra or
    Missing: the loop appends all of them to [missing], not only the paths
    that got a whiteout marker.  So the cleanup removes the added and the
    modified files of the working tree as well. *)
Theorem C4_cleanup_removes_every_changed_path
    {W : Type} (h : Handler W) (name author : string) (o : BuildArgs) (w : W)
    (r : result unit) (w' : W) (t : list Event)
    (diffs : list InodeDelta) (eps : ExcludePaths) (d : InodeDelta) :
  runProg h (generateSquashfsLayer WorkingContainerName path_Join name author o) w = (r, w', t) ->
  In diffs (compared t) ->
  In eps (packaged t) ->
  In d diffs ->
  changed d = true ->
  In (joined (path_Join [RootFSDir (Config o); WorkingContainerName; "rootfs"]) d) (removes t).
Proof.
  intros Hrun Hdiffs Heps Hd Hch.
  destruct (generateSquashfsLayer_run h _ _ _ _ _ _ _ Hrun)
    as [[(_ & _ & Hq & _) _] | (diffs0 & missing & rl & tl & tp & Hc & _ & Hp & Hrm & _ & Hpost & Hrl)].
  { rewrite Hq in Heps. destruct Heps. }
  rewrite Hc in Hdiffs. destruct Hdiffs as [<- | []].
  rewrite Hp in Heps. destruct rl as [paths | e].
  2: { destruct Hrl as [-> _]. destruct Heps. }
  destruct Hpost as (_ & _ & _ & Hmissing & _). simpl in Hmissing.
  rewrite Hrm, Hmissing. apply in_or_app. right.
  apply in_map_iff. exists d. split; [reflexivity | ].
  apply filter_In. split; assumption.
Qed.

End DiffLoop.

(** ** The environment of the image configuration *)

Section Environment.

Context (ReasonableDefaultPath : string).

Lemma rangeEnvironment_spec (env : list (string * string)) :
  forall (pathSet : bool) (imageEnv : list string),
    rangeEnvironment env pathSet imageEnv =
    (pathSet || existsb (fun kv : string * string => String.eqb kv.1 "PATH") env,
     imageEnv ++ map (fun kv : string * string => kv.1 +:+ "=" +:+ kv.2) env).
Proof.
  induction env as [ | [k v] rest IH]; intros pathSet imageEnv; simpl.
  - rewrite orb_false_r, app_nil_r. reflexivity.
  - rewrite IH, <- app_assoc. simpl. f_equal.
    destruct (String.eqb k "PATH"); simpl; [ | reflexivity].
    destruct pathSet; reflexivity.
Qed.

Lemma rangePathPrefix_spec (imageEnv : list string) :
  rangePathPrefix imageEnv = existsb setsPath imageEnv.
Proof.
  induction imageEnv as [ | s rest IH]; simpl; [reflexivity | ].
  unfold setsPath at 1. destruct (strings_HasPrefix s "PATH="); [reflexivity | exact IH].
Qed.

(** [setEnvironment] in one piece. *)
Lemma setEnvironment_spec (l : Layer) (imageEnv : list string) :
  setEnvironment ReasonableDefaultPath l imageEnv =
  imageEnv ++ declaredEnv l ++
  (if existsb (fun kv : string * string => String.eqb kv.1 "PATH") (Environment l)
      || existsb setsPath (imageEnv ++ declaredEnv l)
   then [] else ["PATH=" +:+ ReasonableDefaultPath]).
Proof.
  unfold setEnvironment, declaredEnv. rewrite rangeEnvironment_spec. simpl.
  destruct (existsb _ (Environment l)); simpl.
  - rewrite app_nil_r. reflexivity.
  - rewrite rangePathPrefix_spec.
    destruct (existsb setsPath _); simpl; rewrite <- ?app_assoc, ?app_nil_r; reflexivity.
Qed.

Lemma append_cons (c : ascii) (s t : string) : String c s +:+ t = String c (s +:+ t).
Proof. reflexivity. Qed.

Lemma append_nil (t : string) : "" +:+ t = t.
Proof. reflexivity. Qed.

Lemma prefix_cons (a b : ascii) (s t : string) :
  String.prefix (String a s) (String b t) = Ascii.eqb a b && String.prefix s t.
Proof.
  cbn [String.prefix]. destruct (ascii_dec a b) as [-> | Hne].
  - rewrite Ascii.eqb_refl. reflexivity.
  - apply Ascii.eqb_neq in Hne. rewrite Hne. reflexivity.
Qed.

(** A rendered variable [k=v] sets PATH only if [k] is PATH or already has
    the prefix. *)
Lemma rendered_setsPath (k v : string) :
  setsPath (k +:+ "=" +:+ v) = true -> k = "PATH" \/ strings_HasPrefix k "PATH=" = true.
Proof.
  unfold setsPath, strings_HasPrefix. intros H.
  destruct k as [ | c1 [ | c2 [ | c3 [ | c4 [ | c5 k] ] ] ] ];
    rewrite ?append_cons, ?append_nil, ?prefix_cons in H;
    rewrite ?prefix_cons;
    repeat match type of H with
           | context [Ascii.eqb ?a ?b] =>
               first [ is_var b; destruct (Ascii.eqb_spec a b) as [<- | ]
                     | let r := eval vm_compute in (Ascii.eqb a b) in
                       change (Ascii.eqb a b) with r in H ];
               cbn [andb] in H |- *
           end;
    try discriminate H; auto; right; destruct k; reflexivity.
Qed.

(** The environment [setEnvironment] makes is the base image's environment
    followed by the variables the recipe declares.  When the recipe declares
    PATH, or an entry of the base environment sets PATH, nothing else is
    added; when no declared variable is PATH (or begins with [PATH=]) and no
    entry of the base environment sets PATH, the entry
    [PATH=ReasonableDefaultPath] is appended. *)
Lemma setEnvironment_default_path (l : Layer) (baseEnv : list string) :
  ((In "PATH" (map fst (Environment l)) \/ exists s, In s baseEnv /\ setsPath s = true) ->
   setEnvironment ReasonableDefaultPath l baseEnv = baseEnv ++ declaredEnv l) /\
  ((forall k, In k (map fst (Environment l)) -> k <> "PATH" /\ strings_HasPrefix k "PATH=" = false) ->
   (forall s, In s baseEnv -> setsPath s = false) ->
   setEnvironment ReasonableDefaultPath l baseEnv =
     baseEnv ++ declaredEnv l ++ ["PATH=" +:+ ReasonableDefaultPath]).
Proof.
  rewrite setEnvironment_spec. split.
  - intros Hset.
    assert (Hb : existsb (fun kv : string * string => String.eqb kv.1 "PATH") (Environment l)
                 || existsb setsPath (baseEnv ++ declaredEnv l) = true).
    { apply orb_true_iff. destruct Hset as [Hkey | (s & Hs & Hp)].
      - left. apply existsb_exists. apply in_map_iff in Hkey.
        destruct Hkey as ([k v] & Hk & Hin). simpl in Hk. subst k.
        exists ("PATH", v). split; [exact Hin | reflexivity].
      - right. apply existsb_exists. exists s. split; [ | exact Hp].
        apply in_app_iff. left. exact Hs. }
    rewrite Hb, app_nil_r. reflexivity.
  - intros Hkeys Hbase.
    assert (Hb : existsb (fun kv : string * string => String.eqb kv.1 "PATH") (Environment l)
                 || existsb setsPath (baseEnv ++ declaredEnv l) = false).
    { apply orb_false_iff. split.
      - apply not_true_is_false. intros Hex. apply existsb_exists in Hex.
        destruct Hex as ([k v] & Hin & Heq). simpl in Heq. apply String.eqb_eq in Heq.
        apply (Hkeys k); [ | exact Heq]. apply in_map_iff. exists (k, v). split; [reflexivity | exact Hin].
      - apply not_true_is_false. intros Hex. apply existsb_exists in Hex.
        destruct Hex as (s & Hin & Hp). apply in_app_iff in Hin. destruct Hin as [Hin | Hin].
        + rewrite (Hbase s Hin) in Hp. discriminate Hp.
        + unfold declaredEnv in Hin. apply in_map_iff in Hin.
          destruct Hin as ([k v] & <- & Hin). simpl in Hp.
          assert (Hk : In k (map fst (Environment l))).
          { apply in_map_iff. exists (k, v). split; [reflexivity | exact Hin]. }
          destruct (Hkeys k Hk) as [Hne Hnp].
          destruct (rendered_setsPath k v Hp) as [Heq | Hpre]; [contradiction | congruence]. }
    rewrite Hb. reflexivity.
Qed.

End Environment.

(** ** The kinds of calls each part of [Build] makes *)

(** Case analysis on a program: its answers and what it branches on. *)
Ltac head_of t :=
  lazymatch t with
  | ?f _ => head_of f
  | _ => t
  end.

Ltac ops_step :=
  cbv beta;
  lazymatch goal with
  | |- True => exact I
  | |- kindIn _ _ _ =>
      unfold kindIn; simpl;
      first [ tauto | match goal with H : incl _ _ |- _ => apply H; simpl; tauto end ]
  | |- opsAll _ (Ret _) => exact I
  | |- opsAll _ (Vis _ _) => split; [ | intro]
  | |- opsAll _ (mret _) => exact I
  | |- opsAll _ (mbind _ _) => apply opsAll_mbind; [ | intro]
  | |- opsAll _ (M_bind _ _ _ _) => apply opsAll_mbind; [ | intro]
  | |- opsAll _ (pbind _ _) => apply opsAll_pbind; [ | intro]
  | |- opsAll _ (match ?x with _ => _ end) => destruct x eqn:?
  | |- opsAll _ (let _ := _ in _) => cbv zeta
  | |- opsAll _ ?p => first [ solve [eauto with ops] | let f := head_of p in unfold f ]
  end.

Ltac ops := repeat ops_step.

(** Symbolic execution of a program under [always]: one step.  A condition
    already decided is reused; a part of the program with a lemma in the
    hint database [alw] is not entered. *)
Create HintDb alw.

Ltac decide_on x :=
  first [ match goal with H : x = _ |- _ => rewrite H end
        | lazymatch x with
          | negb ?y => first [ match goal with H : y = _ |- _ => rewrite H end
                             | destruct y eqn:? ]
          | _ => destruct x eqn:?
          end ];
  cbn [negb].

Ltac always_step :=
  cbv beta;
  lazymatch goal with
  | |- always (Ret _) _ => cbn [always]
  | |- always (Vis _ _) _ =>
      cbn [always];
      let y := fresh "x" in
      intro y; try (lazymatch type of y with unit => destruct y end)
  | |- always (mret _) _ => unfold mret, M_ret; cbn [always]
  | |- always (mbind _ _) _ => apply always_mbind
  | |- always (M_bind _ _ _ _) _ => apply always_mbind
  | |- always (pbind _ _) _ => apply always_pbind
  | |- always (match ?x with _ => _ end) _ => decide_on x
  | |- always (let _ := _ in _) _ => cbv zeta
  | |- always ?p _ =>
      first [ eapply always_mono; [ | solve [eauto with alw] ]; cbv beta
            | let f := head_of p in unfold f ]
  | |- match ?x with _ => _ end => decide_on x
  | |- forall _, always _ _ =>
      let y := fresh "x" in
      intro y; try (lazymatch type of y with unit => destruct y end)
  end.

(** The kinds of a trace given call by call, up to a tail that is known. *)
Ltac kinds_list :=
  unfold kindsOf, noPut;
  repeat (apply List.Forall_cons; [simpl; tauto | ]);
  first [ apply List.Forall_nil | assumption ].

(** A list of kinds is within another. *)
Ltac within :=
  let k := fresh "k" in
  let Hk := fresh "Hk" in
  intros k Hk;
  match goal with
  | H : incl _ _ |- _ => apply H; simpl in Hk |- *; tauto
  | _ => simpl in Hk |- *; tauto
  end.

Create HintDb ops.

Lemma saveTags_kinds (ks : list Kind) (o : BuildArgs) (sf : Stackerfile) (name : string)
    (isrc : ImageSource) (tags : list string) :
  incl [KPrint; KSave] ks -> opsAll (kindIn ks) (saveTags o sf name isrc tags).
Proof.
  intros Hks. induction tags as [ | tag rest IH]; [exact I | ].
  cbn [saveTags]. ops.
Qed.
#[global] Hint Extern 1 (opsAll _ (saveTags _ _ _ _ _)) => apply saveTags_kinds; within : ops.

Lemma SaveLayer_kinds (ks : list Kind) (o : BuildArgs) (sf : Stackerfile) (name : string) :
  incl [KPrint; KSave] ks -> opsAll (kindIn ks) (SaveLayer o sf name).
Proof. intros Hks. unfold SaveLayer. ops. Qed.
#[global] Hint Extern 1 (opsAll _ (SaveLayer _ _ _)) => apply SaveLayer_kinds; within : ops.

Lemma buildLayerHit_kinds (ks : list Kind) (o : BuildArgs) (sf : Stackerfile) (name : string)
    (l : Layer) (cacheEntry : CacheEntry) :
  incl [KStore; KRef; KPrint; KSave] ks ->
  opsAll (kindIn ks) (buildLayerHit o sf name l cacheEntry).
Proof. intros Hks. unfold buildLayerHit. ops. Qed.
#[global] Hint Extern 1 (opsAll _ (buildLayerHit _ _ _ _ _)) =>
  apply buildLayerHit_kinds; within : ops.

Lemma materializeBase_kinds (ks : list Kind) (WorkingContainerName : string)
    (b : Builder) (name : string) (l : Layer) :
  incl [KStore; KBase] ks ->
  opsAll (kindIn ks) (materializeBase WorkingContainerName b name l).
Proof. intros Hks. unfold materializeBase. ops. Qed.
#[global] Hint Extern 1 (opsAll _ (materializeBase _ _ _ _)) =>
  apply materializeBase_kinds; within : ops.

Lemma runCommands_kinds (ks : list Kind) (WorkingContainerName : string)
    (path_Join : list string -> string) (o : BuildArgs) (name : string) (l : Layer) :
  incl [KPrint; KOther; KCommand] ks ->
  opsAll (kindIn ks) (runCommands WorkingContainerName path_Join o name l).
Proof. intros Hks. unfold runCommands. ops. Qed.
#[global] Hint Extern 1 (opsAll _ (runCommands _ _ _ _ _)) =>
  apply runCommands_kinds; within : ops.

Lemma snapshotBuildOnly_kinds (ks : list Kind) (WorkingContainerName name : string) :
  incl [KStore; KPrint; KPut] ks ->
  opsAll (kindIn ks) (snapshotBuildOnly WorkingContainerName name).
Proof. intros Hks. unfold snapshotBuildOnly. ops. Qed.
#[global] Hint Extern 1 (opsAll _ (snapshotBuildOnly _ _)) =>
  apply snapshotBuildOnly_kinds; within : ops.

Lemma squashfsDiffs_kinds (ks : list Kind) (path_Join : list string -> string)
    (rootfs : string) (diffs : list InodeDelta) :
  incl [KPackage] ks ->
  forall missing paths, opsAll (kindIn ks) (squashfsDiffs path_Join rootfs diffs missing paths).
Proof.
  intros Hks. induction diffs as [ | d rest IH]; intros missing paths; [exact I | ].
  cbn [squashfsDiffs]. ops.
Qed.
#[global] Hint Extern 1 (opsAll _ (squashfsDiffs _ _ _ _ _)) =>
  apply squashfsDiffs_kinds; within : ops.

Lemma removeMissing_kinds (ks : list Kind) (missing : list string) :
  incl [KPackage] ks -> opsAll (kindIn ks) (removeMissing missing).
Proof. intros Hks. induction missing as [ | f rest IH]; cbn [removeMissing]; ops. Qed.
#[global] Hint Extern 1 (opsAll _ (removeMissing _)) => apply removeMissing_kinds; within : ops.

Lemma generateSquashfsLayer_kinds (ks : list Kind) (WorkingContainerName : string)
    (path_Join : list string -> string) (name author : string) (o : BuildArgs) :
  incl [KPackage; KBundle] ks ->
  opsAll (kindIn ks) (generateSquashfsLayer WorkingContainerName path_Join name author o).
Proof. intros Hks. unfold generateSquashfsLayer, squashfsPackage, mkSquashfs. ops. Qed.
#[global] Hint Extern 1 (opsAll _ (generateSquashfsLayer _ _ _ _ _)) =>
  apply generateSquashfsLayer_kinds; within : ops.

Lemma generateLayer_kinds (ks : list Kind) (WorkingContainerName : string)
    (path_Join : list string -> string) (o : BuildArgs) (name author : string) :
  incl [KPrint; KPackage; KBundle] ks ->
  opsAll (kindIn ks) (generateLayer WorkingContainerName path_Join o name author).
Proof. intros Hks. unfold generateLayer. ops. Qed.
#[global] Hint Extern 1 (opsAll _ (generateLayer _ _ _ _ _)) =>
  apply generateLayer_kinds; within : ops.

Lemma renameFirstMtree_kinds (ks : list Kind) (path_Join : list string -> string)
    (rootPath newName : string) (infos : list string) :
  incl [KBundle] ks -> opsAll (kindIn ks) (renameFirstMtree path_Join rootPath newName infos).
Proof. intros Hks. induction infos as [ | fi rest IH]; cbn [renameFirstMtree]; ops. Qed.
#[global] Hint Extern 1 (opsAll _ (renameFirstMtree _ _ _ _)) =>
  apply renameFirstMtree_kinds; within : ops.

Lemma commitMetadata_kinds (ks : list Kind)
    (WorkingContainerName ReasonableDefaultPath : string)
    (GitVersionAnnotation StackerContentsAnnotation MetaVersion GOARCH GOOS : string)
    (path_Join : list string -> string)
    (o : BuildArgs) (sf : Stackerfile) (gitVersion author name : string) (l : Layer) :
  incl [KPrint; KRef; KMutate; KConfig; KBundle; KOther] ks ->
  opsAll (kindIn ks)
         (commitMetadata WorkingContainerName ReasonableDefaultPath GitVersionAnnotation
            StackerContentsAnnotation MetaVersion GOARCH GOOS path_Join
            o sf gitVersion author name l).
Proof.
  intros Hks. unfold commitMetadata, layerImageConfig, updateBundleMtree. ops.
Qed.
#[global] Hint Extern 1 (opsAll _ (commitMetadata _ _ _ _ _ _ _ _ _ _ _ _ _ _)) =>
  apply commitMetadata_kinds; within : ops.

Lemma snapshotAndCache_kinds (ks : list Kind) (WorkingContainerName : string)
    (o : BuildArgs) (sf : Stackerfile) (name : string) :
  incl [KStore; KPrint; KRef; KPut; KSave] ks ->
  opsAll (kindIn ks) (snapshotAndCache WorkingContainerName o sf name).
Proof. intros Hks. unfold snapshotAndCache. ops. Qed.
#[global] Hint Extern 1 (opsAll _ (snapshotAndCache _ _ _ _)) =>
  apply snapshotAndCache_kinds; within : ops.

(** The calls of a layer that misses the cache, up to the packaging. *)
Lemma buildLayerMiss_kinds (ks : list Kind)
    (WorkingContainerName ReasonableDefaultPath : string)
    (GitVersionAnnotation StackerContentsAnnotation MetaVersion GOARCH GOOS : string)
    (path_Join : list string -> string)
    (b : Builder) (sf : Stackerfile) (gitVersion author name : string) (l : Layer) :
  incl [KPrint; KPut; KStore; KBase; KCommand; KPackage; KBundle; KRef; KMutate; KConfig; KSave; KOther] ks ->
  opsAll (kindIn ks)
         (buildLayerMiss WorkingContainerName ReasonableDefaultPath GitVersionAnnotation
            StackerContentsAnnotation MetaVersion GOARCH GOOS path_Join
            b sf gitVersion author name l).
Proof. intros Hks. unfold buildLayerMiss. ops. Qed.
#[global] Hint Extern 1 (opsAll _ (buildLayerMiss _ _ _ _ _ _ _ _ _ _ _ _ _ _)) =>
  apply buildLayerMiss_kinds; within : ops.

(** No layer calls the garbage collection. *)
Lemma buildLayer_kinds (ks : list Kind)
    (WorkingContainerName ReasonableDefaultPath : string)
    (GitVersionAnnotation StackerContentsAnnotation MetaVersion GOARCH GOOS : string)
    (path_Join : list string -> string)
    (b : Builder) (sf : Stackerfile) (gitVersion author name : string) :
  incl [KPrint; KImport; KLookup; KPut; KStore; KBase; KCommand; KPackage; KBundle; KRef;
        KMutate; KConfig; KSave; KOther] ks ->
  opsAll (kindIn ks)
         (buildLayer WorkingContainerName ReasonableDefaultPath GitVersionAnnotation
            StackerContentsAnnotation MetaVersion GOARCH GOOS path_Join
            b sf gitVersion author name).
Proof. intros Hks. unfold buildLayer. ops. Qed.
#[global] Hint Extern 1 (opsAll _ (buildLayer _ _ _ _ _ _ _ _ _ _ _ _ _)) =>
  apply buildLayer_kinds; within : ops.

Lemma buildLayers_kinds (ks : list Kind)
    (WorkingContainerName ReasonableDefaultPath : string)
    (GitVersionAnnotation StackerContentsAnnotation MetaVersion GOARCH GOOS : string)
    (path_Join : list string -> string)
    (b : Builder) (sf : Stackerfile) (gitVersion author : string) (order : list string) :
  incl [KPrint; KImport; KLookup; KPut; KStore; KBase; KCommand; KPackage; KBundle; KRef;
        KMutate; KConfig; KSave; KOther] ks ->
  opsAll (kindIn ks)
         (buildLayers WorkingContainerName ReasonableDefaultPath GitVersionAnnotation
            StackerContentsAnnotation MetaVersion GOARCH GOOS path_Join
            b sf gitVersion author order).
Proof.
  intros Hks. induction order as [ | name rest IH]; cbn [buildLayers]; ops.
Qed.
#[global] Hint Extern 1 (opsAll _ (buildLayers _ _ _ _ _ _ _ _ _ _ _ _ _)) =>
  apply buildLayers_kinds; within : ops.

(** A projection of a trace is empty when the trace has no call of the
    kind it collects. *)
Lemma omap_kinds {B : Type} (f : Event -> option B) (K : Kind) (ks : list Kind) (t : list Event) :
  (forall e, f e <> None -> kind e = K) -> ~ In K ks -> kindsOf ks t -> omap f t = [].
Proof.
  intros Hf HK. induction 1 as [ | e t He _ IH]; [reflexivity | ].
  cbn [omap list_omap]. fold (omap f t). rewrite IH.
  destruct (f e) eqn:Hfe; [ | reflexivity].
  exfalso. apply HK. rewrite <- (Hf e); [exact He | ]. rewrite Hfe. discriminate.
Qed.

Lemma lookupOf_kind (e : Event) : lookupOf e <> None -> kind e = KLookup.
Proof. destruct e as [X op x]. destruct op; simpl; congruence. Qed.

Lemma putOf_kind (e : Event) : putOf e <> None -> kind e = KPut.
Proof. destruct e as [X op x]. destruct op; simpl; congruence. Qed.

Lemma runOf_kind (e : Event) : runOf e <> None -> kind e = KCommand.
Proof. destruct e as [X op x]. destruct op; simpl; congruence. Qed.

Lemma importOf_kind (e : Event) : importOf e <> None -> kind e = KImport.
Proof. destruct e as [X op x]. destruct op; simpl; congruence. Qed.

Lemma gcOf_kind (e : Event) : gcOf e <> None -> kind e = KGC.
Proof. destruct e as [X op x]. destruct op; simpl; congruence. Qed.

Lemma setOf_kind (e : Event) : setOf e <> None -> kind e = KConfig.
Proof. destruct e as [X op x]. destruct op; simpl; congruence. Qed.

Lemma configOf_kind (e : Event) : configOf e <> None -> kind e = KConfig.
Proof. destruct e as [X op x]. destruct op; simpl; congruence. Qed.

Lemma lookups_cons (e : Event) (t : list Event) :
  lookups (e :: t) = match lookupOf e with
                     | Some x => x :: lookups t
                     | None => lookups t
                     end.
Proof. reflexivity. Qed.

Lemma lookups_none (ks : list Kind) (t : list Event) :
  ~ In KLookup ks -> kindsOf ks t -> lookups t = [].
Proof. apply omap_kinds, lookupOf_kind. Qed.

Lemma puts_none (ks : list Kind) (t : list Event) :
  ~ In KPut ks -> kindsOf ks t -> puts t = [].
Proof. apply omap_kinds, putOf_kind. Qed.

Lemma runs_none (ks : list Kind) (t : list Event) :
  ~ In KCommand ks -> kindsOf ks t -> runs t = [].
Proof. apply omap_kinds, runOf_kind. Qed.

Lemma imports_none (ks : list Kind) (t : list Event) :
  ~ In KImport ks -> kindsOf ks t -> imports t = [].
Proof. apply omap_kinds, importOf_kind. Qed.

Lemma gcs_none (ks : list Kind) (t : list Event) :
  ~ In KGC ks -> kindsOf ks t -> gcs t = [].
Proof. apply omap_kinds, gcOf_kind. Qed.

Lemma sets_none (ks : list Kind) (t : list Event) :
  ~ In KConfig ks -> kindsOf ks t -> sets t = [].
Proof. apply omap_kinds, setOf_kind. Qed.

Lemma configs_none (ks : list Kind) (t : list Event) :
  ~ In KConfig ks -> kindsOf ks t -> configs t = [].
Proof. apply omap_kinds, configOf_kind. Qed.

(** None of the kinds [ks] is [K]. *)
Ltac not_in_kinds :=
  let H := fresh "Hkind" in
  simpl; intros H; repeat destruct H as [H | H]; congruence.

(** ** A layer that hits the cache *)

Section Hit.

Context (WorkingContainerName ReasonableDefaultPath : string).
Context (GitVersionAnnotation StackerContentsAnnotation MetaVersion : string).
Context (GOARCH GOOS : string).
Context (path_Join : list string -> string).

Local Abbreviation buildLayer' :=
  (buildLayer WorkingContainerName ReasonableDefaultPath GitVersionAnnotation
     StackerContentsAnnotation MetaVersion GOARCH GOOS path_Join).

Lemma always_kinds {A : Type} (ks : list Kind) (p : Prog A) :
  opsAll (kindIn ks) p -> always p (fun t _ => kindsOf ks t).
Proof.
  intros Hp. eapply always_mono; [ | apply opsAll_always, Hp].
  intros t a Ht. unfold kindsOf. eapply Forall_impl; [exact Ht | ].
  intros [X op x] H. exact H.
Qed.

(** [SaveLayer] makes calls of the save only, and with a save URL it makes
    at least one. *)
Lemma SaveLayer_always (o : BuildArgs) (sf : Stackerfile) (name : string) :
  always (SaveLayer o sf name)
         (fun t r => kindsOf [KPrint; KSave] t /\
                     (Nat.eqb (String.length (SaveUrl sf)) 0 = false ->
                      exists x rest, t = Ev (NewImageSource (SaveUrl sf)) x :: rest)).
Proof.
  unfold SaveLayer. destruct (Nat.eqb (String.length (SaveUrl sf)) 0) eqn:Hurl.
  - simpl. split; [constructor | discriminate].
  - unfold try. cbn [always mbind M_bind pbind]. intros x.
    eapply always_mono;
      [ | apply (always_kinds [KPrint; KSave]) ].
    + intros t r Ht. split; [ | intros _; eauto].
      constructor; [simpl; tauto | exact Ht].
    + destruct x as [isrc | e]; [ | exact I]. ops.
Qed.
Hint Resolve SaveLayer_always : alw.

Lemma buildLayerHit_always (o : BuildArgs) (sf : Stackerfile) (name : string)
    (l : Layer) (entry : CacheEntry) :
  always (buildLayerHit o sf name l entry)
         (fun t r => exists mid post, t = mid ++ post /\ hitPost name l entry mid post r).
Proof.
  unfold buildLayerHit, hitPost.
  repeat always_step; intros;
    repeat match goal with H : _ /\ _ |- _ => destruct H end; cbn [app].
  all: first
    [ eexists [], _; split; [reflexivity | split; [kinds_list | reflexivity] ]
    | eexists [_], _; split;
      [ reflexivity
      | split;
        [ kinds_list
        | eexists; split;
          [ reflexivity
          | intros e He; first [discriminate He | inversion He; subst; split; reflexivity] ] ] ] ].
Qed.
Hint Resolve buildLayerHit_always : alw.

Lemma hitPost_lookups (name : string) (l : Layer) (entry : CacheEntry)
    (mid post : list Event) (r : result unit) :
  hitPost name l entry mid post r -> lookups (mid ++ post) = [].
Proof.
  intros [Hpost Hmid].
  apply (omap_kinds lookupOf KLookup [KPrint; KSave; KStore; KRef] _ lookupOf_kind);
    [not_in_kinds | ].
  apply Forall_app. split.
  - destruct (BuildOnly l); [destruct (negb _) | ];
      [destruct Hmid as (rs & -> & _) | subst mid | destruct Hmid as (ru & -> & _)];
      repeat constructor; simpl; tauto.
  - eapply Forall_impl; [exact Hpost | ]. simpl. tauto.
Qed.

Lemma buildLayerMiss_always_kinds (b : Builder) (sf : Stackerfile)
    (gitVersion author name : string) (l : Layer) :
  always (buildLayerMiss WorkingContainerName ReasonableDefaultPath GitVersionAnnotation
            StackerContentsAnnotation MetaVersion GOARCH GOOS path_Join
            b sf gitVersion author name l)
         (fun t _ => kindsOf [KPrint; KPut; KStore; KBase; KCommand; KPackage; KBundle; KRef;
                              KMutate; KConfig; KSave; KOther] t).
Proof. apply always_kinds. eauto with ops. Qed.
Hint Resolve buildLayerMiss_always_kinds : alw.

(** A layer whose lookup finds an entry does nothing but restore it. *)
Lemma buildLayer_hit (b : Builder) (sf : Stackerfile) (gitVersion author name : string) :
  always (buildLayer' b sf gitVersion author name)
         (fun t r =>
            forall n entry, In (n, Some entry) (lookups t) ->
              exists l imports mid post,
                Get sf name = Some l /\ ParseImport l = Ok imports /\
                t = lookupPrefix (opts b) name imports (Some entry) ++ mid ++ post /\
                hitPost name l entry mid post r).
Proof.
  unfold buildLayer.
  repeat always_step; intros;
    repeat match goal with
           | H : _ /\ _ |- _ => destruct H
           | H : exists _, _ |- _ => destruct H
           end; cbn [app] in *;
    match goal with H : In _ (lookups _) |- _ => rename H into Hin end.
  - destruct Hin.
  - subst.
    match goal with
    | Hh : hitPost _ _ ?c ?mid ?post _ |- _ =>
        change (In (n, Some entry) ((name, Some c) :: lookups (mid ++ post))) in Hin;
        rewrite (hitPost_lookups _ _ _ _ _ _ Hh) in Hin
    end.
    destruct Hin as [Heq | []]. inversion Heq; subst.
    do 4 eexists. split; [reflexivity | ]. split; [eassumption | ].
    split; [reflexivity | eassumption].
  - match goal with
    | Hk : kindsOf ?ks ?t |- _ =>
        change (In (n, Some entry) ((name, None) :: lookups t)) in Hin;
        rewrite (lookups_none ks t) in Hin; [ | not_in_kinds | exact Hk]
    end.
    destruct Hin as [Heq | []]. discriminate Heq.
  - destruct Hin.
  - destruct Hin.
Qed.

Lemma buildLayer_hit_run {W : Type} (h : Handler W) (b : Builder) (sf : Stackerfile)
    (gitVersion author name : string) (entry : CacheEntry)
    (w : W) (r : result unit) (w' : W) (t : list Event) :
  runProg h (buildLayer' b sf gitVersion author name) w = (r, w', t) ->
  In (name, Some entry) (lookups t) ->
  exists l imports mid post,
    Get sf name = Some l /\ ParseImport l = Ok imports /\
    t = lookupPrefix (opts b) name imports (Some entry) ++ mid ++ post /\
    hitPost name l entry mid post r.
Proof.
  intros Hrun Hin.
  pose proof (always_run h _ _ w (buildLayer_hit b sf gitVersion author name)) as H.
  rewrite Hrun in H. exact (H _ _ Hin).
Qed.

(** C8 (cache hit of a packaged layer).  When the lookup of a layer that is
    not build-only finds an entry, the trace of the layer is: the two prints
    and the import that precede the lookup, the lookup, the call
    [oci.UpdateReference(name, cacheEntry.Blob)], and then only prints and
    calls of the save.  If the update fails the layer returns its error at
    once.  No call of the trace belongs to a rebuild: none to the snapshot
    store, the base layer, the commands, the diff and its packaging, the
    bundle, the mutator or the cache's Put. *)
Theorem C8_cache_hit_repoints_the_reference
    {W : Type} (h : Handler W) (b : Builder) (sf : Stackerfile)
    (gitVersion author name : string) (l : Layer) (entry : CacheEntry)
    (w : W) (r : result unit) (w' : W) (t : list Event) :
  Get sf name = Some l ->
  BuildOnly l = false ->
  runProg h (buildLayer' b sf gitVersion author name) w = (r, w', t) ->
  In (name, Some entry) (lookups t) ->
  (exists imports ru post,
      t = lookupPrefix (opts b) name imports (Some entry)
          ++ [Ev (oci_UpdateReference name (Blob entry)) ru] ++ post /\
      kindsOf [KPrint; KSave] post /\
      (forall e, ru = Some e -> post = [] /\ r = Err e)) /\
  Forall (fun e => isRebuild e = false) t.
Proof.
  intros Hget Hbo Hrun Hin.
  destruct (buildLayer_hit_run h _ _ _ _ _ _ _ _ _ _ Hrun Hin)
    as (l' & imports & mid & post & Hget' & Himp & -> & Hpost & Hmid).
  rewrite Hget in Hget'. inversion Hget'; subst l'. rewrite Hbo in Hmid.
  destruct Hmid as (ru & -> & Hfail). split.
  - exists imports, ru, post. split; [reflexivity | ]. split; assumption.
  - unfold lookupPrefix. cbn [app]. repeat (constructor; [reflexivity | ]).
    eapply Forall_impl; [exact Hpost | ].
    intros e [He | [He | []]]; unfold isRebuild; rewrite <- He; reflexivity.
Qed.

(** C7, as the code has it (cache hit of a build-only layer).  When the
    lookup of a build-only layer finds an entry, [Build] asks the snapshot
    store nothing about it.  If the entry's name is the layer's name, no call
    is made to the snapshot store; if it differs, the one call is
    [s.Snapshot(cacheEntry.Name, name)], and when that call fails the layer
    returns its error at once.  After that come only prints and calls of the
    save: the layer is not rebuilt. *)
Theorem C7_build_only_hit_is_not_verified
    {W : Type} (h : Handler W) (b : Builder) (sf : Stackerfile)
    (gitVersion author name : string) (l : Layer) (entry : CacheEntry)
    (w : W) (r : result unit) (w' : W) (t : list Event) :
  Get sf name = Some l ->
  BuildOnly l = true ->
  runProg h (buildLayer' b sf gitVersion author name) w = (r, w', t) ->
  In (name, Some entry) (lookups t) ->
  exists imports mid post,
    t = lookupPrefix (opts b) name imports (Some entry) ++ mid ++ post /\
    kindsOf [KPrint; KSave] post /\
    (Name entry = name -> mid = []) /\
    (Name entry <> name ->
     exists rs, mid = [Ev (s_Snapshot (Name entry) name) rs] /\
                (forall e, rs = Some e -> post = [] /\ r = Err e)).
Proof.
  intros Hget Hbo Hrun Hin.
  destruct (buildLayer_hit_run h _ _ _ _ _ _ _ _ _ _ Hrun Hin)
    as (l' & imports & mid & post & Hget' & Himp & -> & Hpost & Hmid).
  rewrite Hget in Hget'. inversion Hget'; subst l'. rewrite Hbo in Hmid.
  exists imports, mid, post. split; [reflexivity | ]. split; [exact Hpost | ].
  destruct (String.eqb_spec (Name entry) name) as [Heq | Hne]; simpl in Hmid.
  - split; [intros _; exact Hmid | intros Hne; contradiction].
  - split; [intros Heq; contradiction | intros _; exact Hmid].
Qed.

End Hit.

(** ** A layer that misses the cache *)

Section Miss.

Context (WorkingContainerName ReasonableDefaultPath : string).
Context (GitVersionAnnotation StackerContentsAnnotation MetaVersion : string).
Context (GOARCH GOOS : string).
Context (path_Join : list string -> string).

Local Abbreviation buildLayer' :=
  (buildLayer WorkingContainerName ReasonableDefaultPath GitVersionAnnotation
     StackerContentsAnnotation MetaVersion GOARCH GOOS path_Join).

Lemma buildLayerHit_always_kinds (o : BuildArgs) (sf : Stackerfile) (name : string)
    (l : Layer) (entry : CacheEntry) :
  always (buildLayerHit o sf name l entry)
         (fun t _ => kindsOf [KStore; KRef; KPrint; KSave] t).
Proof. apply always_kinds. eauto with ops. Qed.
Hint Resolve buildLayerHit_always_kinds : alw.
Hint Resolve SaveLayer_always : alw.

Lemma buildLayer_unknown_layer_type (b : Builder) (sf : Stackerfile)
    (gitVersion author name : string) (l : Layer) :
  LayerType (opts b) <> "tar" ->
  LayerType (opts b) <> "squashfs" ->
  Get sf name = Some l ->
  BuildOnly l = false ->
  always (buildLayer' b sf gitVersion author name)
         (fun t r =>
            In (name, None) (lookups t) ->
            (exists e, r = Err e) /\
            kindsOf [KPrint; KImport; KLookup; KStore; KBase; KCommand; KOther] t /\
            (allWentThrough t = true ->
             forall imps cmds, ParseImport l = Ok imps -> ParseRun l = Ok cmds ->
               r = Err (Errorf ("unknown layer type: " +:+ LayerType (opts b))) /\
               In (name, None) (imports t) /\
               (cmds <> [] -> In (name, None) (runs t)))).
Proof.
  intros Htar Hsq Hget Hbo. apply String.eqb_neq in Htar, Hsq.
  unfold buildLayer. rewrite Hget.
  repeat always_step; intros;
    repeat match goal with
           | H : _ /\ _ |- _ => destruct H
           | H : exists _, _ |- _ => destruct H
           end; cbn [app] in *.
  all: match goal with H : In _ (lookups _) |- _ => rename H into Hin end.
  all: try (match goal with
            | Hk : kindsOf ?ks ?t |- _ =>
                exfalso; rewrite ?lookups_cons in Hin; cbn [lookupOf] in Hin;
                rewrite (lookups_none ks t) in Hin; [ | not_in_kinds | exact Hk];
                destruct Hin as [Heq | []]; discriminate Heq
            end).
  all: (split; [eexists; reflexivity | ]).
  all: (split; [kinds_list | ]).
  all: intros Hall imps cmds Himp Hcmds;
    repeat match type of Hall with context [Ev _ ?x] => is_var x; destruct x end;
    cbn in Hall; try discriminate Hall; try congruence.
  all: (split; [reflexivity | split; [cbn; auto 10 | intros Hne] ]).
  all: first
    [ solve [cbn; auto 20]
    | exfalso;
      match goal with
      | H1 : ParseRun _ = Ok ?a, H2 : Nat.eqb (length ?a) 0 = true |- _ =>
          assert (Hsame : a = cmds) by congruence; subst a;
          destruct cmds; [contradiction | discriminate H2]
      end ].
Qed.


(** *** Where the cache write stands *)

Lemma puts_app (t1 t2 : list Event) : puts (t1 ++ t2) = puts t1 ++ puts t2.
Proof. apply omap_app. Qed.

Lemma putPost_quiet (name : string) (t : list Event) (r : result unit) :
  puts t = [] -> putPost name t r.
Proof.
  intros Ht. exists t, []. rewrite app_nil_r. split; [reflexivity | ].
  split; [exact Ht | left; reflexivity].
Qed.

Lemma putPost_app (name : string) (t1 t2 : list Event) (r : result unit) :
  puts t1 = [] -> putPost name t2 r -> putPost name (t1 ++ t2) r.
Proof.
  intros Ht1 (pre & post & -> & Hpre & Hpost).
  exists (t1 ++ pre), post. rewrite app_assoc. split; [reflexivity | ].
  split; [rewrite puts_app, Ht1, Hpre; reflexivity | exact Hpost].
Qed.

(** A part of the program that makes no cache write, in front. *)
Lemma putPost_bind {A : Type} (name : string) (m : M A) (f : A -> M unit) :
  opsAll (kindIn kindsButPut) m ->
  (forall a, always (f a) (putPost name)) ->
  always (m ≫= f) (putPost name).
Proof.
  intros Hm Hf. apply always_mbind.
  eapply always_mono; [ | apply always_kinds, Hm].
  intros t1 [a | e] Hk; simpl in Hk.
  - eapply always_mono; [ | apply Hf]. intros t2 r. apply putPost_app.
    apply (puts_none kindsButPut); [not_in_kinds | exact Hk].
  - apply putPost_quiet. apply (puts_none kindsButPut); [not_in_kinds | exact Hk].
Qed.

Lemma snapshotBuildOnly_put (name : string) :
  always (snapshotBuildOnly WorkingContainerName name) (putPost name).
Proof.
  unfold snapshotBuildOnly.
  repeat always_step; cbn [app].
  all: first
    [ apply putPost_quiet; reflexivity
    | eexists [_; _; _], _; split; [reflexivity | ]; split; [reflexivity | ];
      right; eexists _, _, []; split; [reflexivity | ]; split; [constructor | ];
      intros e He; first [discriminate He | inversion He; subst; split; reflexivity] ].
Qed.

Lemma snapshotAndCache_put (o : BuildArgs) (sf : Stackerfile) (name : string) :
  always (snapshotAndCache WorkingContainerName o sf name) (putPost name).
Proof.
  unfold snapshotAndCache.
  repeat always_step; intros;
    repeat match goal with H : _ /\ _ |- _ => destruct H end; cbn [app].
  all: first
    [ apply putPost_quiet; reflexivity
    | eexists [_; _; _; _], _; split; [reflexivity | ]; split; [reflexivity | ];
      right; eexists _, _, _; split; [reflexivity | ]; split; [kinds_list | ];
      intros e He; first [discriminate He | inversion He; subst; split; reflexivity] ].
Qed.

(** The cache write of a layer is the last call of its build: only the save
    follows it. *)
Lemma buildLayer_put (b : Builder) (sf : Stackerfile) (gitVersion author name : string) :
  always (buildLayer' b sf gitVersion author name) (putPost name).
Proof.
  unfold buildLayer.
  destruct (Get sf name) as [l | ]; [ | apply putPost_quiet; reflexivity].
  change (mret l ≫= ?f) with (f l). cbv beta.
  repeat (apply putPost_bind; [unfold kindsButPut; solve [ops] | intros ?]).
  match goal with |- always (match ?x with _ => _ end) _ => destruct x as [cacheEntry | ] end.
  - eapply always_mono; [ | apply buildLayerHit_always_kinds].
    intros t r Hk. apply putPost_quiet.
    apply (puts_none [KStore; KRef; KPrint; KSave]); [not_in_kinds | exact Hk].
  - unfold buildLayerMiss. cbv zeta.
    repeat (apply putPost_bind; [unfold kindsButPut; solve [ops] | intros ?]).
    destruct (BuildOnly l).
    + apply snapshotBuildOnly_put.
    + do 2 (apply putPost_bind; [unfold kindsButPut; solve [ops] | intros ?]).
      apply snapshotAndCache_put.
Qed.

(** *** A failed run of the commands *)

Lemma runs_app (t1 t2 : list Event) : runs (t1 ++ t2) = runs t1 ++ runs t2.
Proof. apply omap_app. Qed.

Lemma kindsOf_incl (ks ks' : list Kind) (t : list Event) :
  incl ks ks' -> kindsOf ks t -> kindsOf ks' t.
Proof. intros Hi Hk. eapply Forall_impl; [exact Hk | ]. intros e He. apply Hi, He. Qed.

Lemma runPost_quiet (ks : list Kind) (t : list Event) (r : result unit) :
  ~ In KCommand ks -> kindsOf ks t -> runPost t r.
Proof.
  intros Hks Hk n e Hin. rewrite (runs_none ks t Hks Hk) in Hin. destruct Hin.
Qed.

(** A part of the program that runs no command, in front. *)
Lemma runPost_bind {A : Type} (m : M A) (f : A -> M unit) :
  opsAll (kindIn [KPrint; KImport; KLookup; KStore; KBase; KOther]) m ->
  (forall a, always (f a) runPost) ->
  always (m ≫= f) runPost.
Proof.
  intros Hm Hf. apply always_mbind.
  eapply always_mono; [ | apply always_kinds, Hm].
  intros t1 [a | e] Hk; simpl in Hk.
  - eapply always_mono; [ | apply Hf]. intros t2 r Hpost n e Hin.
    rewrite runs_app in Hin.
    rewrite (runs_none [KPrint; KImport; KLookup; KStore; KBase; KOther] t1) in Hin;
      [ | not_in_kinds | exact Hk].
    destruct (Hpost n e Hin) as [Hr Hk2]. split; [exact Hr | ].
    apply Forall_app. split; [ | exact Hk2].
    eapply kindsOf_incl; [ | exact Hk]. unfold kindsUpToCommands. within.
  - eapply runPost_quiet; [ | exact Hk]. not_in_kinds.
Qed.

(** A part of the program that runs no command, behind the commands. *)
Lemma runPost_then {A : Type} (m : M A) (f : A -> M unit) :
  always m (fun t r => kindsOf kindsUpToCommands t /\
                       forall n e, In (n, Some e) (runs t) -> r = Err e) ->
  (forall a, opsAll (kindIn kindsButCommand) (f a)) ->
  always (m ≫= f) runPost.
Proof.
  intros Hm Hf. apply always_mbind.
  eapply always_mono; [ | exact Hm].
  intros t1 [a | e0] [Hk Hfail]; simpl.
  - eapply always_mono; [ | apply always_kinds, Hf]. intros t2 r Hk2 n e Hin.
    rewrite runs_app in Hin.
    rewrite (runs_none kindsButCommand t2), app_nil_r in Hin;
      [ | unfold kindsButCommand; not_in_kinds | exact Hk2].
    discriminate (Hfail n e Hin).
  - intros n e Hin. split; [ | exact Hk].
    pose proof (Hfail n e Hin) as He. congruence.
Qed.

(** The commands: whatever [Run] answers is the outcome of the layer, and
    nothing is called behind it. *)
Lemma runCommands_run (o : BuildArgs) (name : string) (l : Layer) :
  always (runCommands WorkingContainerName path_Join o name l)
         (fun t r => kindsOf kindsUpToCommands t /\
                     forall n e, In (n, Some e) (runs t) -> r = Err e).
Proof.
  unfold runCommands, kindsUpToCommands.
  repeat always_step.
  all: cbn [app]; (split; [kinds_list | ]).
  all: intros n' e' Hin; cbn in Hin.
  all: intuition congruence.
Qed.

Lemma buildLayer_run (b : Builder) (sf : Stackerfile) (gitVersion author name : string) :
  always (buildLayer' b sf gitVersion author name) runPost.
Proof.
  unfold buildLayer.
  destruct (Get sf name) as [l | ];
    [ | intros ? ? Hin; destruct Hin].
  change (mret l ≫= ?f) with (f l). cbv beta.
  repeat (apply runPost_bind; [solve [ops] | intros ?]).
  match goal with |- always (match ?x with _ => _ end) _ => destruct x as [cacheEntry | ] end.
  - eapply always_mono; [ | apply buildLayerHit_always_kinds].
    intros t r Hk. eapply runPost_quiet; [ | exact Hk]. not_in_kinds.
  - unfold buildLayerMiss. cbv zeta.
    repeat (apply runPost_bind; [solve [ops] | intros ?]).
    apply runPost_then; [apply runCommands_run | intros ?].
    unfold kindsButCommand. ops.
Qed.


(** *** The last call of a trace *)

Lemma lastCall_app (t1 t2 : list Event) :
  lastCall (t1 ++ t2) = match lastCall t2 with
                        | Some e => Some e
                        | None => lastCall t1
                        end.
Proof.
  induction t1 as [ | e t1 IH]; simpl.
  - destruct (lastCall t2); reflexivity.
  - rewrite IH. destruct (lastCall t2); reflexivity.
Qed.

Lemma lastCall_kinds (ks : list Kind) (t : list Event) (e : Event) :
  kindsOf ks t -> lastCall t = Some e -> In (kind e) ks /\ kind e <> KPrint.
Proof.
  induction 1 as [ | e0 t He0 _ IH]; simpl; [discriminate | ].
  destruct (lastCall t) as [e' | ].
  - intros [= ->]. apply IH. reflexivity.
  - destruct (bool_decide (kind e0 = KPrint)) eqn:Hp; [discriminate | ].
    intros [= ->]. split; [exact He0 | ].
    apply bool_decide_eq_false in Hp. exact Hp.
Qed.

Lemma putPost_ends (name : string) (t : list Event) (r : result unit) :
  putPost name t r -> endsBeforePut t -> puts t = [].
Proof.
  intros (pre & post & -> & Hpre & [-> | (d & rp & saves & -> & Hk & _)]) Hend.
  - rewrite app_nil_r. exact Hpre.
  - exfalso. unfold endsBeforePut in Hend. rewrite lastCall_app in Hend.
    cbn [lastCall] in Hend.
    destruct (lastCall saves) as [e | ] eqn:Hl.
    + destruct (lastCall_kinds _ _ _ Hk Hl) as [Hin Hp]. simpl in Hin.
      destruct Hend as [_ Hs]. intuition congruence.
    + simpl in Hend. destruct Hend as [Hput _]. apply Hput. reflexivity.
Qed.

Lemma writesRef_kind (name : string) (e : Event) :
  writesRef name e = true -> kind e = KRef \/ kind e = KPackage.
Proof.
  destruct e as [X op x]. destruct op; simpl; intros H;
    first [discriminate H | left; reflexivity | right; reflexivity].
Qed.

Lemma writesRef_none (name : string) (t : list Event) :
  kindsOf kindsUpToCommands t -> Forall (fun ev => writesRef name ev = false) t.
Proof.
  intros Hk. eapply Forall_impl; [exact Hk | ].
  intros e He. destruct (writesRef name e) eqn:Hw; [ | reflexivity].
  exfalso. unfold kindsUpToCommands in He.
  destruct (writesRef_kind _ _ Hw) as [Hr | Hr]; rewrite Hr in He; simpl in He;
    intuition discriminate.
Qed.

(** *** The model world: what changes the cache and the references *)

Lemma putOf_none (e : Event) : putOf e = None -> kind e <> KPut.
Proof. destruct e as [X op x]. destruct op; simpl; congruence. Qed.

Lemma model_step_cache (faults : Faults) (X : Type) (op : Op X) (w : World) :
  opKind op <> KPut -> cache (model faults X op w).2 = cache w.
Proof.
  intros Hk. destruct op; simpl in Hk |- *; try congruence;
    unfold effect, snapshotTo, answer; repeat case_match; reflexivity.
Qed.

Lemma model_step_refs (faults : Faults) (X : Type) (op : Op X) (w : World) :
  In (opKind op) kindsUpToCommands -> refs (model faults X op w).2 = refs w.
Proof.
  intros Hk. destruct op; simpl in Hk |- *; try (exfalso; intuition discriminate);
    unfold effect, snapshotTo, answer; repeat case_match; reflexivity.
Qed.

Lemma model_cache_frame (faults : Faults) {A : Type} (p : Prog A) (w : World) :
  puts (runProg (model faults) p w).2 = [] ->
  cache (runProg (model faults) p w).1.2 = cache w.
Proof.
  revert w. induction p as [a | X op k IH]; intros w; cbn [runProg]; [reflexivity | ].
  pose proof (model_step_cache faults X op w) as Hstep.
  destruct (model faults X op w) as [x w1]. specialize (IH x w1).
  destruct (runProg (model faults) (k x) w1) as [[a w2] t]. cbn [fst snd] in *.
  change (puts (Ev op x :: t))
    with (match putOf (Ev op x) with Some y => y :: puts t | None => puts t end).
  destruct (putOf (Ev op x)) eqn:Hput; [discriminate | ].
  intros Ht. rewrite (IH Ht). apply Hstep. exact (putOf_none _ Hput).
Qed.

Lemma model_refs_frame (faults : Faults) {A : Type} (p : Prog A) (w : World) :
  kindsOf kindsUpToCommands (runProg (model faults) p w).2 ->
  refs (runProg (model faults) p w).1.2 = refs w.
Proof.
  revert w. induction p as [a | X op k IH]; intros w; cbn [runProg]; [reflexivity | ].
  pose proof (model_step_refs faults X op w) as Hstep.
  destruct (model faults X op w) as [x w1]. specialize (IH x w1).
  destruct (runProg (model faults) (k x) w1) as [[a w2] t]. cbn [fst snd] in *.
  intros Hk. apply List.Forall_cons_iff in Hk. destruct Hk as [Hop Ht].
  rewrite (IH Ht). apply Hstep. exact Hop.
Qed.

(** *** The cache entry of a layer *)


End Miss.

(** ** The image configuration of a layer *)

Section Commit.

Context (WorkingContainerName ReasonableDefaultPath : string).
Context (GitVersionAnnotation StackerContentsAnnotation MetaVersion : string).
Context (GOARCH GOOS : string).
Context (path_Join : list string -> string).

Local Abbreviation buildLayer' :=
  (buildLayer WorkingContainerName ReasonableDefaultPath GitVersionAnnotation
              StackerContentsAnnotation MetaVersion GOARCH GOOS path_Join).
Local Abbreviation commitMetadata' :=
  (commitMetadata WorkingContainerName ReasonableDefaultPath GitVersionAnnotation
              StackerContentsAnnotation MetaVersion GOARCH GOOS path_Join).
Local Abbreviation envFrom' := (envFrom ReasonableDefaultPath).

Lemma sets_app (t1 t2 : list Event) : sets (t1 ++ t2) = sets t1 ++ sets t2.
Proof. apply omap_app. Qed.

Lemma configs_app (t1 t2 : list Event) : configs (t1 ++ t2) = configs t1 ++ configs t2.
Proof. apply omap_app. Qed.

Lemma envFrom_quiet (l : Layer) (before : list ImageConfig) (t : list Event) :
  sets t = [] -> envFrom' l before t.
Proof. intros Ht c Hin. rewrite Ht in Hin. destruct Hin. Qed.

Lemma envFrom_app_l (l : Layer) (before : list ImageConfig) (t1 t2 : list Event) :
  sets t1 = [] -> envFrom' l (before ++ configs t1) t2 -> envFrom' l before (t1 ++ t2).
Proof.
  intros Ht1 Hpost c Hin. rewrite sets_app, Ht1 in Hin.
  destruct (Hpost c Hin) as (c0 & Hc0 & Henv). exists c0. split; [ | exact Henv].
  rewrite configs_app, app_assoc. exact Hc0.
Qed.

Lemma envFrom_app_r (l : Layer) (before : list ImageConfig) (t1 t2 : list Event) :
  envFrom' l before t1 -> sets t2 = [] -> envFrom' l before (t1 ++ t2).
Proof.
  intros Hpost Ht2 c Hin. rewrite sets_app, Ht2, app_nil_r in Hin.
  destruct (Hpost c Hin) as (c0 & Hc0 & Henv). exists c0. split; [ | exact Henv].
  rewrite configs_app, app_assoc. apply in_or_app. left. exact Hc0.
Qed.

(** A part of the program that does not touch the configuration, in front. *)
Lemma envFrom_bind {A B : Type} (l : Layer) (before : list ImageConfig)
    (m : M A) (f : A -> M B) :
  opsAll (kindIn kindsButConfig) m ->
  (forall a, always (f a) (fun t _ => envFrom' l before t)) ->
  always (m ≫= f) (fun t _ => envFrom' l before t).
Proof.
  intros Hm Hf. apply always_mbind.
  eapply always_mono; [ | apply always_kinds, Hm].
  intros t1 [a | e] Hk; simpl in Hk.
  - eapply always_mono; [ | apply Hf]. intros t2 r Hpost. apply envFrom_app_l.
    + apply (sets_none kindsButConfig); [unfold kindsButConfig; not_in_kinds | exact Hk].
    + rewrite (configs_none kindsButConfig t1), app_nil_r;
        [exact Hpost | unfold kindsButConfig; not_in_kinds | exact Hk].
  - apply envFrom_quiet.
    apply (sets_none kindsButConfig); [unfold kindsButConfig; not_in_kinds | exact Hk].
Qed.

(** A part of the program that does not touch the configuration, behind. *)
Lemma envFrom_then {A B : Type} (l : Layer) (before : list ImageConfig)
    (m : M A) (f : A -> M B) :
  always m (fun t _ => envFrom' l before t) ->
  (forall a, opsAll (kindIn kindsButConfig) (f a)) ->
  always (m ≫= f) (fun t _ => envFrom' l before t).
Proof.
  intros Hm Hf. apply always_mbind.
  eapply always_mono; [ | exact Hm].
  intros t1 [a | e] Hpost; [ | exact Hpost].
  eapply always_mono; [ | apply always_kinds, Hf]. intros t2 r Hk. simpl in Hk.
  apply envFrom_app_r; [exact Hpost | ].
  apply (sets_none kindsButConfig); [unfold kindsButConfig; not_in_kinds | exact Hk].
Qed.

(** [layerImageConfig] makes no call; the configuration it returns has the
    environment of [setEnvironment]. *)
Lemma layerImageConfig_always (l : Layer) (c0 : ImageConfig) :
  always (layerImageConfig ReasonableDefaultPath l c0)
         (fun t r => t = [] /\
                     forall c, r = Ok c ->
                               Env c = setEnvironment ReasonableDefaultPath l (Env c0)).
Proof.
  unfold layerImageConfig. cbv zeta.
  repeat always_step.
  all: split; [reflexivity | intros c Hc]; first [discriminate Hc | injection Hc as <-; reflexivity].
Qed.

Lemma commitMetadata_env (o : BuildArgs) (sf : Stackerfile)
    (gitVersion author name : string) (l : Layer) :
  always (commitMetadata' o sf gitVersion author name l) (fun t _ => envFrom' l [] t).
Proof.
  unfold commitMetadata.
  repeat (apply envFrom_bind; [unfold kindsButConfig; solve [ops] | intros ?]).
  apply always_mbind. unfold try. cbn [always]. intros [c0 | e];
    [ | apply envFrom_quiet; reflexivity].
  apply always_mbind. eapply always_mono; [ | apply layerImageConfig_always].
  intros t [c | e] [-> Henv]; [ | apply envFrom_quiet; reflexivity].
  eapply always_mono.
  { intros t2 r Hpost. apply (envFrom_app_l l [] _ t2); [reflexivity | exact Hpost]. }
  cbn [app configs omap list_omap configOf].
  repeat first [ apply envFrom_bind; [unfold kindsButConfig; solve [ops] | intros ?]
               | progress cbv zeta ].
  apply envFrom_then; [ | intros ?; unfold kindsButConfig, updateBundleMtree; ops].
  unfold check. cbn [always]. intros x.
  destruct x; cbn [always].
  all: intros c' Hin; cbn in Hin; destruct Hin as [<- | []].
  all: exists c0; (split; [left; reflexivity | apply Henv; reflexivity]).
Qed.

Lemma buildLayer_env (b : Builder) (sf : Stackerfile)
    (gitVersion author name : string) (l : Layer) :
  Get sf name = Some l ->
  always (buildLayer' b sf gitVersion author name) (fun t _ => envFrom' l [] t).
Proof.
  intros Hget. unfold buildLayer. rewrite Hget.
  change (mret l ≫= ?f) with (f l). cbv beta.
  repeat (apply envFrom_bind; [unfold kindsButConfig; solve [ops] | intros ?]).
  match goal with |- always (match ?x with _ => _ end) _ => destruct x as [cacheEntry | ] end.
  - eapply always_mono;
      [ | apply (always_kinds kindsButConfig); unfold kindsButConfig; ops].
    intros t r Hk. simpl in Hk. apply envFrom_quiet.
    apply (sets_none kindsButConfig); [unfold kindsButConfig; not_in_kinds | exact Hk].
  - unfold buildLayerMiss. cbv zeta.
    repeat (apply envFrom_bind; [unfold kindsButConfig; solve [ops] | intros ?]).
    destruct (BuildOnly l).
    + eapply always_mono;
        [ | apply (always_kinds kindsButConfig); unfold kindsButConfig; ops].
      intros t r Hk. simpl in Hk. apply envFrom_quiet.
      apply (sets_none kindsButConfig); [unfold kindsButConfig; not_in_kinds | exact Hk].
    + repeat (apply envFrom_bind; [unfold kindsButConfig; solve [ops] | intros ?]).
      apply envFrom_then; [apply commitMetadata_env | intros ?].
      unfold kindsButConfig. ops.
Qed.

(** C10 (default PATH).  Whatever the collaborators answer while layer
    [name] is built: a configuration [c] that is given to [mutator.Set] (the
    committed image configuration; only a layer that is packaged on a cache
    miss gets one) has the environment of a configuration [c0] the mutator
    handed out (the base image's), followed by the variables the recipe
    declares.  When the recipe declares PATH, or an entry of the base
    environment sets PATH, nothing else is added; when no declared variable
    is PATH (or begins with [PATH=]) and no entry of the base environment
    sets PATH, the entry [PATH=ReasonableDefaultPath] is appended. *)
Theorem C10_default_path_when_unset
    {W : Type} (h : Handler W) (b : Builder) (sf : Stackerfile)
    (gitVersion author name : string) (l : Layer)
    (w : W) (r : result unit) (w' : W) (t : list Event) (c : ImageConfig) :
  Get sf name = Some l ->
  runProg h (buildLayer' b sf gitVersion author name) w = (r, w', t) ->
  In c (sets t) ->
  exists c0,
    In c0 (configs t) /\
    ((In "PATH" (map fst (Environment l)) \/ exists s, In s (Env c0) /\ setsPath s = true) ->
     Env c = Env c0 ++ declaredEnv l) /\
    ((forall k, In k (map fst (Environment l)) ->
                k <> "PATH" /\ strings_HasPrefix k "PATH=" = false) ->
     (forall s, In s (Env c0) -> setsPath s = false) ->
     Env c = Env c0 ++ declaredEnv l ++ ["PATH=" +:+ ReasonableDefaultPath]).
Proof.
  intros Hget Hrun Hin.
  pose proof (always_run h _ _ w (buildLayer_env b sf gitVersion author name l Hget)) as Hpost.
  rewrite Hrun in Hpost. cbn [fst snd] in Hpost.
  destruct (Hpost c Hin) as (c0 & Hc0 & Henv).
  exists c0. split; [exact Hc0 | ]. rewrite Henv.
  exact (setEnvironment_default_path ReasonableDefaultPath l (Env c0)).
Qed.

End Commit.

(** ** The garbage collection at the end of [Build] *)

Section GC.

Context (WorkingContainerName ReasonableDefaultPath : string).
Context (GitVersionAnnotation StackerContentsAnnotation MetaVersion : string).
Context (GOARCH GOOS : string).
Context (path_Join : list string -> string).

Local Abbreviation Build' :=
  (Build WorkingContainerName ReasonableDefaultPath GitVersionAnnotation
         StackerContentsAnnotation MetaVersion GOARCH GOOS path_Join).
Local Abbreviation buildWithLayout' :=
  (buildWithLayout WorkingContainerName ReasonableDefaultPath GitVersionAnnotation
         StackerContentsAnnotation MetaVersion GOARCH GOOS path_Join).

Lemma gcs_app (t1 t2 : list Event) : gcs (t1 ++ t2) = gcs t1 ++ gcs t2.
Proof. apply omap_app. Qed.

Lemma printed_app (t1 t2 : list Event) : printed (t1 ++ t2) = printed t1 ++ printed t2.
Proof. apply omap_app. Qed.

Lemma gcPost_quiet (t : list Event) (err : error) : gcs t = [] -> gcPost t err.
Proof. intros Ht g Hin. rewrite Ht in Hin. destruct Hin. Qed.

Lemma gcPost_app_l (t1 t2 : list Event) (err : error) :
  gcs t1 = [] -> gcPost t2 err -> gcPost (t1 ++ t2) err.
Proof.
  intros Ht1 Hpost g Hin. rewrite gcs_app, Ht1 in Hin.
  destruct (Hpost g Hin) as [Herr Hmsg]. split; [exact Herr | ].
  intros e He. rewrite printed_app. apply in_or_app. right. apply Hmsg, He.
Qed.

Lemma gcPost_app_r (t1 t2 : list Event) (err : error) :
  gcPost t1 err -> gcs t2 = [] -> gcPost (t1 ++ t2) err.
Proof.
  intros Hpost Ht2 g Hin. rewrite gcs_app, Ht2, app_nil_r in Hin.
  destruct (Hpost g Hin) as [Herr Hmsg]. split; [exact Herr | ].
  intros e He. rewrite printed_app. apply in_or_app. left. apply Hmsg, He.
Qed.

Lemma gcPost_bind {A : Type} (m : M A) (f : A -> M unit) :
  opsAll (kindIn kindsButGC) m ->
  (forall a, always (f a) (fun t r => gcPost t (error_of r))) ->
  always (m ≫= f) (fun t r => gcPost t (error_of r)).
Proof.
  intros Hm Hf. apply always_mbind.
  eapply always_mono; [ | apply always_kinds, Hm].
  intros t1 [a | e] Hk; simpl in Hk.
  - eapply always_mono; [ | apply Hf]. intros t2 r. apply gcPost_app_l.
    apply (gcs_none kindsButGC); [unfold kindsButGC; not_in_kinds | exact Hk].
  - apply gcPost_quiet.
    apply (gcs_none kindsButGC); [unfold kindsButGC; not_in_kinds | exact Hk].
Qed.

Lemma buildWithLayout_gc (b : Builder) (sf : Stackerfile) (order : list string) :
  always (buildWithLayout' b sf order) (fun t r => gcPost t (error_of r)).
Proof.
  unfold buildWithLayout. cbv zeta.
  repeat (apply gcPost_bind; [unfold kindsButGC; solve [ops] | intros ?]).
  repeat always_step; cbn [app].
  all: intros gc Hin; cbn in Hin; destruct Hin as [<- | []].
  all: split; [reflexivity | ].
  all: intros e' [= <-]; left; reflexivity.
Qed.

Lemma deferB_gc {X : Type} (d : Op X) (body : Prog (Builder * error)) :
  opKind d <> KGC ->
  always body (fun t be => gcPost t be.2) ->
  always (deferB d body) (fun t be => gcPost t be.2).
Proof.
  intros Hd Hbody. unfold deferB. apply always_pbind.
  eapply always_mono; [ | exact Hbody]. intros t be Hpost. cbn [always]. intros x.
  apply gcPost_app_r; [exact Hpost | ].
  unfold gcs. cbn [omap list_omap]. destruct (gcOf (Ev d x)) eqn:Hg; [ | reflexivity].
  exfalso. apply Hd. apply (gcOf_kind (Ev d x)). rewrite Hg. discriminate.
Qed.

Lemma gc_vis {X : Type} (op : Op X) (k : X -> Prog (Builder * error)) :
  opKind op <> KGC ->
  (forall x, always (k x) (fun t be => gcPost t be.2)) ->
  always (Vis op k) (fun t be => gcPost t be.2).
Proof.
  intros Hop Hk. cbn [always]. intros x.
  eapply always_mono; [ | apply Hk]. intros t be Hpost.
  apply (gcPost_app_l [Ev op x] t); [ | exact Hpost].
  unfold gcs. cbn [omap list_omap]. destruct (gcOf (Ev op x)) eqn:Hg; [ | reflexivity].
  exfalso. apply Hop. apply (gcOf_kind (Ev op x)). rewrite Hg. discriminate.
Qed.

Lemma gc_ret (be : Builder * error) : always (Ret be) (fun t be => gcPost t be.2).
Proof. cbn [always]. apply gcPost_quiet. reflexivity. Qed.

(** [Build] returns what [oci.GC] answered, after printing its error. *)
Lemma Build_gc (b : Builder) (file : string) :
  always (Build' b file) (fun t be => gcPost t be.2).
Proof.
  unfold Build. cbv zeta.
  destruct (NoCache (opts b)); cbn [pbind];
    [apply gc_vis; [discriminate | intros ?] | ].
  all: apply gc_vis; [discriminate | intros [sf | e]]; [ | apply gc_ret].
  all: apply gc_vis; [discriminate | intros [e | ]]; [apply gc_ret | ].
  all: destruct (LeaveUnladen (opts b)); cbn [negb];
    try (apply deferB_gc; [discriminate | ]).
  all: destruct (DependencyOrder sf) as [order | e]; [ | apply gc_ret].
  all: apply gc_vis; [discriminate | intros statErr].
  all: apply gc_vis; [destruct statErr; discriminate | intros [e | ]]; [apply gc_ret | ].
  all: apply deferB_gc; [discriminate | ].
  all: apply always_pbind; eapply always_mono; [ | apply buildWithLayout_gc].
  all: intros t r Hpost; cbn [always]; rewrite app_nil_r; exact Hpost.
Qed.

(** C5, as the code has it.  Whatever the collaborators answer: when [Build]
    gets as far as the garbage collection (every layer has completed), what
    [oci.GC] answers is the error [Build] returns; a failure is printed as
    [final OCI GC failed: ...] and is returned all the same. *)
Theorem C5_gc_failure_is_logged_and_returned
    {W : Type} (h : Handler W) (b b' : Builder) (file : string)
    (w w' : W) (err : error) (t : list Event) (g : error) :
  runProg h (Build' b file) w = (b', err, w', t) ->
  In g (gcs t) ->
  err = g /\
  forall e, g = Some e -> In ("final OCI GC failed: " +:+ Error e +:+ nl) (printed t).
Proof.
  intros Hrun Hin.
  pose proof (always_run h _ _ w (Build_gc b file)) as Hpost.
  rewrite Hrun in Hpost. cbn [fst snd] in Hpost.
  exact (Hpost g Hin).
Qed.

End GC.

(** * More of [build.go]: proofs *)

(** ** Traces *)

Lemma always_traceOf {A : Type} (p : Prog A) (P : list Event -> A -> Prop) :
  always p P <-> forall t a, traceOf p t a -> P t a.
Proof.
  revert P. induction p as [a | X op k IH]; intros P; simpl.
  - split.
    + intros HP t a' [-> ->]. exact HP.
    + intros H. apply H. split; reflexivity.
  - split.
    + intros HP t a (x & t' & -> & Ht). specialize (HP x).
      apply (proj1 (IH x _) HP). exact Ht.
    + intros H x. apply IH. intros t a Ht. apply H. eauto.
Qed.

Lemma runProg_traceOf {W A : Type} (h : Handler W) (p : Prog A) (w : W) :
  traceOf p (runProg h p w).2 (runProg h p w).1.1.
Proof.
  apply (always_run h p (traceOf p) w). apply always_traceOf. auto.
Qed.

Lemma traceOf_pbind {A B : Type} (p : Prog A) (f : A -> Prog B) (t : list Event) (b : B) :
  traceOf (pbind p f) t b <->
  exists t1 a t2, t = t1 ++ t2 /\ traceOf p t1 a /\ traceOf (f a) t2 b.
Proof.
  revert t. induction p as [a | X op k IH]; intros t; simpl.
  - split.
    + intros Ht. exists [], a, t. auto.
    + intros (t1 & a' & t2 & -> & [-> ->] & Ht). exact Ht.
  - split.
    + intros (x & t' & -> & Ht). apply IH in Ht.
      destruct Ht as (t1 & a & t2 & -> & H1 & H2).
      exists (Ev op x :: t1), a, t2. split; [reflexivity | ]. split; [eauto | exact H2].
    + intros (t1 & a & t2 & -> & (x & t' & -> & H1) & H2).
      exists x, (t' ++ t2). split; [reflexivity | ]. apply IH. eauto 6.
Qed.

Lemma traceOf_mbind {A B : Type} (m : M A) (f : A -> M B) (t : list Event) (r : result B) :
  traceOf (m ≫= f) t r <->
  (exists e, traceOf m t (Err e) /\ r = Err e) \/
  (exists t1 a t2, t = t1 ++ t2 /\ traceOf m t1 (Ok a) /\ traceOf (f a) t2 r).
Proof.
  unfold mbind, M_bind. rewrite traceOf_pbind. split.
  - intros (t1 & [a | e] & t2 & -> & H1 & H2).
    + right. eauto 6.
    + left. simpl in H2. destruct H2 as [-> ->]. rewrite app_nil_r. eauto.
  - intros [(e & H1 & ->) | (t1 & a & t2 & -> & H1 & H2)].
    + exists t, (Err e), []. rewrite app_nil_r. simpl. auto.
    + exists t1, (Ok a), t2. auto.
Qed.

(** What holds of every trace of a part holds of that part of the trace. *)
Lemma traceOf_always {A : Type} (p : Prog A) (P : list Event -> A -> Prop)
    (t : list Event) (a : A) :
  always p P -> traceOf p t a -> P t a.
Proof. intros HP. apply always_traceOf, HP. Qed.

Lemma traceOf_kinds {A : Type} (ks : list Kind) (p : Prog A) (t : list Event) (a : A) :
  opsAll (kindIn ks) p -> traceOf p t a -> kindsOf ks t.
Proof.
  intros Hp. apply (traceOf_always p (fun t _ => kindsOf ks t)).
  apply always_kinds, Hp.
Qed.

(** Taking a trace apart along the program. *)
Ltac trace_step H :=
  lazymatch type of H with
  | traceOf (Ret _) _ _ =>
      let Ha := fresh "Ha" in destruct H as [-> Ha]; try subst
  | traceOf (mret _) _ _ =>
      let Ha := fresh "Ha" in destruct H as [-> Ha]; try subst
  | traceOf (Vis _ _) _ _ =>
      let x := fresh "x" in
      let t := fresh "t" in
      let Ht := fresh "Ht" in
      destruct H as (x & t & -> & Ht); cbv beta in Ht;
      try (lazymatch type of x with unit => destruct x end);
      trace_step Ht
  | traceOf (match ?x with _ => _ end) _ _ => destruct x eqn:?; trace_step H
  | traceOf (let _ := _ in _) _ _ => cbv zeta in H; trace_step H
  | _ => idtac
  end.

(** ** [updateBundleMtree] *)

Section BundleMtree.

Context (path_Join : list string -> string).

Lemma renameFirstMtree_always (rootPath newName : string) (infos : list string) :
  always (renameFirstMtree path_Join rootPath newName infos)
         (fun t r =>
            match firstMtree infos with
            | None => t = [] /\ r = Ok tt
            | Some fi =>
                exists err,
                  t = [Ev (os_Rename (path_Join [rootPath; fi]) (path_Join [rootPath; newName])) err] /\
                  r = result_of err
            end).
Proof.
  induction infos as [ | fi rest IH]; cbn [renameFirstMtree firstMtree List.find].
  - split; reflexivity.
  - destruct (strings_HasSuffix fi ".mtree"); cbn [negb].
    + unfold check. cbn [always]. intros [e | ]; cbn [always]; eexists; split; reflexivity.
    + exact IH.
Qed.

Lemma updateBundleMtree_always (rootPath : string) (newPath : Descriptor) :
  always (updateBundleMtree path_Join rootPath newPath)
         (bundleMtreePost path_Join rootPath newPath).
Proof.
  unfold updateBundleMtree. cbv zeta. apply always_mbind.
  unfold try. cbn [always]. intros [infos | e].
  - eapply always_mono; [ | apply renameFirstMtree_always].
    intros t r Hpost. exists (Ok infos), t. split; [reflexivity | ].
    exact Hpost.
  - exists (Err e), []. split; [reflexivity | split; reflexivity].
Qed.

(** [updateBundleMtree] (lines 41-58) reads the directory and renames at most
    one file: the first entry whose name ends in [.mtree] becomes
    [<digest with its first colon replaced by an underscore>.mtree], and the
    result is that of the rename.  A directory without such an entry is no
    error and nothing is renamed; when the directory cannot be read, its
    error is returned and nothing is renamed. *)
Theorem updateBundleMtree_renames_the_first_manifest
    {W : Type} (h : Handler W) (rootPath : string) (newPath : Descriptor) (w : W) :
  bundleMtreePost path_Join rootPath newPath
    (runProg h (updateBundleMtree path_Join rootPath newPath) w).2
    (runProg h (updateBundleMtree path_Join rootPath newPath) w).1.1.
Proof. apply always_run, updateBundleMtree_always. Qed.

End BundleMtree.

(** ** The course of [Build] *)

Section BuildShape.

Context (WorkingContainerName ReasonableDefaultPath : string).
Context (GitVersionAnnotation StackerContentsAnnotation MetaVersion : string).
Context (GOARCH GOOS : string).
Context (path_Join : list string -> string).

Local Abbreviation Build' :=
  (Build WorkingContainerName ReasonableDefaultPath GitVersionAnnotation
         StackerContentsAnnotation MetaVersion GOARCH GOOS path_Join).
Local Abbreviation buildWithLayout' :=
  (buildWithLayout WorkingContainerName ReasonableDefaultPath GitVersionAnnotation
         StackerContentsAnnotation MetaVersion GOARCH GOOS path_Join).
Local Abbreviation buildShape' :=
  (buildShape WorkingContainerName ReasonableDefaultPath GitVersionAnnotation
         StackerContentsAnnotation MetaVersion GOARCH GOOS path_Join).

Lemma traceOf_deferB {X : Type} (d : Op X) (body : Prog (Builder * error))
    (t : list Event) (be : Builder * error) :
  traceOf (deferB d body) t be ->
  exists t1 x, t = t1 ++ [Ev d x] /\ traceOf body t1 be.
Proof.
  unfold deferB. rewrite traceOf_pbind.
  intros (t1 & be1 & t2 & -> & H1 & (x & t' & -> & [-> ->])). eauto.
Qed.

Lemma traceOf_Build (b : Builder) (file : string) (t : list Event) (be : Builder * error) :
  traceOf (Build' b file) t be -> buildShape' b file t be.
Proof.
  unfold Build. cbv zeta. rewrite traceOf_pbind.
  intros (rm & [] & t2 & -> & Hrm & Ht).
  assert (Hremoved : removedCache (opts b) rm).
  { unfold removedCache. destruct (NoCache (opts b)); trace_step Hrm; eauto. }
  clear Hrm. cbn [traceOf] in Ht.
  destruct Ht as ([sf | e] & t1 & -> & Ht);
    [ | destruct Ht as [-> ->]; apply shape_parse; exact Hremoved].
  cbn [traceOf] in Ht. destruct Ht as ([e | ] & t2 & -> & Ht);
    [destruct Ht as [-> ->]; apply shape_storage; exact Hremoved | ].
  assert (Hdt : exists t3 dt, t2 = t3 ++ dt /\ detached (opts b) dt /\
                  traceOf (match DependencyOrder sf with
                           | Ok order =>
                               Vis (os_Stat (OCIDir (Config (opts b))))
                                 (fun statErr : error =>
                                    Vis (openLayout (opts b) statErr)
                                      (fun err : error =>
                                         match err with
                                         | Some e => Ret (b, Some e)
                                         | None =>
                                             deferB oci_Close
                                               (pbind (buildWithLayout' (registered b file sf) sf order)
                                                  (fun r => Ret (registered b file sf, error_of r)))
                                         end))
                           | Err e => Ret (b, Some e)
                           end) t3 be).
  { unfold detached. destruct (LeaveUnladen (opts b)); cbn [negb] in Ht.
    - exists t2, []. rewrite app_nil_r. auto.
    - apply traceOf_deferB in Ht. destruct Ht as (t3 & x & -> & Ht). eauto 6. }
  clear Ht. destruct Hdt as (t3 & dt & -> & Hdetached & Ht).
  destruct (DependencyOrder sf) as [order | e] eqn:Horder.
  2: { destruct Ht as [-> ->]. apply (shape_order _ _ _ _ _ _ _ _ b file rm dt sf e); assumption. }
  cbn [traceOf] in Ht. destruct Ht as (statErr & t4 & -> & err & t5 & -> & Ht).
  destruct err as [e | ].
  { destruct Ht as [-> ->].
    apply (shape_layout _ _ _ _ _ _ _ _ b file rm dt sf order statErr e); assumption. }
  apply traceOf_deferB in Ht. destruct Ht as (t6 & x & -> & Ht).
  apply traceOf_pbind in Ht. destruct Ht as (body & r & t7 & -> & Hbody & [-> ->]).
  rewrite app_nil_r.
  pose proof (shape_built WorkingContainerName ReasonableDefaultPath GitVersionAnnotation
                StackerContentsAnnotation MetaVersion GOARCH GOOS path_Join
                b file rm dt body sf order statErr r x Hremoved Hdetached Horder Hbody) as Hshape.
  cbn [app] in Hshape |- *. rewrite <- (List.app_assoc body). exact Hshape.
Qed.

(** Every run of [Build] has one of the five courses. *)
Lemma Build_shape {W : Type} (h : Handler W) (b : Builder) (file : string) (w : W) :
  buildShape' b file (runProg h (Build' b file) w).2 (runProg h (Build' b file) w).1.1.
Proof. apply traceOf_Build, runProg_traceOf. Qed.

End BuildShape.

(** ** Calls a build never makes *)

Lemma never_without {A : Type} (sel : forall X : Type, Op X -> bool) (p : Prog A)
    (t : list Event) (a : A) :
  never sel p -> traceOf p t a -> without sel t.
Proof.
  intros Hp. apply (traceOf_always p (fun t _ => without sel t)).
  apply (opsAll_always _ p Hp).
Qed.

Lemma without_app (sel : forall X : Type, Op X -> bool) (t1 t2 : list Event) :
  without sel (t1 ++ t2) <-> without sel t1 /\ without sel t2.
Proof. apply Forall_app. Qed.

Section Loops.

Context (Q : forall X : Type, Op X -> Prop).

Lemma renameFirstMtree_ops (path_Join : list string -> string)
    (rootPath newName : string) (infos : list string) :
  (forall a b, Q _ (os_Rename a b)) ->
  opsAll Q (renameFirstMtree path_Join rootPath newName infos).
Proof.
  intros HQ. induction infos as [ | fi rest IH]; cbn [renameFirstMtree]; [exact I | ].
  destruct (negb (strings_HasSuffix fi ".mtree")); [exact IH | ].
  split; [apply HQ | intros [e | ]; exact I].
Qed.

Lemma saveTags_ops (o : BuildArgs) (sf : Stackerfile) (name : string)
    (isrc : ImageSource) (tags : list string) :
  (forall msg, Q _ (fmt_Printf msg)) ->
  (forall s d p, Q _ (lib_ImageCopy s d p)) ->
  opsAll Q (saveTags o sf name isrc tags).
Proof.
  intros HP HC. induction tags as [ | tag rest IH]; cbn [saveTags]; [exact I | ].
  apply opsAll_mbind; [destruct (Type_ isrc); exact I | intros destUrl].
  apply opsAll_mbind; [split; [apply HP | intros; exact I] | intros _].
  apply opsAll_mbind; [split; [apply HC | intros [e | ]; exact I] | intros _].
  exact IH.
Qed.

Lemma squashfsDiffs_ops (path_Join : list string -> string) (rootfs : string)
    (diffs : list InodeDelta) :
  (forall p m d, Q _ (unix_Mknod p m d)) ->
  forall missing paths, opsAll Q (squashfsDiffs path_Join rootfs diffs missing paths).
Proof.
  intros HQ. induction diffs as [ | d rest IH]; intros missing paths;
    cbn [squashfsDiffs]; [exact I | ].
  destruct (DiffType d); cbv zeta; try apply IH.
  split; [apply HQ | intros [e | ]; [ | apply IH] ].
  destruct (negb (os_IsNotExist e) && negb (bool_decide (e = Errno ENOTDIR)));
    [exact I | apply IH].
Qed.

Lemma removeMissing_ops (missing : list string) :
  (forall p, Q _ (os_Remove p)) -> opsAll Q (removeMissing missing).
Proof.
  intros HQ. induction missing as [ | f rest IH]; cbn [removeMissing]; [exact I | ].
  split; [apply HQ | intros _; exact IH].
Qed.

Lemma buildLayers_ops
    (WorkingContainerName ReasonableDefaultPath : string)
    (GitVersionAnnotation StackerContentsAnnotation MetaVersion GOARCH GOOS : string)
    (path_Join : list string -> string)
    (b : Builder) (sf : Stackerfile) (gitVersion author : string) (order : list string) :
  (forall name,
      opsAll Q (buildLayer WorkingContainerName ReasonableDefaultPath GitVersionAnnotation
                  StackerContentsAnnotation MetaVersion GOARCH GOOS path_Join
                  b sf gitVersion author name)) ->
  opsAll Q (buildLayers WorkingContainerName ReasonableDefaultPath GitVersionAnnotation
              StackerContentsAnnotation MetaVersion GOARCH GOOS path_Join
              b sf gitVersion author order).
Proof.
  intros HQ. induction order as [ | name rest IH]; cbn [buildLayers]; [exact I | ].
  apply opsAll_mbind; [apply HQ | intros _; exact IH].
Qed.

End Loops.

(** The calls a program can make, one by one, for a property of the call
    that is decided by evaluation. *)
Create HintDb nops.

Ltac nops_step :=
  cbv beta;
  lazymatch goal with
  | |- True => exact I
  | |- _ = false => reflexivity
  | |- never _ _ => unfold never
  | |- opsAll _ (Ret _) => exact I
  | |- opsAll _ (Vis _ _) => split; [ | intro]
  | |- opsAll _ (mret _) => exact I
  | |- opsAll _ (mbind _ _) => apply opsAll_mbind; [ | intro]
  | |- opsAll _ (M_bind _ _ _ _) => apply opsAll_mbind; [ | intro]
  | |- opsAll _ (pbind _ _) => apply opsAll_pbind; [ | intro]
  | |- opsAll _ (match ?x with _ => _ end) => destruct x eqn:?
  | |- opsAll _ (let _ := _ in _) => cbv zeta
  | |- opsAll _ ?p => first [ solve [eauto with nops] | let f := head_of p in unfold f ]
  end.

Ltac nops := repeat nops_step.

#[global] Hint Extern 1 (opsAll _ (renameFirstMtree _ _ _ _)) =>
  apply renameFirstMtree_ops; intros; cbv beta; reflexivity : nops.
#[global] Hint Extern 1 (opsAll _ (saveTags _ _ _ _ _)) =>
  apply saveTags_ops; intros; cbv beta; reflexivity : nops.
#[global] Hint Extern 1 (opsAll _ (squashfsDiffs _ _ _ _ _)) =>
  apply squashfsDiffs_ops; intros; cbv beta; reflexivity : nops.
#[global] Hint Extern 1 (opsAll _ (removeMissing _)) =>
  apply removeMissing_ops; intros; cbv beta; reflexivity : nops.
#[global] Hint Extern 1 (opsAll _ (buildLayers _ _ _ _ _ _ _ _ _ _ _ _ _)) =>
  apply buildLayers_ops; intros; solve [nops] : nops.

(** The five courses, with the flags decided. *)
Ltac shape_cases H :=
  destruct H as [rm e Hrm | rm sf e Hrm | rm dt sf e Hrm Hdt Horder
                | rm dt sf order statErr e Hrm Hdt Horder
                | rm dt body sf order statErr r x Hrm Hdt Horder Hbody];
  unfold removedCache in Hrm; try unfold detached in Hdt;
  repeat match goal with
         | H : context [if ?c then _ else _] |- _ =>
             let Hc := fresh "Hflag" in destruct c eqn:Hc
         end;
  repeat match goal with
         | H : exists _, _ |- _ => destruct H as [? H]
         end;
  subst; cbn [app].

(** A trace given call by call, with the calls of the layers in it, makes
    none of the calls [sel] selects; [lemma] says so for the layers. *)
(** All of a list but its last element, and that element. *)
Ltac init_of l :=
  lazymatch l with
  | [_] => constr:(@nil Event)
  | ?a :: ?r => let i := init_of r in constr:(a :: i)
  | ?b ++ ?r => let i := init_of r in constr:(b ++ i)
  end.

Ltac last_answer l :=
  lazymatch l with
  | [Ev _ ?x] => constr:(x)
  | _ :: ?r => last_answer r
  | _ ++ ?r => last_answer r
  end.

Ltac split_last :=
  lazymatch goal with
  | |- exists t0 x, ?l = _ /\ _ =>
      let i := init_of l in
      let x := last_answer l in
      exists i, x; split;
        [cbn [app]; rewrite <- ?List.app_assoc; reflexivity | ]
  end.

Ltac without_calls lemma :=
  unfold without;
  repeat first
    [ apply List.Forall_nil
    | apply List.Forall_cons;
        [ first [ reflexivity
                | match goal with
                  | |- context [openLayout _ ?s] => destruct s; reflexivity
                  end ]
        | ]
    | lazymatch goal with
      | |- Forall _ (_ ++ _) => apply Forall_app; split
      end
    | eapply never_without; [apply lemma | eassumption] ].

(** ** What [Build] does around the layers *)

Section Around.

Context (WorkingContainerName ReasonableDefaultPath : string).
Context (GitVersionAnnotation StackerContentsAnnotation MetaVersion : string).
Context (GOARCH GOOS : string).
Context (path_Join : list string -> string).

Local Abbreviation Build' :=
  (Build WorkingContainerName ReasonableDefaultPath GitVersionAnnotation
         StackerContentsAnnotation MetaVersion GOARCH GOOS path_Join).
Local Abbreviation buildWithLayout' :=
  (buildWithLayout WorkingContainerName ReasonableDefaultPath GitVersionAnnotation
         StackerContentsAnnotation MetaVersion GOARCH GOOS path_Join).

Lemma buildWithLayout_never_detaches (b : Builder) (sf : Stackerfile) (order : list string) :
  never isDetach (buildWithLayout' b sf order).
Proof. unfold buildWithLayout. nops. Qed.

Lemma buildWithLayout_never_removes_all (b : Builder) (sf : Stackerfile) (order : list string) :
  never isRemoveAll (buildWithLayout' b sf order).
Proof. unfold buildWithLayout. nops. Qed.

Lemma buildWithLayout_never_parses (b : Builder) (sf : Stackerfile) (order : list string) :
  never isNewStackerfile (buildWithLayout' b sf order).
Proof. unfold buildWithLayout. nops. Qed.

Lemma stackerfiles_without (t : list Event) : without isNewStackerfile t -> stackerfiles t = [].
Proof.
  induction 1 as [ | [X op x] t He _ IH]; [reflexivity | ].
  unfold stackerfiles in *. cbn [omap list_omap]. fold (omap stackerfileOf t). rewrite IH.
  destruct op; try reflexivity. discriminate He.
Qed.

Local Opaque traceOf.

(** [Build] (lines 257-259): the storage is detached by a deferred call.
    With [LeaveUnladen] no run of [Build] calls [s.Detach].  Without it, once
    [NewStorage] has answered nil, [s.Detach] is the last call of [Build],
    however the build ends, and it is called once; when the storage was not
    attached it is not called. *)
Theorem Build_detaches_the_storage_last
    {W : Type} (h : Handler W) (b : Builder) (file : string) (w : W) :
  let t := (runProg h (Build' b file) w).2 in
  (LeaveUnladen (opts b) = true -> without isDetach t) /\
  (LeaveUnladen (opts b) = false ->
   In None (storages t) ->
   exists t0 x, t = t0 ++ [Ev s_Detach x] /\ without isDetach t0) /\
  (~ In None (storages t) -> without isDetach t).
Proof.
  intros t. pose proof (Build_shape WorkingContainerName ReasonableDefaultPath
                          GitVersionAnnotation StackerContentsAnnotation MetaVersion
                          GOARCH GOOS path_Join h b file w) as Hshape.
  fold t in Hshape. clearbody t.
  destruct ((runProg h (Build' b file) w).1.1) as [b' err].
  split; [ | split].
  - intros Hflag0. shape_cases Hshape; try congruence.
    all: without_calls buildWithLayout_never_detaches.
  - intros Hflag0 Hin. shape_cases Hshape; try congruence.
    all: try (exfalso; cbn in Hin; intuition congruence).
    all: split_last.
    all: without_calls buildWithLayout_never_detaches.
  - intros Hnot. shape_cases Hshape.
    all: try (exfalso; apply Hnot; cbn; tauto).
    all: without_calls buildWithLayout_never_detaches.
Qed.

(** [Build] (lines 244-246): with [NoCache] the first call of [Build] is
    [os.RemoveAll] on the stacker directory, its answer is not looked at, and
    it is the only such call; without [NoCache], [Build] never calls
    [os.RemoveAll]. *)
Theorem Build_removes_the_cache_first
    {W : Type} (h : Handler W) (b : Builder) (file : string) (w : W) :
  let t := (runProg h (Build' b file) w).2 in
  (NoCache (opts b) = true ->
   exists x rest, t = Ev (os_RemoveAll (StackerDir (Config (opts b)))) x :: rest /\
                  without isRemoveAll rest) /\
  (NoCache (opts b) = false -> without isRemoveAll t).
Proof.
  intros t. pose proof (Build_shape WorkingContainerName ReasonableDefaultPath
                          GitVersionAnnotation StackerContentsAnnotation MetaVersion
                          GOARCH GOOS path_Join h b file w) as Hshape.
  fold t in Hshape. clearbody t.
  destruct ((runProg h (Build' b file) w).1.1) as [b' err].
  split.
  - intros Hflag0. shape_cases Hshape; try congruence.
    all: eexists _, _; split; [reflexivity | ].
    all: without_calls buildWithLayout_never_removes_all.
  - intros Hflag0. shape_cases Hshape; try congruence.
    all: without_calls buildWithLayout_never_removes_all.
Qed.

(** [Build] (line 278): the stackerfile is recorded in the builder once the
    layout is open, before any layer is built.  So when a layout was created
    or opened the builder [Build] leaves has [file] bound to the stackerfile
    that was parsed, whether the layers then build or not, and every other
    entry is as before; when no layout was opened the builder is unchanged
    and [Build] has failed.  The build options are never changed. *)
Theorem Build_records_the_stackerfile
    {W : Type} (h : Handler W) (b : Builder) (file : string) (w : W) :
  let t := (runProg h (Build' b file) w).2 in
  let b' := (runProg h (Build' b file) w).1.1.1 in
  let err := (runProg h (Build' b file) w).1.1.2 in
  opts b' = opts b /\
  (In (OCIDir (Config (opts b)), None) (layouts t) ->
   exists sf, In (file, Ok sf) (stackerfiles t) /\
              builtStackerfiles b' = <[ file := sf ]> (builtStackerfiles b)) /\
  (~ In (OCIDir (Config (opts b)), None) (layouts t) ->
   b' = b /\ exists e, err = Some e) /\
  (err = None -> In (OCIDir (Config (opts b)), None) (layouts t)).
Proof.
  intros t b' err.
  pose proof (Build_shape WorkingContainerName ReasonableDefaultPath
                GitVersionAnnotation StackerContentsAnnotation MetaVersion
                GOARCH GOOS path_Join h b file w) as Hshape.
  fold t in Hshape. clearbody t.
  subst b' err. set (be := (runProg h (Build' b file) w).1.1) in *. clearbody be.
  assert (Hlayout : forall o s x,
             layouts [Ev (openLayout o s) x] = [(OCIDir (Config o), x)]).
  { intros o [e | ] x; reflexivity. }
  split; [ | split; [ | split] ].
  - shape_cases Hshape; reflexivity.
  - intros Hin. shape_cases Hshape; cbn [fst snd].
    all: try (exfalso; cbn in Hin; tauto).
    all: try (exfalso; destruct statErr; cbn in Hin; intuition congruence).
    all: eexists; (split; [cbn; tauto | reflexivity]).
  - intros Hnot. shape_cases Hshape; cbn [fst snd].
    all: try (split; [reflexivity | eexists; reflexivity]).
    all: exfalso; apply Hnot; destruct statErr; cbn; tauto.
  - intros Herr. shape_cases Hshape; cbn [fst snd] in Herr; try discriminate Herr.
    all: destruct statErr; cbn; tauto.
Qed.

(** [Build] (lines 261-264): when [sf.DependencyOrder()] fails, [Build]
    returns its error having parsed the stackerfile and attached the storage
    only: no layout is created or opened, the cache is not opened, no layer
    is imported or built, and the builder is unchanged. *)
Theorem Build_stops_on_a_failing_dependency_order
    {W : Type} (h : Handler W) (b : Builder) (file : string) (w : W)
    (sf0 : Stackerfile) (e0 : GoError) :
  let t := (runProg h (Build' b file) w).2 in
  In (file, Ok sf0) (stackerfiles t) ->
  In None (storages t) ->
  DependencyOrder sf0 = Err e0 ->
  (runProg h (Build' b file) w).1.1 = (b, Some e0) /\
  layouts t = [] /\
  kindsOf [KOther] t.
Proof.
  intros t. pose proof (Build_shape WorkingContainerName ReasonableDefaultPath
                          GitVersionAnnotation StackerContentsAnnotation MetaVersion
                          GOARCH GOOS path_Join h b file w) as Hshape.
  fold t in Hshape. clearbody t.
  set (be := (runProg h (Build' b file) w).1.1) in *. clearbody be.
  intros Hsf Hst Horder0.
  shape_cases Hshape.
  all: try (exfalso; cbn in Hsf, Hst; tauto).
  all: try (exfalso; cbn in Hsf, Hst; destruct Hst as [Hst | Hst];
            [discriminate Hst | tauto]).
  all: cbn in Hsf; destruct Hsf as [Hsf | Hsf].
  all: try (injection Hsf as <-).
  all: try (rewrite Horder in Horder0; first [discriminate Horder0 | injection Horder0 as <-]).
  all: try (split; [reflexivity | split; [reflexivity | kinds_list] ]).
  all: try (exfalso; cbn in Hsf; tauto).
  all: exfalso.
  all: try (destruct statErr; cbn in Hsf; tauto).
  all: assert (Hnone : stackerfiles body = [])
         by (apply stackerfiles_without;
             eapply never_without; [apply buildWithLayout_never_parses | exact Hbody]).
  all: unfold stackerfiles in *.
  all: destruct statErr; cbn [omap list_omap stackerfileOf openLayout] in Hsf.
  all: rewrite omap_app, Hnone in Hsf; cbn in Hsf; tauto.
Qed.

End Around.

(** ** The layers of a build *)

Section Layers.

Context (WorkingContainerName ReasonableDefaultPath : string).
Context (GitVersionAnnotation StackerContentsAnnotation MetaVersion : string).
Context (GOARCH GOOS : string).
Context (path_Join : list string -> string).

Local Abbreviation Build' :=
  (Build WorkingContainerName ReasonableDefaultPath GitVersionAnnotation
         StackerContentsAnnotation MetaVersion GOARCH GOOS path_Join).
Local Abbreviation buildWithLayout' :=
  (buildWithLayout WorkingContainerName ReasonableDefaultPath GitVersionAnnotation
         StackerContentsAnnotation MetaVersion GOARCH GOOS path_Join).
Local Abbreviation buildLayers' :=
  (buildLayers WorkingContainerName ReasonableDefaultPath GitVersionAnnotation
         StackerContentsAnnotation MetaVersion GOARCH GOOS path_Join).
Local Abbreviation buildLayer' :=
  (buildLayer WorkingContainerName ReasonableDefaultPath GitVersionAnnotation
         StackerContentsAnnotation MetaVersion GOARCH GOOS path_Join).

(** *** The garbage collection *)

Lemma gcOnce_bind {A : Type} (m : M A) (f : A -> M unit) :
  opsAll (kindIn kindsButGC) m ->
  (forall a, always (f a) (fun t r => gcOnce t (error_of r))) ->
  always (m ≫= f) (fun t r => gcOnce t (error_of r)).
Proof.
  intros Hm Hf. apply always_mbind.
  eapply always_mono; [ | apply always_kinds, Hm].
  intros t1 [a | e] Hk; simpl in Hk.
  - eapply always_mono; [ | apply Hf]. intros t2 r Hpost.
    unfold gcOnce in *. rewrite gcs_app.
    rewrite (gcs_none kindsButGC t1); [exact Hpost | unfold kindsButGC; not_in_kinds | exact Hk].
  - left. split; [ | eexists; reflexivity].
    apply (gcs_none kindsButGC); [unfold kindsButGC; not_in_kinds | exact Hk].
Qed.

Lemma buildWithLayout_gcOnce (b : Builder) (sf : Stackerfile) (order : list string) :
  always (buildWithLayout' b sf order) (fun t r => gcOnce t (error_of r)).
Proof.
  unfold buildWithLayout. cbv zeta.
  repeat (apply gcOnce_bind; [unfold kindsButGC; solve [ops] | intros ?]).
  repeat always_step; cbn [app]; right; reflexivity.
Qed.

(** [Build] (lines 626-631): the garbage collection of the layout is called
    at most once, after the layers; a run of [Build] that does not get to it
    returns an error, and one that does returns what [oci.GC] answered.  So
    [Build] returns nil only when the garbage collection ran and
    succeeded. *)
Theorem Build_succeeds_only_through_the_garbage_collection
    {W : Type} (h : Handler W) (b : Builder) (file : string) (w : W) :
  let t := (runProg h (Build' b file) w).2 in
  let err := (runProg h (Build' b file) w).1.1.2 in
  ((gcs t = [] /\ exists e, err = Some e) \/ gcs t = [err]) /\
  (err = None -> gcs t = [None]).
Proof.
  intros t err.
  assert (Honce : gcOnce t err).
  { pose proof (Build_shape WorkingContainerName ReasonableDefaultPath
                  GitVersionAnnotation StackerContentsAnnotation MetaVersion
                  GOARCH GOOS path_Join h b file w) as Hshape.
    fold t in Hshape. clearbody t.
    subst err. set (be := (runProg h (Build' b file) w).1.1) in *. clearbody be.
    shape_cases Hshape; cbn [fst snd].
    all: try (left; split; [reflexivity | eexists; reflexivity]).
    all: try (left; split; [destruct statErr; reflexivity | eexists; reflexivity]).
    all: pose proof (traceOf_always _ _ _ _ (buildWithLayout_gcOnce _ sf order) Hbody) as Hgc.
    all: unfold gcOnce, gcs in *; destruct statErr;
      cbn [omap list_omap gcOf openLayout]; rewrite omap_app; cbn [omap list_omap gcOf];
      rewrite app_nil_r; exact Hgc. }
  split; [exact Honce | ].
  intros Hnone. destruct Honce as [[_ [e He]] | Hgc]; [congruence | ].
  rewrite Hgc, Hnone. reflexivity.
Qed.

(** *** The imports *)

Lemma imports_app (t1 t2 : list Event) : imports (t1 ++ t2) = imports t1 ++ imports t2.
Proof. apply omap_app. Qed.

Lemma buildLayer_import (b : Builder) (sf : Stackerfile) (gitVersion author name : string) :
  always (buildLayer' b sf gitVersion author name) (importPost name).
Proof.
  unfold buildLayer.
  destruct (Get sf name) as [l | ].
  2: { left. split; [reflexivity | eexists; reflexivity]. }
  change (mret l ≫= ?f) with (f l). cbv beta.
  do 2 (apply always_mbind; unfold fmt_Println, call; cbn [always]; intros []).
  apply always_mbind. unfold pure. cbn [always].
  destruct (ParseImport l) as [imps | e].
  2: { left. split; [reflexivity | eexists; reflexivity]. }
  apply always_mbind. unfold check. cbn [always]. intros [e | ]; cbn [always].
  { right. exists (Some e). split; [reflexivity | ]. intros e' [= <-]. reflexivity. }
  eapply always_mono; [ | apply (always_kinds kindsButImport); unfold kindsButImport; ops].
  intros t r Hk. simpl in Hk. right. exists None. split; [ | discriminate].
  cbn [app]. unfold imports. cbn [omap list_omap importOf]. fold (omap importOf t).
  fold (imports t).
  rewrite (imports_none kindsButImport t); [reflexivity | unfold kindsButImport; not_in_kinds | exact Hk].
Qed.

Lemma buildLayers_imports (b : Builder) (sf : Stackerfile) (gitVersion author : string)
    (order : list string) :
  always (buildLayers' b sf gitVersion author order)
         (fun t r => importsPost order t (error_of r)).
Proof.
  induction order as [ | name rest IH]; cbn [buildLayers].
  - split; [exists 0%nat; reflexivity | ]. split; [reflexivity | intros n e []].
  - apply always_mbind. eapply always_mono; [ | apply buildLayer_import].
    intros t1 [[] | e] Hpost.
    + destruct Hpost as [[_ [e He]] | (err & Himp & Herr)]; [discriminate He | ].
      destruct err as [e | ]; [discriminate (Herr e eq_refl) | ].
      eapply always_mono; [ | apply IH]. intros t2 r ((k & Hk) & Hok & Hfail).
      unfold importsPost. rewrite imports_app, Himp. cbn [app]. split; [ | split].
      * exists (S k). cbn [map fst take]. rewrite Hk. reflexivity.
      * intros Hr. cbn [map]. rewrite (Hok Hr). reflexivity.
      * intros n e [Hin | Hin]; [discriminate Hin | exact (Hfail n e Hin)].
    + unfold importsPost.
      destruct Hpost as [[Himp _] | (err & Himp & Herr)]; rewrite Himp.
      * split; [exists 0%nat; reflexivity | ]. split; [discriminate | intros n e' []].
      * split; [exists 1%nat; cbn; rewrite take_0; reflexivity | ].
        split; [discriminate | ].
        intros n e' [Hin | []]. injection Hin as _ ->.
        pose proof (Herr e' eq_refl) as He. cbn. congruence.
Qed.

Lemma importsPost_bind {A : Type} (order : list string) (m : M A) (f : A -> M unit) :
  opsAll (kindIn kindsButImport) m ->
  (forall a, always (f a) (fun t r => importsPost order t (error_of r))) ->
  always (m ≫= f) (fun t r => importsPost order t (error_of r)).
Proof.
  intros Hm Hf. apply always_mbind.
  eapply always_mono; [ | apply always_kinds, Hm].
  intros t1 [a | e] Hk; simpl in Hk;
    pose proof (imports_none kindsButImport t1 ltac:(unfold kindsButImport; not_in_kinds) Hk)
      as Hnone.
  - eapply always_mono; [ | apply Hf]. intros t2 r Hpost.
    unfold importsPost in *. rewrite imports_app, Hnone. exact Hpost.
  - unfold importsPost. rewrite Hnone.
    split; [exists 0%nat; reflexivity | ]. split; [discriminate | intros n e' []].
Qed.

Lemma buildWithLayout_imports (b : Builder) (sf : Stackerfile) (order : list string) :
  always (buildWithLayout' b sf order) (fun t r => importsPost order t (error_of r)).
Proof.
  unfold buildWithLayout. cbv zeta.
  repeat (apply importsPost_bind; [unfold kindsButImport; solve [ops] | intros ?]).
  apply always_mbind. eapply always_mono; [ | apply buildLayers_imports].
  intros t1 [[] | e] Hpost; [ | exact Hpost].
  destruct Hpost as (Hk & Hok & Hfail). cbn [error_of] in Hok, Hfail.
  eapply always_mono;
    [ | apply (always_kinds [KGC; KPrint]); ops].
  intros t2 r Hkinds. simpl in Hkinds.
  unfold importsPost. rewrite imports_app.
  rewrite (imports_none [KGC; KPrint] t2), app_nil_r; [ | not_in_kinds | exact Hkinds].
  split; [exact Hk | ]. split; [intros _; apply Hok; reflexivity | ].
  intros n e Hin. discriminate (Hfail n e Hin).
Qed.

(** *** From the layers to [Build] *)

Lemma omap_skip {B : Type} (f : Event -> option B) (e : Event) (t : list Event) :
  f e = None -> omap f (e :: t) = omap f t.
Proof. intros He. cbn [omap list_omap]. rewrite He. reflexivity. Qed.

(** A reading of the trace that none of the calls around the layers
    contributes to reads the calls of the layers only. *)
Lemma buildShape_omap {B : Type} (f : Event -> option B) (K : Kind)
    (b : Builder) (file : string) (t : list Event) (be : Builder * error) :
  (forall e, f e <> None -> kind e = K) -> K <> KOther ->
  buildShape WorkingContainerName ReasonableDefaultPath GitVersionAnnotation
    StackerContentsAnnotation MetaVersion GOARCH GOOS path_Join b file t be ->
  (omap f t = [] /\ exists e, be = (b, Some e)) \/
  (exists sf order body r,
      stackerfiles t = [(file, Ok sf)] /\
      DependencyOrder sf = Ok order /\
      traceOf (buildWithLayout' (registered b file sf) sf order) body r /\
      omap f t = omap f body /\
      be = (registered b file sf, error_of r)).
Proof.
  intros HK Hother Hshape.
  assert (Hf : forall X (op : Op X) x, opKind op = KOther -> f (Ev op x) = None).
  { intros X op x Hk. destruct (f (Ev op x)) eqn:Hfe; [ | reflexivity].
    exfalso. apply Hother. rewrite <- (HK (Ev op x)); [exact Hk | congruence]. }
  assert (Hopen : forall o s x, f (Ev (openLayout o s) x) = None).
  { intros o [e | ] x; apply Hf; reflexivity. }
  shape_cases Hshape.
  all: try (left; split;
            [ rewrite ?omap_skip by first [apply Hopen | apply Hf; reflexivity]; reflexivity
            | eexists; reflexivity ]).
  all: right; exists sf, order, body, r.
  all: assert (Hnone : stackerfiles body = [])
         by (apply stackerfiles_without;
             eapply never_without; [apply buildWithLayout_never_parses | exact Hbody]).
  all: split; [unfold stackerfiles in *; destruct statErr;
               cbn [omap list_omap stackerfileOf openLayout];
               rewrite omap_app, Hnone; reflexivity | ].
  all: split; [exact Horder | ]. all: split; [exact Hbody | ]. all: split; [ | reflexivity].
  all: rewrite ?omap_skip by first [apply Hopen | apply Hf; reflexivity].
  all: rewrite omap_app.
  all: rewrite ?omap_skip by first [apply Hopen | apply Hf; reflexivity].
  all: cbn [omap list_omap]; rewrite app_nil_r; reflexivity.
Qed.

(** [Build] (lines 308-331): the layers are imported in the dependency
    order of the stackerfile that was parsed, each once, up to the first
    layer that fails; an import that fails is the failure of [Build]; and
    when [Build] returns nil every layer of the order was imported. *)
Theorem Build_imports_the_layers_in_order
    {W : Type} (h : Handler W) (b : Builder) (file : string) (w : W)
    (sf0 : Stackerfile) (order0 : list string) :
  let t := (runProg h (Build' b file) w).2 in
  let err := (runProg h (Build' b file) w).1.1.2 in
  In (file, Ok sf0) (stackerfiles t) ->
  DependencyOrder sf0 = Ok order0 ->
  (exists k, map fst (imports t) = take k order0) /\
  (err = None -> imports t = map (fun n => (n, None)) order0) /\
  (forall n e, In (n, Some e) (imports t) -> err = Some e).
Proof.
  intros t err Hsf Horder0.
  pose proof (Build_shape WorkingContainerName ReasonableDefaultPath
                GitVersionAnnotation StackerContentsAnnotation MetaVersion
                GOARCH GOOS path_Join h b file w) as Hshape.
  fold t in Hshape. subst err.
  set (be := (runProg h (Build' b file) w).1.1) in *. clearbody be. clearbody t.
  destruct (buildShape_omap importOf KImport b file t be importOf_kind ltac:(discriminate) Hshape)
    as [(Himp & e & ->) | (sf & order & body & r & Hst & Horder & Hbody & Himp & ->)];
    fold (imports t) in Himp; cbn [fst snd].
  - rewrite Himp. split; [exists 0%nat; reflexivity | ].
    split; [discriminate | intros n e' []].
  - rewrite Hst in Hsf. destruct Hsf as [Hsf | []]. injection Hsf as <-.
    rewrite Horder in Horder0. injection Horder0 as <-.
    fold (imports body) in Himp. rewrite Himp.
    exact (traceOf_always _ _ _ _ (buildWithLayout_imports _ sf order) Hbody).
Qed.

(** *** A build-only layer *)

Lemma buildLayer_build_only_kinds (b : Builder) (sf : Stackerfile)
    (gitVersion author name : string) (l : Layer) :
  Get sf name = Some l -> BuildOnly l = true ->
  opsAll (kindIn kindsOfBuildOnly) (buildLayer' b sf gitVersion author name).
Proof.
  intros Hget Hbo. unfold buildLayer. rewrite Hget.
  change (mret l ≫= ?f) with (f l). cbv beta.
  unfold buildLayerHit, buildLayerMiss. cbv zeta. rewrite ?Hbo.
  unfold kindsOfBuildOnly. ops.
Qed.

Lemma buildLayer_build_only_put (b : Builder) (sf : Stackerfile)
    (gitVersion author name : string) (l : Layer) :
  Get sf name = Some l -> BuildOnly l = true ->
  always (buildLayer' b sf gitVersion author name)
         (fun t _ => forall n d e, In (n, d, e) (puts t) -> n = name /\ d = zeroDescriptor).
Proof.
  intros Hget Hbo.
  assert (Hbind : forall (A : Type) (m : M A) (f : A -> M unit),
             opsAll (kindIn kindsButPut) m ->
             (forall a, always (f a)
                          (fun t _ => forall n d e, In (n, d, e) (puts t) ->
                                                    n = name /\ d = zeroDescriptor)) ->
             always (m ≫= f)
                    (fun t _ => forall n d e, In (n, d, e) (puts t) ->
                                              n = name /\ d = zeroDescriptor)).
  { intros A m f Hm Hf. apply always_mbind.
    eapply always_mono; [ | apply always_kinds, Hm].
    intros t1 [a | e] Hk; simpl in Hk;
      pose proof (puts_none kindsButPut t1 ltac:(unfold kindsButPut; not_in_kinds) Hk) as Hnone.
    - eapply always_mono; [ | apply Hf]. intros t2 r Hpost n d e'.
      rewrite puts_app, Hnone. apply Hpost.
    - intros n d e'. rewrite Hnone. intros []. }
  unfold buildLayer. rewrite Hget.
  change (mret l ≫= ?f) with (f l). cbv beta.
  repeat (apply Hbind; [unfold kindsButPut; solve [ops] | intros ?]).
  match goal with |- always (match ?x with _ => _ end) _ => destruct x as [cacheEntry | ] end.
  - eapply always_mono;
      [ | apply (always_kinds kindsButPut); unfold kindsButPut; ops].
    intros t r Hk n d e. simpl in Hk.
    rewrite (puts_none kindsButPut t); [intros [] | unfold kindsButPut; not_in_kinds | exact Hk].
  - unfold buildLayerMiss. cbv zeta. rewrite Hbo.
    repeat (apply Hbind; [unfold kindsButPut; solve [ops] | intros ?]).
    unfold snapshotBuildOnly. repeat always_step; cbn [app].
    all: intros n d e' Hin; cbn in Hin.
    all: intuition congruence.
Qed.

(** [Build] (lines 331-346 and 422-442): a build-only layer never touches
    the OCI layout.  Whether it hits the cache or is built, the layer makes no
    call of the packaging, of the bundle's metadata, of the references or of
    the mutator; and the only cache entry it can write is for its own name
    with the empty descriptor. *)
Theorem build_only_layer_leaves_the_layout_alone
    {W : Type} (h : Handler W) (b : Builder) (sf : Stackerfile)
    (gitVersion author name : string) (l : Layer) (w : W) :
  let t := (runProg h (buildLayer' b sf gitVersion author name) w).2 in
  Get sf name = Some l ->
  BuildOnly l = true ->
  kindsOf kindsOfBuildOnly t /\
  (forall e, In e t -> ~ In (kind e) [KPackage; KBundle; KRef; KMutate; KConfig; KGC]) /\
  (forall n d e, In (n, d, e) (puts t) -> n = name /\ d = zeroDescriptor).
Proof.
  intros t Hget Hbo.
  assert (Hk : kindsOf kindsOfBuildOnly t).
  { apply opsAll_kinds. apply (buildLayer_build_only_kinds b sf gitVersion author name l Hget Hbo). }
  split; [exact Hk | ]. split.
  - intros e He Hin. unfold kindsOf in Hk. rewrite List.Forall_forall in Hk.
    specialize (Hk e He). unfold kindsOfBuildOnly in Hk. simpl in Hk, Hin.
    intuition congruence.
  - exact (always_run h _ _ w (buildLayer_build_only_put b sf gitVersion author name l Hget Hbo)).
Qed.

End Layers.

(** ** Parts of a layer *)

(** A property of the trace that only the calls [sel] selects bear on: it
    passes over a part of the program in front that makes none of them, and
    over a part behind. *)
Lemma frame_pre {A B : Type} (sel : forall X : Type, Op X -> bool)
    (P : list Event -> error -> Prop) (m : M A) (f : A -> M B) :
  never sel m ->
  (forall t1 t err, without sel t1 -> P t err -> P (t1 ++ t) err) ->
  (forall t e, without sel t -> P t (Some e)) ->
  (forall a, always (f a) (fun t r => P t (errOf r))) ->
  always (m ≫= f) (fun t r => P t (errOf r)).
Proof.
  intros Hm Hpre Hquiet Hf. apply always_mbind.
  eapply always_mono; [ | apply (opsAll_always _ m Hm)].
  intros t1 [a | e] Hw.
  - eapply always_mono; [ | apply Hf]. intros t2 r. apply Hpre. exact Hw.
  - apply Hquiet. exact Hw.
Qed.

Lemma frame_post {A B : Type} (sel : forall X : Type, Op X -> bool)
    (P : list Event -> error -> Prop) (m : M A) (f : A -> M B) :
  always m (fun t r => P t (errOf r)) ->
  (forall a, never sel (f a)) ->
  (forall t t2 err, P t None -> without sel t2 -> P (t ++ t2) err) ->
  always (m ≫= f) (fun t r => P t (errOf r)).
Proof.
  intros Hm Hf Hpost. apply always_mbind.
  eapply always_mono; [ | exact Hm].
  intros t1 [a | e] HP; [ | exact HP].
  eapply always_mono; [ | apply (opsAll_always _ (f a) (Hf a))].
  intros t2 r Hw. apply Hpost; assumption.
Qed.

(** *** What is committed *)

Lemma omap_without {B : Type} (f : Event -> option B) (sel : forall X : Type, Op X -> bool)
    (t : list Event) :
  (forall X (op : Op X) x, sel X op = false -> f (Ev op x) = None) ->
  without sel t -> omap f t = [].
Proof.
  intros Hf. induction 1 as [ | [X op x] t He _ IH]; [reflexivity | ].
  cbn [omap list_omap]. rewrite (Hf X op x He). exact IH.
Qed.

Lemma commit_quiet (t : list Event) :
  without touchesCommit t ->
  setArgs t = [] /\ configs t = [] /\ nows t = [] /\ annotationAnswers t = [].
Proof.
  intros Hw. repeat split; (eapply omap_without; [ | exact Hw]);
    intros X op x Hs; destruct op; try reflexivity; discriminate Hs.
Qed.

Section Commit2.

Context (WorkingContainerName ReasonableDefaultPath : string).
Context (GitVersionAnnotation StackerContentsAnnotation MetaVersion : string).
Context (GOARCH GOOS : string).
Context (path_Join : list string -> string).

Local Abbreviation buildLayer' :=
  (buildLayer WorkingContainerName ReasonableDefaultPath GitVersionAnnotation
              StackerContentsAnnotation MetaVersion GOARCH GOOS path_Join).
Local Abbreviation commitMetadata' :=
  (commitMetadata WorkingContainerName ReasonableDefaultPath GitVersionAnnotation
              StackerContentsAnnotation MetaVersion GOARCH GOOS path_Join).
Local Abbreviation commitPost' :=
  (commitPost ReasonableDefaultPath GitVersionAnnotation StackerContentsAnnotation GOARCH GOOS).

Lemma commitPost_pre (sf : Stackerfile) (gitVersion author : string) (l : Layer)
    (t1 t : list Event) :
  without touchesCommit t1 ->
  commitPost' sf gitVersion author l t -> commitPost' sf gitVersion author l (t1 ++ t).
Proof.
  intros Hw HP c m a hist Hin.
  destruct (commit_quiet t1 Hw) as (Hs & Hc & Hn & Ha).
  unfold setArgs, configs, nows, annotationAnswers in *.
  rewrite omap_app, Hs in Hin.
  destruct (HP c m a hist Hin) as (c0 & created & base & H1 & H2 & H3 & H).
  exists c0, created, base. rewrite !omap_app, Hc, Hn, Ha. auto.
Qed.

Lemma commitPost_post (sf : Stackerfile) (gitVersion author : string) (l : Layer)
    (t t2 : list Event) :
  commitPost' sf gitVersion author l t ->
  without touchesCommit t2 -> commitPost' sf gitVersion author l (t ++ t2).
Proof.
  intros HP Hw c m a hist Hin.
  destruct (commit_quiet t2 Hw) as (Hs & Hc & Hn & Ha).
  unfold setArgs, configs, nows, annotationAnswers in *.
  rewrite omap_app, Hs, app_nil_r in Hin.
  destruct (HP c m a hist Hin) as (c0 & created & base & H1 & H2 & H3 & H).
  exists c0, created, base. rewrite !omap_app, Hc, Hn, Ha, !app_nil_r. auto.
Qed.

Lemma commitPost_quiet (sf : Stackerfile) (gitVersion author : string) (l : Layer)
    (t : list Event) :
  setArgs t = [] -> commitPost' sf gitVersion author l t.
Proof. intros Hs c m a hist Hin. rewrite Hs in Hin. destruct Hin. Qed.

(** [layerImageConfig] makes no call. *)
Lemma layerImageConfig_ret (l : Layer) (c0 : ImageConfig) :
  always (layerImageConfig ReasonableDefaultPath l c0)
         (fun t r => t = [] /\ layerImageConfig ReasonableDefaultPath l c0 = Ret r).
Proof.
  unfold layerImageConfig. cbv zeta.
  destruct (Cmd l) as [[cmd | e] | ]; destruct (Entrypoint l) as [[ep | e'] | ];
    destruct (FullCommand l) as [[fc | e''] | ]; cbn; split; reflexivity.
Qed.

Lemma commitMetadata_commit (o : BuildArgs) (sf : Stackerfile)
    (gitVersion author name : string) (l : Layer) :
  always (commitMetadata' o sf gitVersion author name l)
         (fun t r => commitPost' sf gitVersion author l t).
Proof.
  unfold commitMetadata.
  repeat (apply (frame_pre touchesCommit (fun t _ => commitPost' sf gitVersion author l t));
          [ solve [nops]
          | intros ? ? _; apply commitPost_pre
          | intros ? _ Hw; apply commitPost_quiet, (commit_quiet _ Hw)
          | intros ? ]).
  apply always_mbind. unfold try at 1. cbn [always].
  intros [c0 | e]; [ | apply commitPost_quiet; reflexivity].
  apply always_mbind. eapply always_mono; [ | apply layerImageConfig_ret].
  intros t [c | e] [-> Hcfg]; [ | apply commitPost_quiet; reflexivity].
  apply always_mbind. unfold try at 1. cbn [always].
  intros [meta | e]; [ | apply commitPost_quiet; reflexivity].
  apply always_mbind. unfold call at 1. cbn [always]. intros created.
  apply always_mbind. unfold try at 1. cbn [always].
  intros [base | e]; [ | apply commitPost_quiet; reflexivity].
  assert (Hset : forall (pre : list Event) x,
             setArgs pre = [] ->
             commitPost' sf gitVersion author l
               ([Ev mutator_Config (Ok c0)] ++ [] ++ [Ev mutator_Meta (Ok meta)] ++
                [Ev time_Now created] ++ [Ev mutator_Annotations (Ok base)] ++ pre ++
                [Ev (mutator_Set c (mkMutateMeta created author GOARCH GOOS)
                       (annotate GitVersionAnnotation StackerContentsAnnotation sf gitVersion base)
                       (mkHistory true created "stacker build" author)) x])).
  { intros pre x Hpre c' m' a' hist' Hin. cbn [app] in Hin |- *.
    unfold setArgs, configs, nows, annotationAnswers in *.
    cbn [omap list_omap setArgsOf configOf nowOf annotationsOf] in Hin |- *.
    rewrite omap_app, Hpre in Hin. cbn in Hin. destruct Hin as [Heq | []].
    injection Heq as <- <- <- <-.
    exists c0, created, base. cbn. auto 10. }
  apply always_mbind.
  assert (Hnever : forall x : unit,
             never touchesCommit
               (try mutator_Commit ≫= fun newPath =>
                  check (oci_UpdateReference name (Root newPath));;
                  updateBundleMtree path_Join
                    (path_Join [RootFSDir (Config o); WorkingContainerName])
                    (PathDescriptor newPath);;
                  check (umoci_WriteBundleMeta
                           (path_Join [RootFSDir (Config o); WorkingContainerName])
                           (mkBundleMeta MetaVersion newPath)))).
  { intros _. unfold updateBundleMtree. nops. }
  destruct (negb (gitVersion =? "")) eqn:Hgit.
  - apply always_mbind. unfold fmt_Println, call. cbn [always]. intros [].
    unfold mret, M_ret. cbn [always].
    apply always_mbind. unfold check at 1. cbn [always].
    assert (Hann : <[GitVersionAnnotation:=gitVersion]> base
                   = annotate GitVersionAnnotation StackerContentsAnnotation sf gitVersion base)
      by (unfold annotate; rewrite Hgit; reflexivity).
    rewrite Hann.
    intros [e | ]; cbn [always].
    + apply (Hset [_] (Some e)). reflexivity.
    + eapply always_mono; [ | apply (opsAll_always _ _ (Hnever tt))].
      intros t3 r Hw.
      apply (commitPost_post sf gitVersion author l [_; _; _; _; _; _] t3); [ | exact Hw].
      apply (Hset [_] None). reflexivity.
  - unfold mret, M_ret. cbn [always].
    apply always_mbind. unfold check at 1. cbn [always].
    assert (Hann : <[StackerContentsAnnotation:=AfterSubstitutions sf]> base
                   = annotate GitVersionAnnotation StackerContentsAnnotation sf gitVersion base)
      by (unfold annotate; rewrite Hgit; reflexivity).
    rewrite Hann.
    intros [e | ]; cbn [always].
    + apply (Hset [] (Some e)). reflexivity.
    + eapply always_mono; [ | apply (opsAll_always _ _ (Hnever tt))].
      intros t3 r Hw.
      apply (commitPost_post sf gitVersion author l [_; _; _; _; _] t3); [ | exact Hw].
      apply (Hset [] None). reflexivity.
Qed.

Lemma buildLayer_commit (b : Builder) (sf : Stackerfile)
    (gitVersion author name : string) (l : Layer) :
  Get sf name = Some l ->
  always (buildLayer' b sf gitVersion author name)
         (fun t _ => commitPost' sf gitVersion author l t).
Proof.
  intros Hget.
  pose (P := fun (t : list Event) (_ : error) => commitPost' sf gitVersion author l t).
  assert (Hpre : forall t1 t err, without touchesCommit t1 -> P t err -> P (t1 ++ t) err)
    by (intros t1 t err; apply commitPost_pre).
  assert (Hquiet : forall t e, without touchesCommit t -> P t (Some e))
    by (intros t e Hw; apply commitPost_quiet, (commit_quiet _ Hw)).
  assert (Hpost : forall t t2 err, P t None -> without touchesCommit t2 -> P (t ++ t2) err)
    by (intros t t2 err; apply commitPost_post).
  assert (Hnever : forall (A : Type) (p : M A),
             never touchesCommit p -> always p (fun t r => P t (errOf r))).
  { intros A p Hp. eapply always_mono; [ | apply (opsAll_always _ p Hp)].
    intros t r Hw. apply commitPost_quiet, (commit_quiet _ Hw). }
  change (always (buildLayer' b sf gitVersion author name) (fun t r => P t (errOf r))).
  unfold buildLayer. rewrite Hget.
  change (mret l ≫= ?f) with (f l). cbv beta.
  repeat (apply (frame_pre touchesCommit P); [solve [nops] | exact Hpre | exact Hquiet | intros ?]).
  match goal with |- always (match ?x with _ => _ end) _ => destruct x as [cacheEntry | ] end.
  - apply Hnever. nops.
  - unfold buildLayerMiss. cbv zeta.
    repeat (apply (frame_pre touchesCommit P);
            [solve [nops] | exact Hpre | exact Hquiet | intros ?]).
    destruct (BuildOnly l).
    + apply Hnever. nops.
    + repeat (apply (frame_pre touchesCommit P);
              [solve [nops] | exact Hpre | exact Hquiet | intros ?]).
      apply (frame_post touchesCommit P); [ | intros ?; solve [nops] | exact Hpost].
      apply commitMetadata_commit.
Qed.

End Commit2.

(** *** The configuration of the image *)

Section ImageConfig.

Context (ReasonableDefaultPath : string).

Lemma layerImageConfig_command (l : Layer) (c0 c : ImageConfig) :
  layerImageConfig ReasonableDefaultPath l c0 = Ret (Ok c) ->
  match FullCommand l with
  | Some parsed => parsed = Ok (ConfigEntrypoint c) /\ ConfigCmd c = []
  | None =>
      match Cmd l with
      | Some parsed => parsed = Ok (ConfigCmd c)
      | None => ConfigCmd c = ConfigCmd c0
      end /\
      match Entrypoint l with
      | Some parsed => parsed = Ok (ConfigEntrypoint c)
      | None => ConfigEntrypoint c = ConfigEntrypoint c0
      end
  end.
Proof.
  unfold layerImageConfig. cbv zeta.
  destruct (Cmd l) as [[cmd | e] | ]; destruct (Entrypoint l) as [[ep | e'] | ];
    destruct (FullCommand l) as [[fc | e''] | ]; cbn; intros Heq;
    try discriminate Heq; injection Heq as <-; cbn; auto.
Qed.

Lemma foldl_volumes (vols : list string) (base : gset string) (v : string) :
  v ∈ foldl (fun vs v => {[ v ]} ∪ vs) base vols <-> In v vols \/ v ∈ base.
Proof.
  revert base. induction vols as [ | v0 rest IH]; intros base; cbn [foldl].
  - simpl. tauto.
  - rewrite IH. rewrite elem_of_union, elem_of_singleton. simpl. intuition congruence.
Qed.

Lemma foldl_labels (labels : list (string * string)) (base : gmap string string) :
  NoDup (map fst labels) ->
  (forall k v, In (k, v) labels ->
     foldl (fun ls kv => <[ kv.1 := kv.2 ]> ls) base labels !! k = Some v) /\
  (forall k, ~ In k (map fst labels) ->
     foldl (fun ls kv => <[ kv.1 := kv.2 ]> ls) base labels !! k = base !! k).
Proof.
  revert base. induction labels as [ | [k0 v0] rest IH]; intros base Hnd; cbn [foldl].
  - split; [intros k v [] | reflexivity].
  - cbn [map fst] in Hnd. apply NoDup_cons in Hnd. destruct Hnd as [Hk0 Hnd].
    destruct (IH (<[ k0 := v0 ]> base) Hnd) as [Hin Hout]. cbn [fst snd]. split.
    + intros k v [Heq | Hr]; [ | exact (Hin k v Hr)].
      injection Heq as <- <-. rewrite Hout; [apply lookup_insert_eq | ].
      intros Hin0. apply Hk0. apply list_elem_of_In. exact Hin0.
    + intros k Hk. rewrite Hout; [ | intros Hr; apply Hk; right; exact Hr].
      apply lookup_insert_ne. intros ->. apply Hk. left. reflexivity.
Qed.

Lemma layerImageConfig_merge (l : Layer) (c0 c : ImageConfig) :
  layerImageConfig ReasonableDefaultPath l c0 = Ret (Ok c) ->
  ConfigVolumes c = Some (foldl (fun vs v => {[ v ]} ∪ vs) (volumesOf c0) (Volumes l)) /\
  ConfigLabels c = Some (foldl (fun ls kv => <[ kv.1 := kv.2 ]> ls) (labelsOf c0) (Labels l)) /\
  ConfigWorkingDir c = (if String.eqb (WorkingDir l) "" then ConfigWorkingDir c0
                        else WorkingDir l).
Proof.
  unfold layerImageConfig, volumesOf, labelsOf. cbv zeta.
  destruct (Cmd l) as [[cmd | e] | ]; destruct (Entrypoint l) as [[ep | e'] | ];
    destruct (FullCommand l) as [[fc | e''] | ]; cbn; intros Heq;
    try discriminate Heq; injection Heq as <-; cbn;
    destruct (ConfigVolumes c0), (ConfigLabels c0), (String.eqb (WorkingDir l) "");
    cbn; auto.
Qed.

End ImageConfig.


(** *** The committed image *)

Section Committed.

Context (WorkingContainerName ReasonableDefaultPath : string).
Context (GitVersionAnnotation StackerContentsAnnotation MetaVersion : string).
Context (GOARCH GOOS : string).
Context (path_Join : list string -> string).

Local Abbreviation buildLayer' :=
  (buildLayer WorkingContainerName ReasonableDefaultPath GitVersionAnnotation
              StackerContentsAnnotation MetaVersion GOARCH GOOS path_Join).

(** [Build] (lines 500-521): the command of the committed image.  A full
    command of the layer replaces both: the image has no command and the
    full command as its entrypoint.  Without a full command, the command and
    the entrypoint are the layer's where it declares them, and those of the
    base image where it does not. *)
Theorem committed_command_and_entrypoint
    {W : Type} (h : Handler W) (b : Builder) (sf : Stackerfile)
    (gitVersion author name : string) (l : Layer) (w : W)
    (c : ImageConfig) (m : MutateMeta) (a : gmap string string) (hist : History) :
  let t := (runProg h (buildLayer' b sf gitVersion author name) w).2 in
  Get sf name = Some l ->
  In (c, m, a, hist) (setArgs t) ->
  exists c0,
    In c0 (configs t) /\
    match FullCommand l with
    | Some parsed => parsed = Ok (ConfigEntrypoint c) /\ ConfigCmd c = []
    | None =>
        match Cmd l with
        | Some parsed => parsed = Ok (ConfigCmd c)
        | None => ConfigCmd c = ConfigCmd c0
        end /\
        match Entrypoint l with
        | Some parsed => parsed = Ok (ConfigEntrypoint c)
        | None => ConfigEntrypoint c = ConfigEntrypoint c0
        end
    end.
Proof.
  intros t Hget Hin.
  destruct (always_run h _ _ w (buildLayer_commit _ _ _ _ _ _ _ _
                                  b sf gitVersion author name l Hget) c m a hist Hin)
    as (c0 & created & base & Hc0 & _ & _ & Hcfg & _).
  exists c0. split; [exact Hc0 | ].
  exact (layerImageConfig_command ReasonableDefaultPath l c0 c Hcfg).
Qed.

(** [Build] (lines 523-541): the volumes, labels and working directory of
    the committed image.  The volumes are those of the base image and those
    of the layer; a label of the layer overrides the label of the base image
    with the same key, the other labels of the base image are kept; neither
    map is nil afterwards; the working directory is the layer's unless it is
    empty. *)
Theorem committed_volumes_labels_and_working_directory
    {W : Type} (h : Handler W) (b : Builder) (sf : Stackerfile)
    (gitVersion author name : string) (l : Layer) (w : W)
    (c : ImageConfig) (m : MutateMeta) (a : gmap string string) (hist : History) :
  let t := (runProg h (buildLayer' b sf gitVersion author name) w).2 in
  Get sf name = Some l ->
  NoDup (map fst (Labels l)) ->
  In (c, m, a, hist) (setArgs t) ->
  exists c0,
    In c0 (configs t) /\
    ConfigVolumes c <> None /\ ConfigLabels c <> None /\
    (forall v, v ∈ volumesOf c <-> In v (Volumes l) \/ v ∈ volumesOf c0) /\
    (forall k v, In (k, v) (Labels l) -> labelsOf c !! k = Some v) /\
    (forall k, ~ In k (map fst (Labels l)) -> labelsOf c !! k = labelsOf c0 !! k) /\
    ConfigWorkingDir c = (if String.eqb (WorkingDir l) "" then ConfigWorkingDir c0
                          else WorkingDir l).
Proof.
  intros t Hget Hnd Hin.
  destruct (always_run h _ _ w (buildLayer_commit _ _ _ _ _ _ _ _
                                  b sf gitVersion author name l Hget) c m a hist Hin)
    as (c0 & created & base & Hc0 & _ & _ & Hcfg & _).
  exists c0. split; [exact Hc0 | ].
  destruct (layerImageConfig_merge ReasonableDefaultPath l c0 c Hcfg) as (Hv & Hl & Hw).
  destruct (foldl_labels (Labels l) (labelsOf c0) Hnd) as [Hin_l Hout_l].
  split; [rewrite Hv; discriminate | ]. split; [rewrite Hl; discriminate | ].
  assert (Hvc : volumesOf c = foldl (fun vs v => {[ v ]} ∪ vs) (volumesOf c0) (Volumes l))
    by (unfold volumesOf at 1; rewrite Hv; reflexivity).
  assert (Hlc : labelsOf c = foldl (fun ls kv => <[ kv.1 := kv.2 ]> ls) (labelsOf c0) (Labels l))
    by (unfold labelsOf at 1; rewrite Hl; reflexivity).
  rewrite Hvc, Hlc.
  split; [intros v; apply foldl_volumes | ].
  split; [exact Hin_l | ]. split; [exact Hout_l | exact Hw].
Qed.

(** [Build] (lines 543-571): the metadata of the committed image.  Its
    author is the author of the build and its architecture and operating
    system are those stacker runs on; the history entry is an empty layer
    created by [stacker build] by the same author; both carry the one time
    [time.Now] answered.  The annotations are those of the base image with
    one added: the git version when there is one, the contents of the
    stackerfile otherwise. *)
Theorem committed_metadata_and_annotations
    {W : Type} (h : Handler W) (b : Builder) (sf : Stackerfile)
    (gitVersion author name : string) (l : Layer) (w : W)
    (c : ImageConfig) (m : MutateMeta) (a : gmap string string) (hist : History) :
  let t := (runProg h (buildLayer' b sf gitVersion author name) w).2 in
  Get sf name = Some l ->
  In (c, m, a, hist) (setArgs t) ->
  exists created base,
    In created (nows t) /\ In base (annotationAnswers t) /\
    m = mkMutateMeta created author GOARCH GOOS /\
    hist = mkHistory true created "stacker build" author /\
    (gitVersion <> "" -> a = <[ GitVersionAnnotation := gitVersion ]> base) /\
    (gitVersion = "" -> a = <[ StackerContentsAnnotation := AfterSubstitutions sf ]> base).
Proof.
  intros t Hget Hin.
  destruct (always_run h _ _ w (buildLayer_commit _ _ _ _ _ _ _ _
                                  b sf gitVersion author name l Hget) c m a hist Hin)
    as (c0 & created & base & _ & Hnow & Hbase & _ & Hm & Hh & Ha).
  exists created, base. do 4 (split; [assumption | ]).
  unfold annotate in Ha. split.
  - intros Hne. apply String.eqb_neq in Hne. rewrite Hne in Ha. exact Ha.
  - intros ->. exact Ha.
Qed.

End Committed.

(** ** The calls of one part of a layer *)

Lemma selected_app (sel : forall X : Type, Op X -> bool) (t1 t2 : list Event) :
  selected sel (t1 ++ t2) = selected sel t1 ++ selected sel t2.
Proof. apply List.filter_app. Qed.

Lemma selected_without (sel : forall X : Type, Op X -> bool) (t : list Event) :
  without sel t -> selected sel t = [].
Proof.
  induction 1 as [ | [X op x] t He _ IH]; [reflexivity | ].
  unfold selected in *. cbn [List.filter]. rewrite He. exact IH.
Qed.

(** A projection that only sees selected calls sees the same in the
    selected calls as in the trace. *)
Lemma omap_selected {B : Type} (f : Event -> option B) (sel : forall X : Type, Op X -> bool)
    (t : list Event) :
  (forall X (op : Op X) x, sel X op = false -> f (Ev op x) = None) ->
  omap f (selected sel t) = omap f t.
Proof.
  intros Hf. induction t as [ | [X op x] t IH]; [reflexivity | ].
  unfold selected in *. cbn [List.filter omap list_omap].
  destruct (sel X op) eqn:Hs.
  - cbn [omap list_omap]. rewrite IH. reflexivity.
  - rewrite (Hf X op x Hs). exact IH.
Qed.

(** A property [Q] of the selected calls and the error passes through the
    parts of the program that make none of them. *)
Section Frames.

Context (sel : forall X : Type, Op X -> bool).
Context (Q : list Event -> error -> Prop).
Hypothesis Q_nil : forall err, Q [] err.
Hypothesis Q_mono : forall cs err, Q cs None -> Q cs err.

Lemma selected_never {A : Type} (p : M A) :
  never sel p -> always p (fun t r => Q (selected sel t) (errOf r)).
Proof.
  intros Hp. eapply always_mono; [ | apply (opsAll_always _ p Hp)].
  intros t r Hw. rewrite (selected_without sel t Hw). apply Q_nil.
Qed.

Lemma selected_pre {A B : Type} (m : M A) (f : A -> M B) :
  never sel m ->
  (forall a, always (f a) (fun t r => Q (selected sel t) (errOf r))) ->
  always (m ≫= f) (fun t r => Q (selected sel t) (errOf r)).
Proof.
  intros Hm Hf.
  apply (frame_pre sel (fun t err => Q (selected sel t) err)); [exact Hm | | | exact Hf].
  - intros t1 t err Hw HQ. rewrite selected_app, (selected_without sel t1 Hw). exact HQ.
  - intros t e Hw. rewrite (selected_without sel t Hw). apply Q_nil.
Qed.

Lemma selected_post {A B : Type} (m : M A) (f : A -> M B) :
  always m (fun t r => Q (selected sel t) (errOf r)) ->
  (forall a, never sel (f a)) ->
  always (m ≫= f) (fun t r => Q (selected sel t) (errOf r)).
Proof.
  intros Hm Hf.
  apply (frame_post sel (fun t err => Q (selected sel t) err)); [exact Hm | exact Hf | ].
  intros t t2 err HQ Hw. rewrite selected_app, (selected_without sel t2 Hw), app_nil_r.
  apply Q_mono. exact HQ.
Qed.

End Frames.

(** The way through a layer to the part [target] proves [Q] of: the parts in
    front and behind make no selected call. *)
Ltac frame_walk sel Q Hnil Hmono target :=
  repeat first
    [ apply (selected_never sel Q Hnil); solve [nops]
    | target
    | apply (selected_pre sel Q Hnil); [solve [nops] | intros ?]
    | apply (selected_post sel Q Hmono); [ | intros ?; solve [nops]]
    | match goal with
      | |- always (match ?x with _ => _ end) _ => destruct x eqn:?
      | |- always (let _ := _ in _) _ => cbv zeta
      | |- always ?p _ => let f := head_of p in progress unfold f
      end ].

Lemma chain_mono (ops : list (Op error)) (cs : list Event) (err : error) :
  chain ops cs None -> chain ops cs err.
Proof.
  revert cs. induction ops as [ | op ops IH]; intros cs; cbn [chain]; [auto | ].
  intros (x & cs' & -> & H). exists x, cs'. split; [reflexivity | ].
  destruct x as [e | ]; [destruct H as [_ H]; discriminate H | apply IH, H].
Qed.

Section Parts.

Context (WorkingContainerName ReasonableDefaultPath : string).
Context (GitVersionAnnotation StackerContentsAnnotation MetaVersion : string).
Context (GOARCH GOOS : string).
Context (path_Join : list string -> string).

Local Abbreviation buildLayer' :=
  (buildLayer WorkingContainerName ReasonableDefaultPath GitVersionAnnotation
              StackerContentsAnnotation MetaVersion GOARCH GOOS path_Join).
Local Abbreviation commandsPost' := (commandsPost path_Join WorkingContainerName).
Local Abbreviation basePost' := (basePost WorkingContainerName).

(** *** The commands *)

Lemma commandsPost_nil (o : BuildArgs) (name : string) (l : Layer) (err : error) :
  commandsPost' o name l [] err.
Proof. left. reflexivity. Qed.

Lemma commandsPost_mono (o : BuildArgs) (name : string) (l : Layer)
    (cs : list Event) (err : error) :
  commandsPost' o name l cs None -> commandsPost' o name l cs err.
Proof.
  intros [H | [(e & _ & H) | (run & Hrun & Hne & [(e & _ & H) | (x & Hcs & Hx)])]];
    try discriminate H.
  - left. exact H.
  - right. right. exists run. split; [exact Hrun | ]. split; [exact Hne | ].
    right. exists x. split; [exact Hcs | ].
    intros e He. specialize (Hx e He). discriminate Hx.
Qed.

Lemma runCommands_commands (o : BuildArgs) (name : string) (l : Layer) :
  always (runCommands WorkingContainerName path_Join o name l)
         (fun t r => commandsPost' o name l (selected isCommandCall t) (errOf r)).
Proof.
  unfold runCommands, fmt_Println, call, check, pure, throw.
  destruct (ParseRun l) as [run | e] eqn:Hrun; cbn; intros _;
    [ | left; reflexivity].
  destruct run as [ | c run]; cbn; [left; reflexivity | ].
  intros [e | ]; cbn.
  - right. left. exists e. split; reflexivity.
  - intros [e | ]; cbn.
    + right. right. exists (c :: run). split; [exact Hrun | ]. split; [discriminate | ].
      left. exists e. split; reflexivity.
    + intros _ x.
      assert (Hx : forall r : result unit,
                 (forall e, x = Some e -> errOf r = Some e) ->
                 commandsPost' o name l
                   [Ev (os_Stat (shellPath path_Join WorkingContainerName o)) None;
                    Ev (ioutil_WriteFile (runScriptPath path_Join o name)
                                         (runScript (c :: run)) 493) None;
                    Ev (Run (Config o) name "/stacker/.stacker-run.sh" l (OnRunFailure o)) x]
                   (errOf r)).
      { intros r Hr. right. right. exists (c :: run).
        split; [exact Hrun | ]. split; [discriminate | ].
        right. exists x. split; [reflexivity | exact Hr]. }
      destruct x as [e | ]; cbn [always]; apply Hx.
      * intros e' [= <-]. reflexivity.
      * discriminate.
Qed.

Lemma buildLayer_commands (b : Builder) (sf : Stackerfile)
    (gitVersion author name : string) (l : Layer) :
  Get sf name = Some l ->
  always (buildLayer' b sf gitVersion author name)
         (fun t r => commandsPost' (opts b) name l (selected isCommandCall t) (errOf r)).
Proof.
  intros Hget. unfold buildLayer. rewrite Hget.
  change (mret l ≫= ?f) with (f l). cbv beta zeta.
  frame_walk isCommandCall (commandsPost' (opts b) name l)
             (commandsPost_nil (opts b) name l) (commandsPost_mono (opts b) name l)
             ltac:(apply runCommands_commands).
Qed.

(** *** The base *)

Lemma basePost_nil (b : Builder) (name : string) (l : Layer) (err : error) :
  basePost' b name l [] err.
Proof. left. reflexivity. Qed.

Lemma basePost_mono (b : Builder) (name : string) (l : Layer) (cs : list Event) (err : error) :
  basePost' b name l cs None -> basePost' b name l cs err.
Proof. intros [H | H]; [left; exact H | right; apply chain_mono, H]. Qed.

Lemma materializeBase_base (b : Builder) (name : string) (l : Layer) :
  always (materializeBase WorkingContainerName b name l)
         (fun t r => basePost' b name l (selected isBaseCall t) (errOf r)).
Proof.
  unfold materializeBase, basePost, baseCalls, startContainer, call, check. cbv zeta.
  cbn. intros _.
  destruct (Type_ (From_ l)); cbn;
    (intros [e | ]; cbn;
     [ right; eexists _, _; split; [reflexivity | split; reflexivity] | ];
     intros [e | ]; cbn;
     [ right; eexists _, _; split; [reflexivity | ];
       eexists _, _; split; [reflexivity | split; reflexivity] | ];
     intros [e | ]; cbn;
     [ right; eexists _, _; split; [reflexivity | ];
       eexists _, _; split; [reflexivity | ];
       eexists _, _; split; [reflexivity | split; reflexivity] | ];
     intros [e | ]; cbn;
     right; eexists _, _; (split; [reflexivity | ]);
       eexists _, _; (split; [reflexivity | ]);
       eexists _, _; (split; [reflexivity | ]);
       eexists _, _; (split; [reflexivity | ]);
       try split; reflexivity).
Qed.

Lemma buildLayer_base (b : Builder) (sf : Stackerfile)
    (gitVersion author name : string) (l : Layer) :
  Get sf name = Some l ->
  always (buildLayer' b sf gitVersion author name)
         (fun t r => basePost' b name l (selected isBaseCall t) (errOf r)).
Proof.
  intros Hget. unfold buildLayer. rewrite Hget.
  change (mret l ≫= ?f) with (f l). cbv beta zeta.
  frame_walk isBaseCall (basePost' b name l)
             (basePost_nil b name l) (basePost_mono b name l)
             ltac:(apply materializeBase_base).
Qed.

(** Reading the calls of the commands and of the base off a trace. *)
Lemma command_calls (t : list Event) :
  stats t = stats (selected isCommandCall t) /\
  writes t = writes (selected isCommandCall t) /\
  runCalls t = runCalls (selected isCommandCall t).
Proof.
  unfold stats, writes, runCalls.
  repeat split; symmetry; apply omap_selected;
    intros X op x Hs; destruct op; try reflexivity; discriminate Hs.
Qed.

Lemma base_calls (t : list Event) :
  restores t = restores (selected isBaseCall t) /\
  creates t = creates (selected isBaseCall t) /\
  baseLayers t = baseLayers (selected isBaseCall t).
Proof.
  unfold restores, creates, baseLayers.
  repeat split; symmetry; apply omap_selected;
    intros X op x Hs; destruct op; try reflexivity; discriminate Hs.
Qed.

(** [Build] (lines 396-420): the commands of a layer run from the script
    written for them.  When [Run] is called, the layer has commands, the
    working container was found to have a [/bin/sh], and the commands were
    written, joined by newlines under [#!/bin/sh -xe], to
    [.stacker-run.sh] in the imports of the layer with mode 0755; [Run] is
    called once, for this layer, with [/stacker/.stacker-run.sh]. *)
Theorem layer_commands_run_from_the_written_script
    {W : Type} (h : Handler W) (b : Builder) (sf : Stackerfile)
    (gitVersion author name : string) (l : Layer) (w : W)
    (config : StackerConfig) (n command : string) (l' : Layer) (onFailure : string)
    (x : error) :
  let t := (runProg h (buildLayer' b sf gitVersion author name) w).2 in
  Get sf name = Some l ->
  In (config, n, command, l', onFailure, x) (runCalls t) ->
  exists run,
    ParseRun l = Ok run /\ run <> [] /\
    stats t = [(shellPath path_Join WorkingContainerName (opts b), None)] /\
    writes t = [(runScriptPath path_Join (opts b) name, runScript run, 493%Z, None)] /\
    runCalls t = [(Config (opts b), name, "/stacker/.stacker-run.sh", l,
                   OnRunFailure (opts b), x)].
Proof.
  intros t Hget Hin.
  pose proof (always_run h _ _ w (buildLayer_commands b sf gitVersion author name l Hget))
    as Hpost.
  cbv beta in Hpost. fold t in Hpost.
  destruct (command_calls t) as (Hs & Hw & Hr). rewrite Hs, Hw, Hr. rewrite Hr in Hin.
  destruct Hpost as [Hcs | [(e & Hcs & _) | (run & Hrun & Hne & [(e & Hcs & _) | (y & Hcs & _)])]];
    rewrite Hcs in Hin |- *; cbn in Hin; try contradiction.
  destruct Hin as [[= <- <- <- <- <- <-] | []].
  exists run. repeat split; assumption.
Qed.

(** [Build] (lines 403-406): a layer with commands whose working container
    has no [/bin/sh] fails before anything is written or run, with an error
    that names the layer. *)
Theorem layer_without_a_shell_runs_nothing
    {W : Type} (h : Handler W) (b : Builder) (sf : Stackerfile)
    (gitVersion author name : string) (l : Layer) (w : W) (p : string) (e : GoError) :
  let run := runProg h (buildLayer' b sf gitVersion author name) w in
  Get sf name = Some l ->
  In (p, Some e) (stats run.2) ->
  run.1.1 = Err (Errorf ("rootfs for " +:+ name +:+ " does not have a /bin/sh")) /\
  p = shellPath path_Join WorkingContainerName (opts b) /\
  writes run.2 = [] /\ runCalls run.2 = [].
Proof.
  intros run Hget Hin.
  pose proof (always_run h _ _ w (buildLayer_commands b sf gitVersion author name l Hget))
    as Hpost.
  cbv beta in Hpost. fold run in Hpost.
  destruct (command_calls run.2) as (Hs & Hw & Hr). rewrite Hw, Hr. rewrite Hs in Hin.
  destruct Hpost as [Hcs | [(e' & Hcs & He) | (cmds & Hrun & Hne & [(e' & Hcs & _) | (y & Hcs & _)])]];
    rewrite Hcs in Hin |- *; cbn in Hin;
    repeat match goal with
           | H : _ \/ _ |- _ => destruct H as [H | H]
           | H : False |- _ => destruct H
           | H : (_, _) = (_, _) |- _ => try discriminate H; injection H as <- <-
           end.
  destruct (run.1.1) as [[] | e0]; [discriminate He | ].
  injection He as ->. repeat split; reflexivity.
Qed.

(** [Build] (lines 359-383): the base layer is fetched into a working
    container made for it.  When [GetBaseLayer] is called, the working
    container has just been restored from the snapshot of the layer this one
    is built from, if it is built from a layer, and created empty otherwise;
    the call is given the options of this layer and the stackerfiles built so
    far. *)
Theorem base_layer_is_fetched_into_a_new_working_container
    {W : Type} (h : Handler W) (b : Builder) (sf : Stackerfile)
    (gitVersion author name : string) (l : Layer) (w : W)
    (o : BaseLayerOpts) (sfm : gmap string Stackerfile) (x : error) :
  let t := (runProg h (buildLayer' b sf gitVersion author name) w).2 in
  Get sf name = Some l ->
  In (o, sfm, x) (baseLayers t) ->
  o = baseOptsOf WorkingContainerName b name l /\
  sfm = builtStackerfiles b /\
  baseLayers t = [(o, sfm, x)] /\
  match Type_ (From_ l) with
  | BuiltType => restores t = [(Tag (From_ l), WorkingContainerName, None)] /\ creates t = []
  | _ => creates t = [(WorkingContainerName, None)] /\ restores t = []
  end.
Proof.
  intros t Hget Hin.
  pose proof (always_run h _ _ w (buildLayer_base b sf gitVersion author name l Hget))
    as Hpost.
  cbv beta in Hpost. fold t in Hpost.
  destruct (base_calls t) as (Hr & Hc & Hb). rewrite Hr, Hc, Hb. rewrite Hb in Hin.
  destruct Hpost as [Hcs | Hchain]; [rewrite Hcs in Hin; destruct Hin | ].
  unfold baseCalls in Hchain. cbn [chain] in Hchain.
  destruct Hchain as (x1 & cs1 & Hcs & H1). rewrite Hcs in Hin |- *. clear Hcs.
  assert (Hstart : forall y cs,
             baseLayers (Ev (startContainer WorkingContainerName l) y :: cs) = baseLayers cs /\
             match Type_ (From_ l) with
             | BuiltType =>
                 restores (Ev (startContainer WorkingContainerName l) y :: cs)
                 = (Tag (From_ l), WorkingContainerName, y) :: restores cs /\
                 creates (Ev (startContainer WorkingContainerName l) y :: cs) = creates cs
             | _ =>
                 creates (Ev (startContainer WorkingContainerName l) y :: cs)
                 = (WorkingContainerName, y) :: creates cs /\
                 restores (Ev (startContainer WorkingContainerName l) y :: cs) = restores cs
             end).
  { intros y cs. unfold startContainer.
    destruct (Type_ (From_ l)); repeat split; reflexivity. }
  destruct (Hstart x1 cs1) as [Hb1 Hty]. rewrite Hb1 in Hin |- *.
  destruct x1 as [e1 | ]; [destruct H1 as [-> _]; destruct Hin | ].
  destruct H1 as (x2 & cs2 & -> & H2).
  assert (Hrest : baseLayers cs2 = [] /\ restores cs2 = [] /\ creates cs2 = []).
  { destruct x2 as [e2 | ]; [destruct H2 as [-> _]; repeat split; reflexivity | ].
    destruct H2 as (x3 & cs3 & -> & H3).
    destruct x3 as [e3 | ]; [destruct H3 as [-> _]; repeat split; reflexivity | ].
    destruct H3 as (x4 & cs4 & -> & H4).
    destruct x4 as [e4 | ]; [destruct H4 as [-> _] | rewrite H4]; repeat split; reflexivity. }
  destruct Hrest as (Hb2 & Hr2 & Hc2).
  change (baseLayers (Ev (GetBaseLayer (baseOptsOf WorkingContainerName b name l)
                                       (builtStackerfiles b)) x2 :: cs2))
    with ((baseOptsOf WorkingContainerName b name l, builtStackerfiles b, x2) :: baseLayers cs2)
    in Hin |- *.
  assert (Hr3 : forall y, restores (Ev (GetBaseLayer (baseOptsOf WorkingContainerName b name l)
                                          (builtStackerfiles b)) y :: cs2) = [])
    by (intros y; exact Hr2).
  assert (Hc3 : forall y, creates (Ev (GetBaseLayer (baseOptsOf WorkingContainerName b name l)
                                         (builtStackerfiles b)) y :: cs2) = [])
    by (intros y; exact Hc2).
  rewrite Hb2 in Hin |- *. destruct Hin as [[= <- <- <-] | []].
  split; [reflexivity | ]. split; [reflexivity | ]. split; [reflexivity | ].
  destruct (Type_ (From_ l)); destruct Hty as [Ha Hb']; rewrite Ha, Hb', ?Hr3, ?Hc3;
    split; reflexivity.
Qed.

End Parts.

(** ** [SaveLayer] *)

Lemma copies_app (t1 t2 : list Event) : copies (t1 ++ t2) = copies t1 ++ copies t2.
Proof. apply omap_app. Qed.

Lemma failedCopyPost_nil (r : result unit) : failedCopyPost [] r.
Proof. intros c e []. Qed.

(** The loop over the tags: the copies are those of the tags, in their
    order, up to the first that fails or has no destination. *)
Lemma saveTags_always (o : BuildArgs) (sf : Stackerfile) (name : string)
    (isrc : ImageSource) (tags : list string) :
  always (saveTags o sf name isrc tags) (saveTagsPost o sf name (Type_ isrc) tags).
Proof.
  induction tags as [ | tag rest IH]; cbn [saveTags].
  - cbn. split; [reflexivity | ]. split; [apply failedCopyPost_nil | split; reflexivity].
  - assert (Hstop : forall e, saveTagsPost o sf name (Type_ isrc) (tag :: rest) [] (Err e)).
    { intros e. split; [discriminate | ].
      split; [apply failedCopyPost_nil | split; reflexivity]. }
    assert (Hcopy : forall dest,
               saveDestUrl sf name (Type_ isrc) tag = Some dest ->
               always (call (fmt_Printf ("saving " +:+ dest +:+ nl));;
                       check (lib_ImageCopy ("oci:" +:+ OCIDir (Config o) +:+ ":" +:+ name)
                                            dest true);;
                       saveTags o sf name isrc rest)
                      (saveTagsPost o sf name (Type_ isrc) (tag :: rest))).
    { intros dest Hdest. unfold call, check. cbn [mbind M_bind pbind always].
      intros u [e | ]; cbn [pbind always].
      - split; [discriminate | ]. split; [ | split; reflexivity].
        intros c e' [<- | []] [= <-]. split; [reflexivity | ].
        exists []. split; [reflexivity | constructor].
      - eapply always_mono; [ | exact IH].
        intros t r (Hok & Hfail & Hsrc & Htag). split; [ | split; [ | split; assumption]].
        + intros Hr. cbn [map]. unfold expectedCopy at 1. rewrite Hdest.
          change (copies (?a :: ?b :: t)) with ((("oci:" +:+ OCIDir (Config o) +:+ ":" +:+ name,
                                                  dest, true, None) : string * string * bool * error)
                                                :: copies t).
          cbn [map]. rewrite (Hok Hr). reflexivity.
        + intros c e Hin Hc.
          change (copies (?a :: ?b :: t)) with ((("oci:" +:+ OCIDir (Config o) +:+ ":" +:+ name,
                                                  dest, true, None) : string * string * bool * error)
                                                :: copies t) in Hin |- *.
          destruct Hin as [<- | Hin]; [discriminate Hc | ].
          destruct (Hfail c e Hin Hc) as (Hr & cs & Hcs & Hall).
          split; [exact Hr | ]. eexists (_ :: cs). rewrite Hcs.
          split; [reflexivity | ]. apply List.Forall_cons; [reflexivity | exact Hall]. }
    unfold saveDestUrl in Hcopy.
    destruct (Type_ isrc); cbn [mbind M_bind pbind mret M_ret throw always];
      first [apply Hstop | apply (Hcopy _ eq_refl)].
Qed.

Lemma SaveLayer_save (o : BuildArgs) (sf : Stackerfile) (name : string) :
  always (SaveLayer o sf name) (savePost o sf name).
Proof.
  unfold SaveLayer.
  destruct (Nat.eqb (String.length (SaveUrl sf)) 0).
  { cbn. split; [discriminate | apply failedCopyPost_nil]. }
  unfold try, call. cbn [mbind M_bind pbind always].
  intros [isrc | e]; cbn [pbind always];
    [ | split; [discriminate | intros c e' []] ].
  intros gitTag. cbn [pbind].
  assert (Hloop : always (saveTags o sf name isrc (saveTagsOf o gitTag))
                    (fun t r =>
                       forall pre, copies pre = [] -> imageSources pre = [] -> gitTags pre = [] ->
                         savePost o sf name
                           (Ev (NewImageSource (SaveUrl sf)) (Ok isrc)
                            :: Ev (NewGitLayerTag (referenceDirectory sf)) gitTag :: pre ++ t) r)).
  { eapply always_mono; [ | apply saveTags_always].
    intros t r (Hok & Hfail & Hsrc & Htag) pre Hc Hs Hg.
    assert (Hcopies : copies (Ev (NewImageSource (SaveUrl sf)) (Ok isrc)
                              :: Ev (NewGitLayerTag (referenceDirectory sf)) gitTag :: pre ++ t)
                      = copies t).
    { change (copies (?a :: ?b :: pre ++ t)) with (copies (pre ++ t)).
      rewrite copies_app, Hc. reflexivity. }
    split.
    - intros Hr. exists isrc, gitTag. rewrite Hcopies.
      unfold imageSources, gitTags in *.
      cbn [omap list_omap imageSourceOf gitTagOf]. rewrite !omap_app, Hs, Hg, Hsrc, Htag.
      repeat split. exact (Hok Hr).
    - intros c e. rewrite Hcopies. apply Hfail. }
  assert (Htags : match gitTag with
                  | Ok commitTag => RemoteSaveTags o ++ [commitTag]
                  | Err _ => RemoteSaveTags o
                  end = saveTagsOf o gitTag)
    by (unfold saveTagsOf; destruct gitTag; [reflexivity | symmetry; apply app_nil_r]).
  rewrite !Htags.
  destruct (Nat.eqb (length (saveTagsOf o gitTag)) 0);
    cbn [mbind M_bind pbind mret M_ret always].
  - intros u. eapply always_mono; [ | exact Hloop].
    intros t r H. apply (H [Ev (fmt_Printf _) u]); reflexivity.
  - eapply always_mono; [ | exact Hloop].
    intros t r H. apply (H []); reflexivity.
Qed.

(** [SaveLayer] (lines 175-224): a save that succeeds has copied the layer
    once for every tag, in order: the remote save tags first, then the tag
    of the git commit if [NewGitLayerTag] gave one.  Every copy reads the
    layer from the OCI layout, skips TLS verification, and goes to the
    destination of its tag: [url/name:tag] for a docker destination (the
    URL without trailing slashes), [url:name_tag] for an OCI layout. *)
Theorem SaveLayer_copies_the_layer_under_every_tag
    {W : Type} (h : Handler W) (o : BuildArgs) (sf : Stackerfile) (name : string) (w : W) :
  let run := runProg h (SaveLayer o sf name) w in
  run.1.1 = Ok tt ->
  exists isrc gitTag,
    imageSources run.2 = [(SaveUrl sf, Ok isrc)] /\
    gitTags run.2 = [(referenceDirectory sf, gitTag)] /\
    map Some (copies run.2) = map (expectedCopy o sf name (Type_ isrc)) (saveTagsOf o gitTag).
Proof.
  intros run Hr.
  exact (proj1 (always_run h _ _ w (SaveLayer_save o sf name)) Hr).
Qed.

(** [SaveLayer] (lines 211-221): the first copy that fails ends the save.
    The copies before it went through, none follows, and its error is the
    error of the save. *)
Theorem SaveLayer_stops_at_the_first_failed_copy
    {W : Type} (h : Handler W) (o : BuildArgs) (sf : Stackerfile) (name : string) (w : W)
    (src dest : string) (skipTLS : bool) (e : GoError) :
  let run := runProg h (SaveLayer o sf name) w in
  In (src, dest, skipTLS, Some e) (copies run.2) ->
  run.1.1 = Err e /\
  exists cs, copies run.2 = cs ++ [(src, dest, skipTLS, Some e)] /\
             Forall (fun c => c.2 = None) cs.
Proof.
  intros run Hin.
  exact (proj2 (always_run h _ _ w (SaveLayer_save o sf name)) _ e Hin eq_refl).
Qed.

(** *** The save of a layer *)

(** A projection is empty on the traces of a program that makes none of
    the calls it sees. *)
Lemma never_omap {A B : Type} (sel : forall X : Type, Op X -> bool) (f : Event -> option B)
    (p : Prog A) :
  (forall X (op : Op X) x, sel X op = false -> f (Ev op x) = None) ->
  never sel p -> always p (fun t _ => omap f t = []).
Proof.
  intros Hf Hp. eapply always_mono; [ | apply (opsAll_always _ p Hp)].
  intros t r Hw. exact (omap_without f sel t Hf Hw).
Qed.

Lemma copyOf_sel (X : Type) (op : Op X) (x : X) : isCopy X op = false -> copyOf (Ev op x) = None.
Proof. intros Hs. destruct op; try reflexivity; discriminate Hs. Qed.

Lemma lookupOf_sel (X : Type) (op : Op X) (x : X) :
  isLookupOrPut X op = false -> lookupOf (Ev op x) = None.
Proof. intros Hs. destruct op; try reflexivity; discriminate Hs. Qed.

Lemma putOf_sel (X : Type) (op : Op X) (x : X) :
  isLookupOrPut X op = false -> putOf (Ev op x) = None.
Proof. intros Hs. destruct op; try reflexivity; discriminate Hs. Qed.

Lemma cache_calls (t : list Event) :
  copies (selected isCacheOrCopy t) = copies t /\
  lookups (selected isCacheOrCopy t) = lookups t /\
  puts (selected isCacheOrCopy t) = puts t.
Proof.
  unfold copies, lookups, puts.
  repeat split; apply omap_selected;
    intros X op x Hs; destruct op; try reflexivity; discriminate Hs.
Qed.

Lemma length_zero (s : string) : Nat.eqb (String.length s) 0 = false -> s <> "".
Proof. intros H ->. discriminate H. Qed.

Section Saved.

Context (WorkingContainerName ReasonableDefaultPath : string).
Context (GitVersionAnnotation StackerContentsAnnotation MetaVersion : string).
Context (GOARCH GOOS : string).
Context (path_Join : list string -> string).

Local Abbreviation buildLayer' :=
  (buildLayer WorkingContainerName ReasonableDefaultPath GitVersionAnnotation
              StackerContentsAnnotation MetaVersion GOARCH GOOS path_Join).
Local Abbreviation buildLayerMiss' :=
  (buildLayerMiss WorkingContainerName ReasonableDefaultPath GitVersionAnnotation
              StackerContentsAnnotation MetaVersion GOARCH GOOS path_Join).

Lemma buildLayerHit_saved (o : BuildArgs) (sf : Stackerfile) (name : string)
    (l : Layer) (entry : CacheEntry) :
  always (buildLayerHit o sf name l entry)
         (fun t r => afterHit sf (selected isCacheOrCopy t)).
Proof.
  destruct (Nat.eqb (String.length (SaveUrl sf)) 0) eqn:Hurl.
  - eapply always_mono; [ | apply (never_omap isCopy copyOf _ copyOf_sel)].
    + intros t r Hc. left. rewrite (proj1 (cache_calls t)). exact Hc.
    + unfold buildLayerHit. rewrite Hurl. cbn [negb]. nops.
  - assert (Hnever : never isLookupOrPut (buildLayerHit o sf name l entry)) by nops.
    pose proof (never_omap isLookupOrPut lookupOf _ lookupOf_sel Hnever) as Hl.
    pose proof (never_omap isLookupOrPut putOf _ putOf_sel Hnever) as Hp.
    apply always_traceOf. intros t r Ht.
    right. destruct (cache_calls t) as (_ & -> & ->).
    split; [apply length_zero, Hurl | ].
    split; [exact (traceOf_always _ _ t r Hl Ht) | exact (traceOf_always _ _ t r Hp Ht)].
Qed.

Lemma snapshotAndCache_saved (o : BuildArgs) (sf : Stackerfile) (name : string) (l : Layer) :
  BuildOnly l = false ->
  always (snapshotAndCache WorkingContainerName o sf name)
         (fun t r => afterMiss sf name l (selected isCacheOrCopy t)).
Proof.
  intros Hbo. unfold snapshotAndCache.
  repeat (apply (selected_pre isCacheOrCopy (fun cs _ => afterMiss sf name l cs));
          [intros _; left; reflexivity | solve [nops] | intros ?]).
  unfold check at 1. cbn [mbind M_bind pbind always].
  intros [e | ]; cbn [pbind always]; [left; reflexivity | ].
  destruct (Nat.eqb (String.length (SaveUrl sf)) 0) eqn:Hurl; cbn [negb].
  - cbn. left. reflexivity.
  - assert (Hnever : never isLookupOrPut (SaveLayer o sf name)) by nops.
    pose proof (never_omap isLookupOrPut lookupOf _ lookupOf_sel Hnever) as Hl.
    pose proof (never_omap isLookupOrPut putOf _ putOf_sel Hnever) as Hp.
    apply always_traceOf. intros t r Ht.
    right.
    match goal with
    | |- context [Ev (buildCache_Put name ?d) None :: t] =>
        destruct (cache_calls (Ev (buildCache_Put name d) None :: t)) as (_ & -> & ->)
    end.
    split; [apply length_zero, Hurl | ]. split; [exact Hbo | ].
    change (lookups (?e :: t)) with (lookups t).
    change (puts (Ev (buildCache_Put name ?d) None :: t)) with ((name, d, @None GoError) :: puts t).
    unfold lookups, puts.
    rewrite (traceOf_always _ _ t r Hl Ht), (traceOf_always _ _ t r Hp Ht).
    split; [reflexivity | eexists; reflexivity].
Qed.

Lemma buildLayerMiss_saved (b : Builder) (sf : Stackerfile)
    (gitVersion author name : string) (l : Layer) :
  always (buildLayerMiss' b sf gitVersion author name l)
         (fun t r => afterMiss sf name l (selected isCacheOrCopy t)).
Proof.
  unfold buildLayerMiss. cbv zeta.
  destruct (BuildOnly l) eqn:Hbo.
  - eapply always_mono; [ | apply (never_omap isCopy copyOf _ copyOf_sel)].
    + intros t r Hc. left. rewrite (proj1 (cache_calls t)). exact Hc.
    + nops.
  - do 4 (apply (selected_pre isCacheOrCopy (fun cs _ => afterMiss sf name l cs));
          [intros _; left; reflexivity | solve [nops] | intros ?]).
    apply snapshotAndCache_saved. exact Hbo.
Qed.

Lemma buildLayer_saved (b : Builder) (sf : Stackerfile)
    (gitVersion author name : string) (l : Layer) :
  Get sf name = Some l ->
  always (buildLayer' b sf gitVersion author name)
         (fun t r => cachedPost sf name l (selected isCacheOrCopy t)).
Proof.
  intros Hget. unfold buildLayer. rewrite Hget.
  change (mret l ≫= ?f) with (f l). cbv beta zeta.
  repeat (apply (selected_pre isCacheOrCopy (fun cs _ => cachedPost sf name l cs));
          [intros _; left; reflexivity | solve [nops] | intros ?]).
  unfold call at 1. cbn [mbind M_bind pbind always].
  intros [entry | ]; cbn [pbind].
  - eapply always_mono; [ | apply buildLayerHit_saved].
    intros t r [Hc | (Hurl & Hl & Hp)]; [left; exact Hc | right].
    split; [exact Hurl | ]. left. exists entry.
    change (selected isCacheOrCopy (Ev (buildCache_Lookup name) (Some entry) :: t))
      with (Ev (buildCache_Lookup name) (Some entry) :: selected isCacheOrCopy t).
    change (lookups (Ev (buildCache_Lookup name) ?x :: ?cs)) with ((name, x) :: lookups cs).
    change (puts (Ev (buildCache_Lookup name) ?x :: ?cs)) with (puts cs).
    rewrite Hl, Hp. split; reflexivity.
  - eapply always_mono; [ | apply buildLayerMiss_saved].
    intros t r [Hc | (Hurl & Hbo & Hl & d & Hp)]; [left; exact Hc | right].
    split; [exact Hurl | ]. right.
    change (selected isCacheOrCopy (Ev (buildCache_Lookup name) None :: t))
      with (Ev (buildCache_Lookup name) None :: selected isCacheOrCopy t).
    change (lookups (Ev (buildCache_Lookup name) ?x :: ?cs)) with ((name, x) :: lookups cs).
    change (puts (Ev (buildCache_Lookup name) ?x :: ?cs)) with (puts cs).
    rewrite Hl, Hp. split; [exact Hbo | ]. split; [reflexivity | eexists; reflexivity].
Qed.

(** [Build] (lines 331-357 and 600-623): a layer is copied out only once it
    is in the cache.  When a copy is made for a layer, the stackerfile has a
    save URL, and either the layer was found in the cache, or it is not a
    build-only layer and was put into the cache just before, successfully.
    So a layer that fails to build is never saved, and a build-only layer is
    saved only when it comes from the cache. *)
Theorem layer_is_saved_only_once_it_is_cached
    {W : Type} (h : Handler W) (b : Builder) (sf : Stackerfile)
    (gitVersion author name : string) (l : Layer) (w : W)
    (c : string * string * bool * error) :
  let t := (runProg h (buildLayer' b sf gitVersion author name) w).2 in
  Get sf name = Some l ->
  In c (copies t) ->
  SaveUrl sf <> "" /\
  ((exists entry, lookups t = [(name, Some entry)] /\ puts t = []) \/
   (BuildOnly l = false /\ lookups t = [(name, None)] /\
    exists d, puts t = [(name, d, None)])).
Proof.
  intros t Hget Hin.
  pose proof (always_run h _ _ w (buildLayer_saved b sf gitVersion author name l Hget))
    as Hpost.
  cbv beta in Hpost. fold t in Hpost. unfold cachedPost in Hpost.
  destruct (cache_calls t) as (Hc & Hl & Hp). rewrite Hc, Hl, Hp in Hpost.
  destruct Hpost as [Hnone | Hpost]; [rewrite Hnone in Hin; destruct Hin | exact Hpost].
Qed.

End Saved.

(** ** The theorems at concrete inputs *)

Lemma run_eta {A W : Type} (x : A * W * list Event) : x = (x.1.1, x.1.2, x.2).
Proof. destruct x as [[a w] t]. reflexivity. Qed.

(** The example of the specification: base {a: 1, b: 2}, built
    {a: 1, b: 3, c: 4}; the tool gets b and c to include and a to exclude. *)
Lemma C2_witness :
  In exDiffsMinimal (compared (runProg (model noFaults) exSquashfs wMinimal).2) /\
  In exPathsMinimal (packaged (runProg (model noFaults) exSquashfs wMinimal).2) /\
  map fst (include exPathsMinimal) = ["/roots/.working/rootfs/b"; "/roots/.working/rootfs/c"] /\
  exclude exPathsMinimal = ["/roots/.working/rootfs/a"] /\
  include exPathsMinimal =
    map (fun d => (joinSlash [exRootfs; Path d], includeAsDir d)) (List.filter changed exDiffsMinimal) /\
  exclude exPathsMinimal =
    map (fun d => joinSlash [exRootfs; Path d]) (List.filter isSame exDiffsMinimal).
Proof.
  assert (H1 : In exDiffsMinimal (compared (runProg (model noFaults) exSquashfs wMinimal).2))
    by (vm_compute; left; reflexivity).
  assert (H2 : In exPathsMinimal (packaged (runProg (model noFaults) exSquashfs wMinimal).2))
    by (vm_compute; left; reflexivity).
  split; [exact H1 | ]. split; [exact H2 | ].
  split; [reflexivity | ]. split; [reflexivity | ].
  pose proof (C2_payload_is_the_changed_paths joinSlash working (model noFaults)
                "layer" "me@host" (exArgs "squashfs") wMinimal _ _ _ _ _
                (run_eta _) H1 H2) as H.
  split; [exact (proj1 H) | exact (proj1 (proj2 H))].
Defined.


(** The same tree where [unix.Mknod] is not permitted: EPERM is fatal. *)
Lemma C6_witness :
  In ("/roots/.working/rootfs/d", S_IFCHR, Mkdev 0 0, Some (Errno EPERM))
     (mknods (runProg (model faultsMknodEPERM) exSquashfs wDeleted).2) /\
  (Errno EPERM <> Errno ENOENT /\ Errno EPERM <> Errno ENOTDIR) /\
  packaged (runProg (model faultsMknodEPERM) exSquashfs wDeleted).2 = [] /\
  exists d, "/roots/.working/rootfs/d" = joinSlash [joinSlash ["/roots"; working; "rootfs"]; Path d] /\
            (runProg (model faultsMknodEPERM) exSquashfs wDeleted).1.1
            = Err (Wrapf (Errno EPERM) ("couldn't mknod whiteout for " +:+ Path d)).
Proof.
  assert (H1 : In ("/roots/.working/rootfs/d", S_IFCHR, Mkdev 0 0, Some (Errno EPERM))
                  (mknods (runProg (model faultsMknodEPERM) exSquashfs wDeleted).2))
    by (vm_compute; left; reflexivity).
  assert (H2 : Errno EPERM <> Errno ENOENT /\ Errno EPERM <> Errno ENOTDIR)
    by (split; discriminate).
  split; [exact H1 | ]. split; [exact H2 | ].
  exact (proj1 (C6_mknod_error_is_fatal_unless_tolerated joinSlash working (model faultsMknodEPERM)
                  "layer" "me@host" (exArgs "squashfs") wDeleted _ _ _ (run_eta _))
               _ _ _ _ H1 H2).
Defined.

(** The deferred cleanup on the example of the specification: b was modified
    and has no whiteout marker; it is removed from the working tree. *)
Lemma C4_witness :
  In exDiffsMinimal (compared runSquashfsMinimal.2) /\
  In exPathsMinimal (packaged runSquashfsMinimal.2) /\
  DiffType exDiffModified = Modified /\
  mknods runSquashfsMinimal.2 = [] /\
  In "/roots/.working/rootfs/b" (removes runSquashfsMinimal.2) /\
  runSquashfsMinimal.1.1 = Ok tt /\
  tree wMinimal !! "/roots/.working/rootfs/b" = Some (File "3") /\
  tree runSquashfsMinimal.1.2 !! "/roots/.working/rootfs/b" = None /\
  tree wMinimal !! "/roots/.working/rootfs/c" = Some (File "4") /\
  tree runSquashfsMinimal.1.2 !! "/roots/.working/rootfs/c" = None.
Proof.
  assert (H1 : In exDiffsMinimal (compared runSquashfsMinimal.2))
    by (vm_compute; left; reflexivity).
  assert (H2 : In exPathsMinimal (packaged runSquashfsMinimal.2))
    by (vm_compute; left; reflexivity).
  assert (H3 : In exDiffModified exDiffsMinimal) by (right; left; reflexivity).
  split; [exact H1 | ]. split; [exact H2 | ]. split; [reflexivity | ].
  split; [vm_compute; reflexivity | ].
  split.
  - exact (C4_cleanup_removes_every_changed_path joinSlash working (model noFaults)
             "layer" "me@host" (exArgs "squashfs") wMinimal _ _ _ _ _ exDiffModified
             (run_eta _) H1 H2 H3 eq_refl).
  - vm_compute. repeat split.
Defined.


(** The garbage collection fails after the one layer was built and cached. *)
Lemma C5_witness :
  In (Some (Errorf "gc: blob in use")) (gcs buildGCFails.2) /\
  buildGCFails.1.1.2 = Some (Errorf "gc: blob in use") /\
  In (gcMessage (Errorf "gc: blob in use")) (printed buildGCFails.2).
Proof.
  assert (Hin : In (Some (Errorf "gc: blob in use")) (gcs buildGCFails.2))
    by (vm_compute; left; reflexivity).
  pose proof (C5_gc_failure_is_logged_and_returned working defaultPath
                "ws.tycho.stacker.git_version" "ws.tycho.stacker.stacker_yaml"
                "2" "amd64" "linux" joinSlash (model faultsGC)
                (NewBuilder (exArgs "tar")) _ exFile (wFresh sfPackaged) _ _ _ _
                (run_eta _) Hin) as H.
  split; [exact Hin | ]. split; [exact (proj1 H) | exact (proj2 H _ eq_refl)].
Defined.

(** The layout does not exist yet ([os.Stat] says so and it is created);
    every other call of the build but [oci.GC] succeeds, the layer has its
    cache entry, and [Build] returns the error of the garbage collection. *)
Lemma C5_counterexample :
  failedCalls buildGCFails.2 = ["os.Stat /oci"; "oci.GC"] /\
  puts buildGCFails.2 = [("a", layerDescriptor "manifest" "commit", None)] /\
  gcs buildGCFails.2 = [Some (Errorf "gc: blob in use")] /\
  buildGCFails.1.1.2 = Some (Errorf "gc: blob in use").
Proof. vm_compute. repeat split; reflexivity. Qed.

(** The cached build-only layer "a" has no snapshot: the layer is done after
    the lookup. *)
Lemma C7_witness :
  Get sfBuildOnly "a" = Some (exLayer [] true) /\
  In ("a", Some (mkCacheEntry "a" zeroDescriptor)) (lookups runHitNoSnapshot.2) /\
  runHitNoSnapshot.1.1 = Ok tt /\
  exists imports post,
    runHitNoSnapshot.2
    = lookupPrefix (exArgs "tar") "a" imports (Some (mkCacheEntry "a" zeroDescriptor)) ++ post /\
    kindsOf [KPrint; KSave] post.
Proof.
  assert (Hget : Get sfBuildOnly "a" = Some (exLayer [] true)) by (vm_compute; reflexivity).
  assert (Hin : In ("a", Some (mkCacheEntry "a" zeroDescriptor)) (lookups runHitNoSnapshot.2))
    by (vm_compute; left; reflexivity).
  split; [exact Hget | ]. split; [exact Hin | ]. split; [vm_compute; reflexivity | ].
  destruct (C7_build_only_hit_is_not_verified working defaultPath
              "ws.tycho.stacker.git_version" "ws.tycho.stacker.stacker_yaml"
              "2" "amd64" "linux" joinSlash (model noFaults)
              (exBuilder "tar" sfBuildOnly) sfBuildOnly "" "root@host" "a"
              (exLayer [] true) (mkCacheEntry "a" zeroDescriptor)
              wHitNoSnapshot _ _ _ Hget eq_refl (run_eta _) Hin)
    as (imports & mid & post & Ht & Hpost & Hsame & _).
  exists imports, post. rewrite (Hsame eq_refl) in Ht. split; [exact Ht | exact Hpost].
Defined.

(** [Build] does not look for the snapshot of a cached build-only layer: with
    no snapshot "a" in the store it makes no call of the store for "a",
    rebuilds nothing and succeeds; and when the entry has another name whose
    snapshot is gone, the failure of [s.Snapshot] is the failure of the
    build. *)
Lemma C7_counterexample :
  elements (snapshots wHitNoSnapshot) = [] /\
  buildHitNoSnapshot.1.1.2 = None /\
  calls buildHitNoSnapshot.2 =
    ["NewStackerfile stacker.yaml"; "NewStorage"; "os.Stat /oci"; "umoci.CreateLayout";
     "OpenCache"; "GitVersion"; "os.Getenv"; "user.Current"; "os.Hostname";
     "s.Delete .working"; "Import a"; "buildCache.Lookup a"; "oci.GC"; "oci.Close";
     "s.Detach"] /\
  elements (snapshots buildHitNoSnapshot.1.2) = [] /\
  buildHitOtherName.1.1.2 = Some (Errorf "no snapshot old") /\
  failedCalls buildHitOtherName.2 = ["os.Stat /oci"; "s.Snapshot old a"].
Proof. vm_compute. repeat split; reflexivity. Qed.

(** The cached packaged layer "a": its reference is set to the cached blob. *)
Lemma C8_witness :
  Get sfPackaged "a" = Some (exLayer [("FOO", "bar")] false) /\
  In ("a", Some (mkCacheEntry "a" exCachedBlob)) (lookups runHitPackaged.2) /\
  refs wHitPackaged !! "a" = None /\
  refs runHitPackaged.1.2 !! "a" = Some exCachedBlob /\
  (exists imports ru post,
      runHitPackaged.2
      = lookupPrefix (exArgs "tar") "a" imports (Some (mkCacheEntry "a" exCachedBlob))
        ++ [Ev (oci_UpdateReference "a" exCachedBlob) ru] ++ post /\
      kindsOf [KPrint; KSave] post) /\
  Forall (fun e => isRebuild e = false) runHitPackaged.2.
Proof.
  assert (Hget : Get sfPackaged "a" = Some (exLayer [("FOO", "bar")] false))
    by (vm_compute; reflexivity).
  assert (Hin : In ("a", Some (mkCacheEntry "a" exCachedBlob)) (lookups runHitPackaged.2))
    by (vm_compute; left; reflexivity).
  split; [exact Hget | ]. split; [exact Hin | ].
  split; [vm_compute; reflexivity | ]. split; [vm_compute; reflexivity | ].
  destruct (C8_cache_hit_repoints_the_reference working defaultPath
              "ws.tycho.stacker.git_version" "ws.tycho.stacker.stacker_yaml"
              "2" "amd64" "linux" joinSlash (model noFaults)
              (exBuilder "tar" sfPackaged) sfPackaged "" "root@host" "a"
              (exLayer [("FOO", "bar")] false) (mkCacheEntry "a" exCachedBlob)
              wHitPackaged _ _ _ Hget eq_refl (run_eta _) Hin)
    as ((imports & ru & post & Ht & Hpost & _) & Hno).
  split; [ | exact Hno].
  exists imports, ru, post. split; [exact Ht | exact Hpost].
Defined.



(** The layer declares FOO=bar over a base environment with HOME only: the
    default PATH is appended. *)
Lemma C10_witness :
  In exCommittedConfig (sets runPackagedTar.2) /\
  configs runPackagedTar.2 = [exBaseConfig] /\
  Env exCommittedConfig
  = Env exBaseConfig ++ declaredEnv (exLayer [("FOO", "bar")] false) ++ ["PATH=" +:+ defaultPath].
Proof.
  assert (Hget : Get sfPackaged "a" = Some (exLayer [("FOO", "bar")] false))
    by (vm_compute; reflexivity).
  assert (Hin : In exCommittedConfig (sets runPackagedTar.2))
    by (vm_compute; left; reflexivity).
  assert (Hcfg : configs runPackagedTar.2 = [exBaseConfig]) by (vm_compute; reflexivity).
  split; [exact Hin | ]. split; [exact Hcfg | ].
  destruct (C10_default_path_when_unset working defaultPath
              "ws.tycho.stacker.git_version" "ws.tycho.stacker.stacker_yaml"
              "2" "amd64" "linux" joinSlash (model noFaults)
              (exBuilder "tar" sfPackaged) sfPackaged "" "root@host" "a"
              (exLayer [("FOO", "bar")] false)
              (wFresh sfPackaged) _ _ _ exCommittedConfig Hget (run_eta _) Hin)
    as (c0 & Hc0 & _ & Hdefault).
  change (In c0 (configs runPackagedTar.2)) in Hc0.
  rewrite Hcfg in Hc0. destruct Hc0 as [<- | []].
  apply Hdefault.
  - intros k [<- | []]. split; [discriminate | reflexivity].
  - intros s [<- | []]. reflexivity.
Defined.

(** ** More theorems at concrete inputs *)

(** The dependency order of the stackerfile fails: nothing but the parse and
    the storage. *)
Lemma Build_stops_on_a_failing_dependency_order_witness :
  In (exFile, Ok sfCycle) (stackerfiles buildCycle.2) /\
  In None (storages buildCycle.2) /\
  buildCycle.1.1 = (NewBuilder (exArgs "tar"), Some (Errorf "dependency cycle: a")) /\
  layouts buildCycle.2 = [] /\
  calls buildCycle.2 = ["NewStackerfile stacker.yaml"; "NewStorage"; "s.Detach"].
Proof.
  assert (H1 : In (exFile, Ok sfCycle) (stackerfiles buildCycle.2))
    by (vm_compute; left; reflexivity).
  assert (H2 : In None (storages buildCycle.2)) by (vm_compute; left; reflexivity).
  pose proof (Build_stops_on_a_failing_dependency_order working defaultPath
                "ws.tycho.stacker.git_version" "ws.tycho.stacker.stacker_yaml"
                "2" "amd64" "linux" joinSlash (model noFaults)
                (NewBuilder (exArgs "tar")) exFile (wFresh sfCycle)
                sfCycle (Errorf "dependency cycle: a") H1 H2 eq_refl) as H.
  split; [exact H1 | ]. split; [exact H2 | ].
  split; [exact (proj1 H) | ]. split; [exact (proj1 (proj2 H)) | ].
  vm_compute. reflexivity.
Defined.

(** Two layers: both are imported, in the order of the stackerfile. *)
Lemma Build_imports_the_layers_in_order_witness :
  In (exFile, Ok sfTwo) (stackerfiles buildTwo.2) /\
  DependencyOrder sfTwo = Ok ["a"; "b"] /\
  buildTwo.1.1.2 = None /\
  imports buildTwo.2 = [("a", None); ("b", None)].
Proof.
  assert (H1 : In (exFile, Ok sfTwo) (stackerfiles buildTwo.2))
    by (vm_compute; left; reflexivity).
  assert (H2 : buildTwo.1.1.2 = None) by (vm_compute; reflexivity).
  pose proof (Build_imports_the_layers_in_order working defaultPath
                "ws.tycho.stacker.git_version" "ws.tycho.stacker.stacker_yaml"
                "2" "amd64" "linux" joinSlash (model noFaults)
                (NewBuilder (exArgs "tar")) exFile (wFresh sfTwo)
                sfTwo ["a"; "b"] H1 eq_refl) as H.
  split; [exact H1 | ]. split; [reflexivity | ]. split; [exact H2 | ].
  exact (proj1 (proj2 H) H2).
Defined.

(** The build-only layer "a", built: a snapshot and a cache entry with the
    empty descriptor. *)
Lemma build_only_layer_leaves_the_layout_alone_witness :
  Get sfBuildOnly "a" = Some (exLayer [] true) /\
  kindsOf kindsOfBuildOnly runBuildOnly.2 /\
  puts runBuildOnly.2 = [("a", zeroDescriptor, None)] /\
  refs runBuildOnly.1.2 = refs (wFresh sfBuildOnly).
Proof.
  assert (Hget : Get sfBuildOnly "a" = Some (exLayer [] true)) by (vm_compute; reflexivity).
  pose proof (build_only_layer_leaves_the_layout_alone working defaultPath
                "ws.tycho.stacker.git_version" "ws.tycho.stacker.stacker_yaml"
                "2" "amd64" "linux" joinSlash (model noFaults)
                (exBuilder "tar" sfBuildOnly) sfBuildOnly "" "root@host" "a"
                (exLayer [] true) (wFresh sfBuildOnly) Hget eq_refl) as H.
  split; [exact Hget | ]. split; [exact (proj1 H) | ].
  split; vm_compute; reflexivity.
Defined.

(** The configured layer: the full command replaces the command and the
    entrypoint. *)
Lemma committed_command_and_entrypoint_witness :
  Get sfConfigured "a" = Some exLayerConfigured /\
  In (exConfiguredConfig, exConfiguredMeta, exConfiguredAnnotations, exConfiguredHistory)
     (setArgs runConfigured.2) /\
  FullCommand exLayerConfigured = Some (Ok (ConfigEntrypoint exConfiguredConfig)) /\
  ConfigCmd exConfiguredConfig = [].
Proof.
  assert (Hget : Get sfConfigured "a" = Some exLayerConfigured) by (vm_compute; reflexivity).
  assert (Hin : In (exConfiguredConfig, exConfiguredMeta, exConfiguredAnnotations,
                    exConfiguredHistory) (setArgs runConfigured.2))
    by (vm_compute; left; reflexivity).
  destruct (committed_command_and_entrypoint working defaultPath
              "ws.tycho.stacker.git_version" "ws.tycho.stacker.stacker_yaml"
              "2" "amd64" "linux" joinSlash (model noFaults)
              (exBuilder "tar" sfConfigured) sfConfigured "" "root@host" "a"
              exLayerConfigured (wFresh sfConfigured) _ _ _ _ Hget Hin)
    as (c0 & _ & Hfull & Hcmd).
  split; [exact Hget | ]. split; [exact Hin | ].
  split; [f_equal; exact Hfull | exact Hcmd].
Defined.

Lemma committed_volumes_labels_and_working_directory_witness :
  In (exConfiguredConfig, exConfiguredMeta, exConfiguredAnnotations, exConfiguredHistory)
     (setArgs runConfigured.2) /\
  NoDup (map fst (Labels exLayerConfigured)) /\
  labelsOf exConfiguredConfig !! "maintainer" = Some "me" /\
  "/data" ∈ volumesOf exConfiguredConfig /\
  ConfigWorkingDir exConfiguredConfig = "/srv".
Proof.
  assert (Hget : Get sfConfigured "a" = Some exLayerConfigured) by (vm_compute; reflexivity).
  assert (Hnd : NoDup (map fst (Labels exLayerConfigured)))
    by (apply NoDup_singleton).
  assert (Hin : In (exConfiguredConfig, exConfiguredMeta, exConfiguredAnnotations,
                    exConfiguredHistory) (setArgs runConfigured.2))
    by (vm_compute; left; reflexivity).
  destruct (committed_volumes_labels_and_working_directory working defaultPath
              "ws.tycho.stacker.git_version" "ws.tycho.stacker.stacker_yaml"
              "2" "amd64" "linux" joinSlash (model noFaults)
              (exBuilder "tar" sfConfigured) sfConfigured "" "root@host" "a"
              exLayerConfigured (wFresh sfConfigured) _ _ _ _ Hget Hnd Hin)
    as (c0 & _ & _ & _ & Hvol & Hlab & _ & Hwd).
  split; [exact Hin | ]. split; [exact Hnd | ].
  split; [apply Hlab; left; reflexivity | ].
  split; [apply Hvol; left; left; reflexivity | exact Hwd].
Defined.

Lemma committed_metadata_and_annotations_witness :
  In (exConfiguredConfig, exConfiguredMeta, exConfiguredAnnotations, exConfiguredHistory)
     (setArgs runConfigured.2) /\
  exists created base,
    exConfiguredMeta = mkMutateMeta created "root@host" "amd64" "linux" /\
    exConfiguredHistory = mkHistory true created "stacker build" "root@host" /\
    exConfiguredAnnotations = <[ "ws.tycho.stacker.stacker_yaml" := "contents" ]> base.
Proof.
  assert (Hget : Get sfConfigured "a" = Some exLayerConfigured) by (vm_compute; reflexivity).
  assert (Hin : In (exConfiguredConfig, exConfiguredMeta, exConfiguredAnnotations,
                    exConfiguredHistory) (setArgs runConfigured.2))
    by (vm_compute; left; reflexivity).
  destruct (committed_metadata_and_annotations working defaultPath
              "ws.tycho.stacker.git_version" "ws.tycho.stacker.stacker_yaml"
              "2" "amd64" "linux" joinSlash (model noFaults)
              (exBuilder "tar" sfConfigured) sfConfigured "" "root@host" "a"
              exLayerConfigured (wFresh sfConfigured) _ _ _ _ Hget Hin)
    as (created & base & _ & _ & Hm & Hh & _ & Ha).
  split; [exact Hin | ]. exists created, base.
  split; [exact Hm | ]. split; [exact Hh | exact (Ha eq_refl)].
Defined.

(** The packaged layer runs its one command from the script. *)
Lemma layer_commands_run_from_the_written_script_witness :
  Get sfPackaged "a" = Some (exLayer [("FOO", "bar")] false) /\
  In (exConfig, "a", "/stacker/.stacker-run.sh", exLayer [("FOO", "bar")] false,
      OnRunFailure (exArgs "tar"), None)
     (runCalls runPackagedTar.2) /\
  writes runPackagedTar.2
  = [("/stacker/imports/a/.stacker-run.sh", "#!/bin/sh -xe" +:+ nl +:+ "true", 493%Z, None)].
Proof.
  assert (Hget : Get sfPackaged "a" = Some (exLayer [("FOO", "bar")] false))
    by (vm_compute; reflexivity).
  assert (Hin : In (exConfig, "a", "/stacker/.stacker-run.sh", exLayer [("FOO", "bar")] false,
                    OnRunFailure (exArgs "tar"), None)
                   (runCalls runPackagedTar.2))
    by (vm_compute; left; reflexivity).
  destruct (layer_commands_run_from_the_written_script working defaultPath
              "ws.tycho.stacker.git_version" "ws.tycho.stacker.stacker_yaml"
              "2" "amd64" "linux" joinSlash (model noFaults)
              (exBuilder "tar" sfPackaged) sfPackaged "" "root@host" "a"
              (exLayer [("FOO", "bar")] false) (wFresh sfPackaged) _ _ _ _ _ _ Hget Hin)
    as (run & Hrun & _ & _ & Hw & _).
  split; [exact Hget | ]. split; [exact Hin | ].
  injection Hrun as <-. exact Hw.
Defined.

(** Without a shell in the working container the layer fails. *)
Lemma layer_without_a_shell_runs_nothing_witness :
  In ("/roots/.working/rootfs/bin/sh", Some (Errno ENOENT)) (stats runNoShell.2) /\
  runNoShell.1.1 = Err (Errorf "rootfs for a does not have a /bin/sh") /\
  runCalls runNoShell.2 = [].
Proof.
  assert (Hget : Get sfPackaged "a" = Some (exLayer [("FOO", "bar")] false))
    by (vm_compute; reflexivity).
  assert (Hin : In ("/roots/.working/rootfs/bin/sh", Some (Errno ENOENT)) (stats runNoShell.2))
    by (vm_compute; left; reflexivity).
  destruct (layer_without_a_shell_runs_nothing working defaultPath
              "ws.tycho.stacker.git_version" "ws.tycho.stacker.stacker_yaml"
              "2" "amd64" "linux" joinSlash (model noFaults)
              (exBuilder "tar" sfPackaged) sfPackaged "" "root@host" "a"
              (exLayer [("FOO", "bar")] false) wNoShell _ _ Hget Hin)
    as (Hr & _ & _ & Hruns).
  split; [exact Hin | ]. split; [exact Hr | exact Hruns].
Defined.

(** The packaged layer is built from a docker image: its working container
    is created. *)
Lemma base_layer_is_fetched_into_a_new_working_container_witness :
  In (baseOptsOf working (exBuilder "tar" sfPackaged) "a" (exLayer [("FOO", "bar")] false),
      {[ exFile := sfPackaged ]}, None)
     (baseLayers runPackagedTar.2) /\
  creates runPackagedTar.2 = [(working, None)] /\ restores runPackagedTar.2 = [].
Proof.
  assert (Hget : Get sfPackaged "a" = Some (exLayer [("FOO", "bar")] false))
    by (vm_compute; reflexivity).
  assert (Hin : In (baseOptsOf working (exBuilder "tar" sfPackaged) "a"
                      (exLayer [("FOO", "bar")] false),
                    {[ exFile := sfPackaged ]}, None)
                   (baseLayers runPackagedTar.2))
    by (vm_compute; left; reflexivity).
  destruct (base_layer_is_fetched_into_a_new_working_container working defaultPath
              "ws.tycho.stacker.git_version" "ws.tycho.stacker.stacker_yaml"
              "2" "amd64" "linux" joinSlash (model noFaults)
              (exBuilder "tar" sfPackaged) sfPackaged "" "root@host" "a"
              (exLayer [("FOO", "bar")] false) (wFresh sfPackaged) _ _ _ Hget Hin)
    as (_ & _ & _ & Hty).
  split; [exact Hin | exact Hty].
Defined.

(** The layer is saved to an OCI layout under [latest] and the git tag. *)
Lemma SaveLayer_copies_the_layer_under_every_tag_witness :
  runSave.1.1 = Ok tt /\
  copies runSave.2 = [("oci:/oci:a", "/mirror:a_latest", true, None);
                      ("oci:/oci:a", "/mirror:a_commit-0", true, None)].
Proof.
  assert (Hr : runSave.1.1 = Ok tt) by (vm_compute; reflexivity).
  destruct (SaveLayer_copies_the_layer_under_every_tag (model noFaults) exSaveArgs sfSaved "a"
              (wFresh sfSaved) Hr) as (isrc & gitTag & Hsrc & Htag & Hcopies).
  split; [exact Hr | ].
  assert (Hi : isrc = mkImageSource OCIType "/mirror" "")
    by (vm_compute in Hsrc; congruence).
  assert (Hg : gitTag = Ok "commit-0") by (vm_compute in Htag; congruence).
  subst isrc gitTag.
  apply (inj (map Some)). etransitivity; [exact Hcopies | reflexivity].
Defined.

(** The registry refuses the first copy. *)
Lemma SaveLayer_stops_at_the_first_failed_copy_witness :
  In ("oci:/oci:a", "/mirror:a_latest", true, Some (Errorf "copy: connection refused"))
     (copies runSaveFails.2) /\
  runSaveFails.1.1 = Err (Errorf "copy: connection refused") /\
  length (copies runSaveFails.2) = 1.
Proof.
  assert (Hin : In ("oci:/oci:a", "/mirror:a_latest", true,
                    Some (Errorf "copy: connection refused")) (copies runSaveFails.2))
    by (vm_compute; left; reflexivity).
  destruct (SaveLayer_stops_at_the_first_failed_copy (model faultsCopy) exSaveArgs sfSaved "a"
              (wFresh sfSaved) _ _ _ _ Hin) as (Hr & cs & Hcs & Hall).
  split; [exact Hin | ]. split; [exact Hr | ]. vm_compute. reflexivity.
Defined.

(** The layer of a stackerfile with a save URL is copied after its cache
    entry is written. *)
Lemma layer_is_saved_only_once_it_is_cached_witness :
  In ("oci:/oci:a", "/mirror:a_latest", true, None) (copies runSavedLayer.2) /\
  lookups runSavedLayer.2 = [("a", None)] /\
  exists d, puts runSavedLayer.2 = [("a", d, None)].
Proof.
  assert (Hget : Get sfSaved "a" = Some (exLayer [] false)) by (vm_compute; reflexivity).
  assert (Hin : In ("oci:/oci:a", "/mirror:a_latest", true, None) (copies runSavedLayer.2))
    by (vm_compute; left; reflexivity).
  destruct (layer_is_saved_only_once_it_is_cached working defaultPath
              "ws.tycho.stacker.git_version" "ws.tycho.stacker.stacker_yaml"
              "2" "amd64" "linux" joinSlash (model noFaults)
              (mkBuilder {[ exFile := sfSaved ]} exSaveArgs) sfSaved "" "root@host" "a"
              (exLayer [] false) (wFresh sfSaved) _ Hget Hin)
    as (_ & [(entry & Hl & _) | (_ & Hl & Hp)]).
  - exfalso. vm_compute in Hl. discriminate Hl.
  - split; [exact Hin | ]. split; [exact Hl | exact Hp].
Defined.
